(** * Sentiment analyzer: multi-signal fusion, keyword matcher, preprocessing

    A shallow embedding of [src/sentiment_analyzer.py] (class
    [SentimentAnalyzer]) and the properties its specification states.

    Modelling conventions.
    - A Python [str] is a list of Unicode code points ([pystr]).
    - A Python [int] is a [Z].  A Python [float] is idealised as an exact
      rational ([Q]) where a property rests on comparisons, guards and
      bounds; there the only rounding modelled is the explicit
      [round(x, 3)].  Where a property is about the value or the order of
      the arithmetic itself, the fusion of lines 240-321 is given a second
      time on binary64 numbers (module [Binary64]).
    - Python's true division raises [ZeroDivisionError]; it is modelled in
      an error monad ([result]) so that the guards of the source are
      visible and "does not raise" is a theorem.
    - NLTK, TextBlob and the Unicode tables behind [str.lower] are
      collaborators outside the repository; they are fields of the record
      [Collaborators], and what the specification assumes of them is
      stated by [lower_contract], [range_contract] and [empty_contract]. *)

From Stdlib Require Import List ZArith NArith QArith Qabs Qminmax Qround.
From Stdlib Require Import Lqa Lia String Ascii Bool.
From Stdlib Require Import Floats.
Import ListNotations.

Set Implicit Arguments.
Set Warnings "-inexact-float".

(** ** Python strings *)

Definition char := N.
Definition pystr := list char.

(** An ASCII literal of the source as a [pystr]. *)
Definition py (s : string) : pystr :=
  List.map N_of_ascii (list_ascii_of_string s).

(** [str.isspace] on one character, which is also the class [\s] of [re]
    on [str] patterns. *)
Definition isspace (c : char) : bool :=
  ((9 <=? c) && (c <=? 13) || (28 <=? c) && (c <=? 32) || (c =? 133)
   || (c =? 160) || (c =? 5760) || (8192 <=? c) && (c <=? 8202)
   || (c =? 8232) || (c =? 8233) || (c =? 8239) || (c =? 8287)
   || (c =? 12288))%N.

(** [[a-zA-Z]] *)
Definition is_ascii_letter (c : char) : bool :=
  ((97 <=? c) && (c <=? 122) || (65 <=? c) && (c <=? 90))%N.

Fixpoint str_eqb (a b : pystr) : bool :=
  match a, b with
  | [], [] => true
  | x :: a', y :: b' => (x =? y)%N && str_eqb a' b'
  | _, _ => false
  end.

Fixpoint startswith (s prefix : pystr) : bool :=
  match prefix, s with
  | [], _ => true
  | _ :: _, [] => false
  | p :: prefix', c :: s' => (p =? c)%N && startswith s' prefix'
  end.

(** [phrase in text]: substring containment. *)
Fixpoint contains (phrase text : pystr) : bool :=
  startswith text phrase
  || match text with
     | [] => false
     | _ :: text' => contains phrase text'
     end.

(** [str.lower] restricted to ASCII, where it is a per-character map. *)
Definition ascii_lower_char (c : char) : char :=
  if ((65 <=? c) && (c <=? 90))%N then (c + 32)%N else c.

Definition ascii_lower (s : pystr) : pystr := List.map ascii_lower_char s.

Definition is_ascii (s : pystr) : Prop := Forall (fun c => (c < 128)%N) s.

(** [s.split()]: the maximal runs of non-whitespace characters.
    [cur] is the run being read, in reverse. *)
Fixpoint split_aux (cur : pystr) (s : pystr) : list pystr :=
  match s with
  | [] => match cur with [] => [] | _ => [rev cur] end
  | c :: s' =>
      if isspace c
      then match cur with
           | [] => split_aux [] s'
           | _ => rev cur :: split_aux [] s'
           end
      else split_aux (c :: cur) s'
  end.

Definition split (s : pystr) : list pystr := split_aux [] s.

(** [sep.join(parts)] *)
Fixpoint join (sep : pystr) (parts : list pystr) : pystr :=
  match parts with
  | [] => []
  | [p] => p
  | p :: rest => p ++ sep ++ join sep rest
  end.

Fixpoint lstrip (s : pystr) : pystr :=
  match s with
  | [] => []
  | c :: s' => if isspace c then lstrip s' else s
  end.

(** [s.strip()] *)
Definition strip (s : pystr) : pystr := rev (lstrip (rev (lstrip s))).

(** ** Python numbers and exceptions *)

Inductive exn : Type := ZeroDivisionError.

Inductive result (A : Type) : Type :=
| Ok (a : A)
| Raise (e : exn).
Arguments Ok {A} a.
Arguments Raise {A} e.

Definition bind {A B : Type} (m : result A) (k : A -> result B) : result B :=
  match m with
  | Ok a => k a
  | Raise e => Raise e
  end.

Notation "x <- m ;; k" := (bind m (fun x => k))
  (at level 61, m at next level, right associativity).

(** [a / b] on numbers. *)
Definition truediv (a b : Q) : result Q :=
  if Qeq_bool b 0 then Raise ZeroDivisionError else Ok (a / b).

(** [a > b], [a < b], [a >= b], [a <= b] on numbers, as tests. *)
Definition Qgtb (a b : Q) : bool := negb (Qle_bool a b).
Definition Qltb (a b : Q) : bool := negb (Qle_bool b a).
Definition Qgeb (a b : Q) : bool := Qle_bool b a.
Definition Qleb (a b : Q) : bool := Qle_bool a b.

(** [round(x)] to the nearest integer, ties to the even one. *)
Definition round_half_even (x : Q) : Z :=
  let f := Qfloor x in
  let r := x - inject_Z f in
  if Qltb r (1 # 2) then f
  else if Qgtb r (1 # 2) then (f + 1)%Z
  else if Z.even f then f else (f + 1)%Z.

(** [round(x, 3)] on the exact value of [x]: the nearest multiple of 0.001,
    a tie going to the even one.  (A decimal such as 0.4215 is no binary64
    value; the interpreter rounds the float nearest to it, which lies
    beside the tie.) *)
Definition round3 (x : Q) : Q :=
  inject_Z (round_half_even (x * 1000)) / 1000.

(** ** Regular-expression substitution, [re.sub(pattern, '', s)]

    A pattern is given by its anchored matcher: [pattern s] is the length
    of the match that starts at the head of [s], if there is one.  None of
    the three patterns of the source matches the empty string.  The scan
    goes left to right; [skip] counts the characters of the current match
    that are still to be deleted. *)

Fixpoint re_sub_aux (pattern : pystr -> option nat) (skip : nat) (s : pystr)
  : pystr :=
  match s with
  | [] => []
  | c :: s' =>
      match skip with
      | S k => re_sub_aux pattern k s'
      | O =>
          match pattern s with
          | Some (S k) => re_sub_aux pattern k s'
          | _ => c :: re_sub_aux pattern 0 s'
          end
      end
  end.

Definition re_sub (pattern : pystr -> option nat) (s : pystr) : pystr :=
  re_sub_aux pattern 0 s.

(** Length of the longest prefix matched by [\S*]. *)
Fixpoint nonspace_run (s : pystr) : nat :=
  match s with
  | [] => O
  | c :: s' => if isspace c then O else S (nonspace_run s')
  end.

(** [lit\S+] for a literal [lit]; [\S+] is greedy and nothing follows it. *)
Definition lit_nonspace (lit : pystr) (s : pystr) : option nat :=
  if startswith s lit
  then match nonspace_run (skipn (List.length lit) s) with
       | O => None
       | S n => Some (List.length lit + S n)%nat
       end
  else None.

(** [p1|p2]: the first alternative that matches. *)
Definition alt (p1 p2 : pystr -> option nat) (s : pystr) : option nat :=
  match p1 s with
  | Some n => Some n
  | None => p2 s
  end.

(** [r'http\S+|www\S+|https\S+'] *)
Definition url_pattern : pystr -> option nat :=
  alt (lit_nonspace (py "http"))
      (alt (lit_nonspace (py "www")) (lit_nonspace (py "https"))).

(** [r'\S+@\S+']: the first [\S+] is greedy and gives characters back one
    at a time, from [k] down to one, until an [@] followed by [\S+] is
    found. *)
Fixpoint email_backtrack (s : pystr) (k : nat) : option nat :=
  match k with
  | O => None
  | S k' =>
      match skipn k s with
      | c :: rest =>
          if (c =? 64)%N
          then match nonspace_run rest with
               | O => email_backtrack s k'
               | S n => Some (k + 1 + S n)%nat
               end
          else email_backtrack s k'
      | [] => email_backtrack s k'
      end
  end.

Definition email_pattern (s : pystr) : option nat :=
  email_backtrack s (nonspace_run s).

(** A character kept by [r'[^a-zA-Z\s!?.]']. *)
Definition kept_char (c : char) : bool :=
  is_ascii_letter c || isspace c || (c =? 33)%N || (c =? 63)%N || (c =? 46)%N.

(** [r'[^a-zA-Z\s!?.]'] *)
Definition special_pattern (s : pystr) : option nat :=
  match s with
  | c :: _ => if kept_char c then None else Some 1%nat
  | [] => None
  end.

(** ** Score records *)

(** The dict returned by [SentimentIntensityAnalyzer.polarity_scores]. *)
Record PolarityScores : Type := {
  pos : Q;
  neg : Q;
  neu : Q;
  raw_compound : Q
}.

(** The dict returned by [analyze_sentiment_vader]. *)
Record VaderScores : Type := {
  positive : Q;
  negative : Q;
  neutral : Q;
  compound : Q
}.

(** The dict returned by [analyze_sentiment_textblob]. *)
Record TextBlobScores : Type := {
  polarity : Q;
  subjectivity : Q
}.

(** One entry of [sentence_sentiments]. *)
Record SentenceSentiment : Type := {
  sentence : pystr;
  sentiment : pystr;
  confidence : Q
}.

(** ** Collaborators: NLTK, TextBlob, [str.lower] *)

Record Collaborators : Type := {
  str_lower : pystr -> pystr;
  polarity_scores : pystr -> PolarityScores;
  textblob_sentiment : pystr -> Q * Q;
  sent_tokenize : pystr -> list pystr;
  word_tokenize : pystr -> list pystr;
  lemmatize : pystr -> pystr;
  stop_words : pystr -> bool
}.

(** [str.lower] is the ASCII map on ASCII strings. *)
Definition lower_contract (E : Collaborators) : Prop :=
  forall s, is_ascii s -> str_lower E s = ascii_lower s.

(** Compound and polarity lie in [[-1, 1]] (data model of the
    specification). *)
Definition range_contract (E : Collaborators) : Prop :=
  forall t,
    (-1 <= raw_compound (polarity_scores E t) <= 1)
    /\ (-1 <= fst (textblob_sentiment E t) <= 1).

(** What the collaborators return on the empty string. *)
Definition empty_contract (E : Collaborators) : Prop :=
  raw_compound (polarity_scores E []) == 0
  /\ fst (textblob_sentiment E []) == 0
  /\ sent_tokenize E [] = []
  /\ word_tokenize E [] = [].

(** The three labels. *)
Definition POSITIVE : pystr := py "positive".
Definition NEGATIVE : pystr := py "negative".
Definition NEUTRAL : pystr := py "neutral".

(** ** The phrase tables of [classify_overall_sentiment] *)

Definition strong_negative_phrases : list pystr :=
  List.map py
    [ "rubbish"; "utter rubbish"; "complete rubbish"; "total rubbish";
      "hopeless"; "completely hopeless"; "utterly hopeless";
      "waste of"; "waste of time"; "waste of money"; "waste of film";
      "terrible"; "horrible"; "awful"; "dreadful"; "atrocious";
      "error of judgment"; "huge error"; "big mistake"; "disaster";
      "pathetic"; "abysmal"; "appalling"; "disgraceful";
      "should hand in"; "should resign"; "should quit";
      "unacceptable"; "inexcusable"; "unforgivable";
      "disappointing"; "disappointed"; "disappointment";
      "bitterly disappointing"; "hugely disappointing"; "let down"; "letdown";
      "to my disappointment"; "what a disappointment";
      "sad sight"; "bad imitation"; "poor imitation";
      "pretty weak"; "very weak"; "quite weak"; "weak storyline"; "weak plot";
      "not very good"; "not that good"; "not so good"; "isnt that good";
      "didn't laugh"; "didnt laugh"; "never laughed";
      "boring"; "tedious"; "dull"; "bland"; "mediocre"; "forgettable";
      "wouldn't recommend"; "would not recommend"; "cannot recommend";
      "don't bother"; "dont bother"; "skip this"; "avoid this";
      "not worth"; "waste your time"; "save your money";
      "fails to"; "failed to"; "lacks"; "lacking";
      "worse than"; "inferior to"; "pales in comparison";
      "nothing like"; "far from"; "falls short" ]%string.

Definition strong_positive_phrases : list pystr :=
  List.map py
    [ "excellent"; "outstanding"; "brilliant"; "fantastic"; "amazing";
      "masterpiece"; "incredible"; "superb"; "phenomenal"; "extraordinary";
      "highly recommend"; "must see"; "must watch"; "loved it"; "love it";
      "best ever"; "best movie"; "best film"; "thoroughly enjoyed";
      "blown away"; "exceeded expectations"; "pleasantly surprised" ]%string.

Definition hope_disappointment_patterns : list pystr :=
  List.map py
    [ "hoping"; "hoped"; "expected"; "expecting"; "wanted";
      "wished"; "thought it would"; "should have been";
      "could have been"; "was supposed to" ]%string.

(** [sum(1 for phrase in phrases if phrase in text_lower)] *)
Definition count_phrases (phrases : list pystr) (text_lower : pystr) : Z :=
  fold_right Z.add 0%Z
    (List.map (fun _ => 1%Z)
       (filter (fun phrase => contains phrase text_lower) phrases)).

(** [any(pattern in text_lower for pattern in hope_disappointment_patterns)] *)
Definition has_hope_disappointment (text_lower : pystr) : bool :=
  existsb (fun pattern => contains pattern text_lower)
    hope_disappointment_patterns.

(** Lines 237-238, guarded by line 234: the pair
    [(negative_keyword_count, positive_keyword_count)] after the
    hope-disappointment rule. *)
Definition adjust_keyword_counts (text_lower : pystr)
    (negative_keyword_count positive_keyword_count : Z) : Z * Z :=
  if has_hope_disappointment text_lower
     && contains (py "disappointment") text_lower
  then (negative_keyword_count + 1, Z.max 0 (positive_keyword_count - 2))%Z
  else (negative_keyword_count, positive_keyword_count).

(** Lines 229-238: the keyword counts that the fusion uses,
    [(negative_keyword_count, positive_keyword_count)]. *)
Definition keyword_counts (text_lower : pystr) : Z * Z :=
  let negative_keyword_count :=
    count_phrases strong_negative_phrases text_lower in
  let positive_keyword_count :=
    count_phrases strong_positive_phrases text_lower in
  adjust_keyword_counts text_lower negative_keyword_count
    positive_keyword_count.

(** Lines 240-245, in exact arithmetic; [Binary64.keyword_adjustment] is
    the value in binary64. *)
Definition keyword_adjustment (negative_keyword_count positive_keyword_count : Z)
  : Q :=
  if (negative_keyword_count >? positive_keyword_count)%Z
  then -0.1 * inject_Z (Z.min negative_keyword_count 3)
  else if (positive_keyword_count >? negative_keyword_count)%Z
  then 0.1 * inject_Z (Z.min positive_keyword_count 3)
  else 0.

(** The counters of the loop of lines 247-262.  ([total_sentences], line
    264, is assigned and never read; it is left out.) *)
Record Tally : Type := {
  positive_count : Z;
  negative_count : Z;
  neutral_count : Z;
  negative_intensity_sum : Q;
  positive_intensity_sum : Q
}.

Definition tally0 : Tally :=
  {| positive_count := 0; negative_count := 0; neutral_count := 0;
     negative_intensity_sum := 0; positive_intensity_sum := 0 |}.

(** One iteration of the loop. *)
Definition tally_step (t : Tally) (sent : SentenceSentiment) : Tally :=
  if str_eqb (sentiment sent) POSITIVE
  then {| positive_count := positive_count t + 1;
          negative_count := negative_count t;
          neutral_count := neutral_count t;
          negative_intensity_sum := negative_intensity_sum t;
          positive_intensity_sum := positive_intensity_sum t + confidence sent |}
  else if str_eqb (sentiment sent) NEGATIVE
  then {| positive_count := positive_count t;
          negative_count := negative_count t + 1;
          neutral_count := neutral_count t;
          negative_intensity_sum := negative_intensity_sum t + confidence sent;
          positive_intensity_sum := positive_intensity_sum t |}
  else {| positive_count := positive_count t;
          negative_count := negative_count t;
          neutral_count := neutral_count t + 1;
          negative_intensity_sum := negative_intensity_sum t;
          positive_intensity_sum := positive_intensity_sum t |}.

Definition tally_sentences (sentence_sentiments : list SentenceSentiment)
  : Tally :=
  fold_left tally_step sentence_sentiments tally0.

(** What the loop maintains when every confidence lies in [[0, 1]]. *)
Definition tally_inv (t : Tally) : Prop :=
  (0 <= positive_count t)%Z
  /\ (0 <= negative_count t)%Z
  /\ (0 <= neutral_count t)%Z
  /\ 0 <= negative_intensity_sum t <= inject_Z (negative_count t)
  /\ 0 <= positive_intensity_sum t <= inject_Z (positive_count t).

(** Lines 266-270. *)
Definition sentence_balance (t : Tally) : result Q :=
  if (positive_count t + negative_count t >? 0)%Z
  then truediv (inject_Z (positive_count t - negative_count t))
               (inject_Z (positive_count t + negative_count t))
  else Ok 0.

(** Line 273. *)
Definition avg_negative_intensity (t : Tally) : result Q :=
  if (negative_count t >? 0)%Z
  then truediv (negative_intensity_sum t) (inject_Z (negative_count t))
  else Ok 0.

(** Line 274. *)
Definition avg_positive_intensity (t : Tally) : result Q :=
  if (positive_count t >? 0)%Z
  then truediv (positive_intensity_sum t) (inject_Z (positive_count t))
  else Ok 0.

(** Lines 276-281. *)
Definition intensity_adjustment (t : Tally) (avg_neg avg_pos : Q) : Q :=
  if Qgtb avg_neg 0.5 && (negative_count t >=? 2)%Z
  then -0.15 * (avg_neg - 0.5)
  else if Qgtb avg_pos 0.5 && (positive_count t >=? 2)%Z
  then 0.15 * (avg_pos - 0.5)
  else 0.

(** The condition of line 291. *)
Definition signals_disagree (compound polarity : Q) : bool :=
  Qgtb compound 0 && Qltb polarity 0 || Qltb compound 0 && Qgtb polarity 0.

(** Lines 283-292, in exact arithmetic; [Binary64.combined_score] is the
    sum as the interpreter rounds it, term after term. *)
Definition combined_score
    (compound polarity sentence_balance keyword_adjustment
       intensity_adjustment : Q) : Q :=
  compound * 0.30
  + polarity * 0.15
  + sentence_balance * 0.25
  + keyword_adjustment
  + intensity_adjustment
  + (if signals_disagree compound polarity then polarity * 0.10 else 0).

(** Lines 294-311. *)
Definition overall_label
    (combined_score : Q) (negative_keyword_count positive_keyword_count : Z)
    (t : Tally) (avg_neg avg_pos : Q) : pystr :=
  if Qgeb combined_score 0.12 then POSITIVE
  else if Qleb combined_score (-0.08) then NEGATIVE
  else if (negative_keyword_count >? positive_keyword_count)%Z then NEGATIVE
  else if (positive_keyword_count >? negative_keyword_count)%Z then POSITIVE
  else if (negative_count t >? positive_count t)%Z && Qgtb avg_neg 0.3
  then NEGATIVE
  else if (positive_count t >? negative_count t)%Z && Qgtb avg_pos 0.3
  then POSITIVE
  else NEUTRAL.

(** The condition of line 316. *)
Definition strong_keyword_signal
    (negative_keyword_count positive_keyword_count : Z) : bool :=
  (negative_keyword_count >=? 2)%Z || (positive_keyword_count >=? 2)%Z.

(** The condition of lines 319-320. *)
Definition signals_agree (compound polarity sentence_balance : Q) : bool :=
  Qgtb compound 0 && Qgtb polarity 0 && Qgtb sentence_balance 0
  || Qltb compound 0 && Qltb polarity 0 && Qltb sentence_balance 0.

(** Lines 313-321: [confidence] before the final [round]. *)
Definition overall_confidence
    (combined_score : Q) (negative_keyword_count positive_keyword_count : Z)
    (compound polarity sentence_balance : Q) : Q :=
  let confidence := Qabs combined_score in
  let confidence :=
    if strong_keyword_signal negative_keyword_count positive_keyword_count
    then Qmin (confidence + 0.2) 1.0
    else confidence in
  let confidence :=
    if signals_agree compound polarity sentence_balance
    then Qmin (confidence * 1.2) 1.0
    else confidence in
  confidence.

(** The local variables of [classify_overall_sentiment] when it reaches its
    [return]; [tally] gathers the five counters of the sentence loop. *)
Module Locals.
Record t : Type := {
  compound : Q;
  polarity : Q;
  negative_keyword_count : Z;
  positive_keyword_count : Z;
  keyword_adjustment : Q;
  tally : Tally;
  sentence_balance : Q;
  avg_negative_intensity : Q;
  avg_positive_intensity : Q;
  intensity_adjustment : Q;
  combined_score : Q;
  sentiment : pystr;
  confidence : Q
}.
End Locals.

(** The dict returned by [get_detailed_analysis]; [result_confidence] is
    its key ['confidence']. *)
Record AnalysisResult : Type := {
  overall_sentiment : pystr;
  result_confidence : Q;
  vader_scores : VaderScores;
  textblob_scores : TextBlobScores;
  processed_tokens : list pystr;
  token_count : Z;
  sentence_count : Z;
  sentence_analysis : list SentenceSentiment;
  cleaned_text : pystr
}.

(** ** The methods of [SentimentAnalyzer] *)

Section Methods.

Variable self : Collaborators.

Definition preprocess_text (text : pystr) : list pystr * pystr :=
  let text_lower := str_lower self text in
  let text_cleaned := re_sub url_pattern text_lower in
  let text_cleaned := re_sub email_pattern text_cleaned in
  let text_cleaned := re_sub special_pattern text_cleaned in
  let text_cleaned := join (py " ") (split text_cleaned) in
  let tokens := word_tokenize self text_cleaned in
  let processed_tokens :=
    List.map (lemmatize self)
      (filter (fun token =>
                 negb (stop_words self (str_lower self token))
                 && (2 <? List.length token)%nat)
         tokens) in
  (processed_tokens, text_cleaned).

Definition analyze_sentiment_vader (text : pystr) : VaderScores :=
  let scores := polarity_scores self text in
  {| positive := round3 (pos scores);
     negative := round3 (neg scores);
     neutral := round3 (neu scores);
     compound := round3 (raw_compound scores) |}.

Definition analyze_sentiment_textblob (text : pystr) : TextBlobScores :=
  let blob := textblob_sentiment self text in
  {| polarity := round3 (fst blob);
     subjectivity := round3 (snd blob) |}.

Definition classify_sentiment (compound_score : Q) : pystr :=
  if Qgeb compound_score 0.05 then POSITIVE
  else if Qleb compound_score (-0.05) then NEGATIVE
  else NEUTRAL.

(** Line 228: [text.lower() if text else ""]. *)
Definition lowered (text : pystr) : pystr :=
  match text with
  | [] => []
  | _ :: _ => str_lower self text
  end.

(** Lines 177-321, up to the [return]. *)
Definition classify_locals
    (vader_scores : VaderScores) (textblob_scores : TextBlobScores)
    (sentence_sentiments : list SentenceSentiment) (text : pystr)
  : result Locals.t :=
  let compound := compound vader_scores in
  let polarity := polarity textblob_scores in
  let text_lower := lowered text in
  let '(negative_keyword_count, positive_keyword_count) :=
    keyword_counts text_lower in
  let keyword_adjustment :=
    keyword_adjustment negative_keyword_count positive_keyword_count in
  let t := tally_sentences sentence_sentiments in
  sentence_balance <- sentence_balance t ;;
  avg_negative_intensity <- avg_negative_intensity t ;;
  avg_positive_intensity <- avg_positive_intensity t ;;
  let intensity_adjustment :=
    intensity_adjustment t avg_negative_intensity avg_positive_intensity in
  let combined_score :=
    combined_score compound polarity sentence_balance keyword_adjustment
      intensity_adjustment in
  let sentiment :=
    overall_label combined_score negative_keyword_count
      positive_keyword_count t avg_negative_intensity
      avg_positive_intensity in
  let confidence :=
    overall_confidence combined_score negative_keyword_count
      positive_keyword_count compound polarity sentence_balance in
  Ok {| Locals.compound := compound;
        Locals.polarity := polarity;
        Locals.negative_keyword_count := negative_keyword_count;
        Locals.positive_keyword_count := positive_keyword_count;
        Locals.keyword_adjustment := keyword_adjustment;
        Locals.tally := t;
        Locals.sentence_balance := sentence_balance;
        Locals.avg_negative_intensity := avg_negative_intensity;
        Locals.avg_positive_intensity := avg_positive_intensity;
        Locals.intensity_adjustment := intensity_adjustment;
        Locals.combined_score := combined_score;
        Locals.sentiment := sentiment;
        Locals.confidence := confidence |}.

(** Line 323: [return sentiment, round(confidence, 3)]. *)
Definition classify_overall_sentiment
    (vader_scores : VaderScores) (textblob_scores : TextBlobScores)
    (sentence_sentiments : list SentenceSentiment) (text : pystr)
  : result (pystr * Q) :=
  l <- classify_locals vader_scores textblob_scores sentence_sentiments
         text ;;
  Ok (Locals.sentiment l, round3 (Locals.confidence l)).

(** The body of the loop of lines 347-353. *)
Definition sentence_entry (sentence : pystr) : SentenceSentiment :=
  let sent_scores := analyze_sentiment_vader sentence in
  {| sentence := strip sentence;
     sentiment := classify_sentiment (compound sent_scores);
     confidence := Qabs (compound sent_scores) |}.

Definition get_detailed_analysis (text : pystr) : result AnalysisResult :=
  let '(processed_tokens, cleaned_text) := preprocess_text text in
  let vader_scores := analyze_sentiment_vader text in
  let textblob_scores := analyze_sentiment_textblob text in
  let sentences := sent_tokenize self text in
  let sentence_sentiments := List.map sentence_entry sentences in
  r <- classify_overall_sentiment vader_scores textblob_scores
         sentence_sentiments text ;;
  let '(sentiment, confidence) := r in
  Ok {| overall_sentiment := sentiment;
        result_confidence := confidence;
        vader_scores := vader_scores;
        textblob_scores := textblob_scores;
        processed_tokens := processed_tokens;
        token_count := Z.of_nat (List.length processed_tokens);
        sentence_count := Z.of_nat (List.length sentences);
        sentence_analysis := sentence_sentiments;
        cleaned_text := cleaned_text |}.

End Methods.

(** ** A small instance of the collaborators

    It shows that the contracts are satisfiable and lets the model run:
    one sentence per non-empty text, a two-word valence lexicon, and
    whitespace tokenisation. *)

Definition toy_polarity_scores (text : pystr) : PolarityScores :=
  if contains (py "love") (ascii_lower text)
  then {| pos := 0.6; neg := 0; neu := 0.4; raw_compound := 0.6369 |}
  else if contains (py "worst") (ascii_lower text)
  then {| pos := 0; neg := 0.5; neu := 0.5; raw_compound := -0.6249 |}
  else {| pos := 0; neg := 0; neu := 0; raw_compound := 0 |}.

Definition toy_textblob (text : pystr) : Q * Q :=
  if contains (py "love") (ascii_lower text) then (0.5, 0.6)
  else if contains (py "worst") (ascii_lower text) then (-1, 1)
  else (0, 0).

Definition toy : Collaborators :=
  {| str_lower := ascii_lower;
     polarity_scores := toy_polarity_scores;
     textblob_sentiment := toy_textblob;
     sent_tokenize := fun text => match text with [] => [] | _ => [text] end;
     word_tokenize := split;
     lemmatize := fun token => token;
     stop_words := fun token =>
       existsb (str_eqb token) (List.map py ["the"; "was"; "for"; "but"]%string)
  |}.

(** Inputs on which the model is run below: a review with a neutral
    compound score, a mildly positive polarity and one positive sentence. *)
Definition neutral_compound : VaderScores :=
  {| positive := 0.2; negative := 0.2; neutral := 0.6; compound := 0 |}.

Definition mild_polarity : TextBlobScores :=
  {| polarity := 0.4; subjectivity := 0.5 |}.

Definition one_positive_sentence : list SentenceSentiment :=
  [ {| sentence := py "A fine start.";
       sentiment := POSITIVE;
       confidence := 0.2 |} ].

Definition love_text : pystr := py "I absolutely love this, it's fantastic!".

Definition faint_praise : VaderScores :=
  {| positive := 0.1; negative := 0; neutral := 0.9; compound := 0.1 |}.

Definition faint_polarity : TextBlobScores :=
  {| polarity := 0.2; subjectivity := 0.5 |}.

(** ** The wording of the specification

    The sign conditions of section 4.6, steps 5 and 8, and the text
    preprocessing steps of section 4.1, as the specification words them. *)

(** "compound>0 and polarity<0, or vice versa" *)
Definition sign_disagreement (compound polarity : Q) : Prop :=
  (compound > 0 /\ polarity < 0) \/ (compound < 0 /\ polarity > 0).

(** "compound, polarity, and sentence_balance all agree in sign" *)
Definition sign_agreement (compound polarity sentence_balance : Q) : Prop :=
  (compound > 0 /\ polarity > 0 /\ sentence_balance > 0)
  \/ (compound < 0 /\ polarity < 0 /\ sentence_balance < 0).

(** "strip characters outside {letters, whitespace, !?.}" *)
Definition strip_other_characters (s : pystr) : pystr := filter kept_char s.

(** "collapse whitespace" *)
Definition collapse_whitespace (s : pystr) : pystr := join (py " ") (split s).

(** "drop stopwords and tokens of length <= 2" *)
Definition drop_stopwords_and_short (self : Collaborators)
    (tokens : list pystr) : list pystr :=
  filter (fun token =>
            negb (stop_words self (str_lower self token))
            && negb (List.length token <=? 2)%nat)
    tokens.

(** What the cleaned text may contain: a letter, the space that
    [collapse_whitespace] inserts, or one of [!], [?], [.]. *)
Definition clean_char (c : char) : Prop :=
  is_ascii_letter c = true \/ c = 32%N \/ c = 33%N \/ c = 63%N \/ c = 46%N.

(** The example texts of the specification. *)
Definition hoping_text : pystr :=
  py "I was hoping for an excellent film but what a disappointment".

Definition rubbish_text : pystr :=
  py ("The acting was fine but honestly this was utter rubbish, "
      ++ "a complete waste of time, and frankly pathetic.").

(** ** The rest of the module: batch analysis and the utility functions *)

(** [analyze_multiple_texts], lines 375-389: the loop appends one result per
    text; an exception of one analysis ends the call. *)
Definition analyze_multiple_texts (self : Collaborators)
    (texts : list pystr) : result (list AnalysisResult) :=
  fold_left
    (fun acc text =>
       results <- acc ;;
       result <- get_detailed_analysis self text ;;
       Ok (results ++ [result]))
    texts (Ok []).

(** [extract_key_words], lines 393-405: [tokens[:10]]. *)
Definition extract_key_words (text : pystr) (analyzer : Collaborators)
  : list pystr :=
  let '(tokens, _) := preprocess_text analyzer text in
  firstn 10 tokens.

Definition HIGH : pystr := py "high".
Definition MEDIUM : pystr := py "medium".
Definition LOW : pystr := py "low".

(** [get_sentiment_confidence], lines 408-424. *)
Definition get_sentiment_confidence (score : Q) : pystr :=
  let abs_score := Qabs score in
  if Qgeb abs_score 0.5 then HIGH
  else if Qgeb abs_score 0.2 then MEDIUM
  else LOW.

(** The label with the opposite sign. *)
Definition mirror_label (label : pystr) : pystr :=
  if str_eqb label POSITIVE then NEGATIVE
  else if str_eqb label NEGATIVE then POSITIVE
  else label.

(** A string without whitespace at either end. *)
Definition stripped (s : pystr) : Prop :=
  match s with
  | [] => True
  | c :: _ => isspace c = false /\ isspace (last s c) = false
  end.

(** No two spaces in a row. *)
Fixpoint single_spaced (s : pystr) : Prop :=
  match s with
  | [] => True
  | c :: s' =>
      match s' with
      | [] => True
      | d :: _ => ~ (c = 32%N /\ d = 32%N)
      end /\ single_spaced s'
  end.

(** ** The Flask application, [src/app.py]

    A handler is modelled from the value of [request.get_json()] (or from
    the uploaded file) to the pair of a body and a status code that it
    returns; [jsonify] is left implicit.  The module-level [analyzer] is
    the [Collaborators] argument. *)

(** What [request.get_json()] gives: [None], a [bool], a number, a [str],
    a [list] or a [dict].  A dict is given by its items; its keys are
    distinct. *)
#[warnings="-register-all"] Inductive json : Type :=
| JNull
| JBool (b : bool)
| JNum (x : Q)
| JStr (s : pystr)
| JList (items : list json)
| JObj (items : list (pystr * json)).

(** The exceptions that the bodies of the handlers can raise. *)
Inductive py_exception : Type :=
| TypeError
| AttributeError
| KeyError
| IndexError
| UnicodeDecodeError
| Raised (e : exn).

(** A computation that returns or raises. *)
Inductive attempt (A : Type) : Type :=
| Return (a : A)
| Throw (e : py_exception).
Arguments Return {A} a.
Arguments Throw {A} e.

Definition attempt_bind {A B : Type} (m : attempt A) (k : A -> attempt B)
  : attempt B :=
  match m with
  | Return a => k a
  | Throw e => Throw e
  end.

Notation "x <~ m ;; k" := (attempt_bind m (fun x => k))
  (at level 61, m at next level, right associativity).

Definition lift {A : Type} (r : result A) : attempt A :=
  match r with
  | Ok a => Return a
  | Raise e => Throw (Raised e)
  end.

(** [bool(v)] *)
Definition truthy (v : json) : bool :=
  match v with
  | JNull => false
  | JBool b => b
  | JNum x => negb (Qeq_bool x 0)
  | JStr s => match s with [] => false | _ => true end
  | JList items => match items with [] => false | _ => true end
  | JObj items => match items with [] => false | _ => true end
  end.

(** [d.get(key)] on the items of a dict. *)
Fixpoint lookup (key : pystr) (items : list (pystr * json)) : option json :=
  match items with
  | [] => None
  | (k, v) :: rest => if str_eqb k key then Some v else lookup key rest
  end.

(** [key in v] for a [str] key. *)
Definition py_in (key : pystr) (v : json) : attempt bool :=
  match v with
  | JObj items =>
      Return (match lookup key items with Some _ => true | None => false end)
  | JList items =>
      Return (existsb
                (fun item =>
                   match item with JStr s => str_eqb s key | _ => false end)
                items)
  | JStr s => Return (contains key s)
  | JNull | JBool _ | JNum _ => Throw TypeError
  end.

(** [v[key]] for a [str] key. *)
Definition getitem (v : json) (key : pystr) : attempt json :=
  match v with
  | JObj items =>
      match lookup key items with
      | Some x => Return x
      | None => Throw KeyError
      end
  | _ => Throw TypeError
  end.

(** [v.strip()] *)
Definition strip_method (v : json) : attempt pystr :=
  match v with
  | JStr s => Return (strip s)
  | _ => Throw AttributeError
  end.

(** [len(s)] *)
Definition len {A : Type} (l : list A) : Z := Z.of_nat (List.length l).

(** [s.endswith(suffix)] *)
Definition endswith (s suffix : pystr) : bool :=
  startswith (rev s) (rev suffix).

(** [s.split(sep)] for a non-empty [sep]; [skip] counts the characters of
    the separator just found that are still to be passed over, [cur] is the
    part being read, in reverse. *)
Fixpoint split_on_aux (sep : pystr) (skip : nat) (cur : pystr) (s : pystr)
  : list pystr :=
  match s with
  | [] => [rev cur]
  | c :: s' =>
      match skip with
      | S k => split_on_aux sep k cur s'
      | O =>
          if startswith s sep
          then rev cur :: split_on_aux sep (List.length sep - 1) [] s'
          else split_on_aux sep 0 (c :: cur) s'
      end
  end.

Definition split_on (sep : pystr) (s : pystr) : list pystr :=
  split_on_aux sep 0 [] s.

(** [s.rsplit(sep, 1)] for a one-character [sep]: cut at its last
    occurrence. *)
Fixpoint rsplit1_aux (sep : char) (after : pystr) (reversed : pystr)
  : list pystr :=
  match reversed with
  | [] => [after]
  | c :: before =>
      if (c =? sep)%N then [rev before; after]
      else rsplit1_aux sep (c :: after) before
  end.

Definition rsplit1 (sep : char) (s : pystr) : list pystr :=
  rsplit1_aux sep [] (rev s).

(** [l[i]] *)
Definition index {A : Type} (l : list A) (i : nat) : attempt A :=
  match nth_error l i with
  | Some a => Return a
  | None => Throw IndexError
  end.

Definition ALLOWED_EXTENSIONS : list pystr :=
  List.map py ["txt"; "pdf"; "docx"]%string.

(** [allowed_file], lines 31-33. *)
Definition allowed_file (self : Collaborators) (filename : pystr)
  : attempt bool :=
  if contains (py ".") filename
  then ext <~ index (rsplit1 46%N filename) 1 ;;
       Return (existsb (str_eqb (str_lower self ext)) ALLOWED_EXTENSIONS)
  else Return false.

(** [text[:100] + ('...' if len(text) > 100 else '')], lines 161 and 222. *)
Definition preview (text : pystr) : pystr :=
  firstn 100 text ++ (if (len text >? 100)%Z then py "..." else []).

(** [[p.strip() for p in parts if p.strip()]], lines 143 and 147. *)
Definition stripped_nonblank (parts : list pystr) : list pystr :=
  List.map strip
    (filter (fun p => match strip p with [] => false | _ => true end) parts).

(** Lines 143-149 of [analyze_file]. *)
Definition file_paragraphs (content : pystr) : list pystr :=
  let paragraphs := stripped_nonblank (split_on [10; 10]%N content) in
  if (len paragraphs <=? 1)%Z
  then let split_by_single := stripped_nonblank (split_on [10]%N content) in
       if (len split_by_single >? 1)%Z then split_by_single else paragraphs
  else paragraphs.

(** The entries of the lists that the handlers return. *)
Record BatchItem : Type := {
  item_text : pystr;
  item_analysis : AnalysisResult
}.

Record FileItem : Type := {
  text_preview : pystr;
  analysis : AnalysisResult
}.

(** The dict [stats] of [get_stats]. *)
Module Stats.
Record t : Type := {
  character_count : Z;
  word_count : Z;
  sentence_count : Z;
  token_count : Z;
  positive : Q;
  negative : Q;
  neutral : Q;
  dominant_sentiment : pystr;
  confidence : Q
}.
End Stats.

(** The success body of [analyze_file]. *)
Module FileResult.
Record t : Type := {
  filename : pystr;
  is_batch : bool;
  data : AnalysisResult + list FileItem;
  batch_results : option (list FileItem)
}.
End FileResult.

(** The bodies that the handlers pass to [jsonify]. *)
Inductive Body : Type :=
| ErrorBody (error : pystr)
| ExceptionBody (prefix : pystr) (e : py_exception)
| AnalysisBody (data : AnalysisResult)
| BatchBody (batch_count : Z) (data : list BatchItem)
| StatsBody (data : Stats.t)
| FileBody (data : FileResult.t).

Definition Response : Type := (Body * Z)%type.

(** [try: ... except Exception as e: return jsonify({'error': f'...'}), 500] *)
Definition try_except (body : attempt Response) (prefix : pystr) : Response :=
  match body with
  | Return r => r
  | Throw e => (ExceptionBody prefix e, 500%Z)
  end.

(** [analyze_text], lines 51-101. *)
Definition analyze_text (self : Collaborators) (data : json) : Response :=
  try_except
    (missing <~ (if negb (truthy data) then Return true
                 else present <~ py_in (py "text") data ;;
                      Return (negb present)) ;;
     if missing : bool
     then Return (ErrorBody (py "Missing text field in request"), 400%Z)
     else
       field <~ getitem data (py "text") ;;
       text <~ strip_method field ;;
       match text with
       | [] => Return (ErrorBody (py "Text field cannot be empty"), 400%Z)
       | _ =>
           if (len text >? 50000)%Z
           then Return
                  (ErrorBody
                     (py "Text exceeds maximum length of 50000 characters"),
                   400%Z)
           else
             result <~ lift (get_detailed_analysis self text) ;;
             Return (AnalysisBody result, 200%Z)
       end)
    (py "Error analyzing text: ").

(** The comprehension of line 210,
    [[t.strip() for t in texts if t.strip()]]. *)
Fixpoint strip_texts (texts : list json) : attempt (list pystr) :=
  match texts with
  | [] => Return []
  | t :: rest =>
      probe <~ strip_method t ;;
      match probe with
      | [] => strip_texts rest
      | _ =>
          text <~ strip_method t ;;
          others <~ strip_texts rest ;;
          Return (text :: others)
      end
  end.

(** The loop of lines 218-224. *)
Fixpoint batch_results (self : Collaborators) (texts : list pystr)
    (results : list BatchItem) : attempt (list BatchItem) :=
  match texts with
  | [] => Return results
  | text :: rest =>
      result <~ lift (get_detailed_analysis self text) ;;
      batch_results self rest
        (results ++ [ {| item_text := preview text;
                         item_analysis := result |} ])
  end.

(** [analyze_batch], lines 179-235. *)
Definition analyze_batch (self : Collaborators) (data : json) : Response :=
  try_except
    (missing <~ (if negb (truthy data) then Return true
                 else present <~ py_in (py "texts") data ;;
                      Return (negb present)) ;;
     if missing : bool
     then Return (ErrorBody (py "Missing texts field in request"), 400%Z)
     else
       texts <~ getitem data (py "texts") ;;
       match texts with
       | JList texts =>
           if (len texts >? 10)%Z
           then Return
                  (ErrorBody (py "Maximum 10 texts allowed per batch"), 400%Z)
           else
             texts <~ strip_texts texts ;;
             match texts with
             | [] => Return (ErrorBody (py "No valid texts provided"), 400%Z)
             | _ =>
                 results <~ batch_results self texts [] ;;
                 Return (BatchBody (len results) results, 200%Z)
             end
       | _ => Return (ErrorBody (py "texts field must be a list"), 400%Z)
       end)
    (py "Error analyzing batch: ").

(** [get_stats], lines 238-277. *)
Definition get_stats (self : Collaborators) (data : json) : Response :=
  try_except
    (missing <~ (if negb (truthy data) then Return true
                 else present <~ py_in (py "text") data ;;
                      Return (negb present)) ;;
     if missing : bool
     then Return (ErrorBody (py "Missing text field"), 400%Z)
     else
       field <~ getitem data (py "text") ;;
       text <~ strip_method field ;;
       result <~ lift (get_detailed_analysis self text) ;;
       let stats :=
         {| Stats.character_count := len text;
            Stats.word_count := len (split text);
            Stats.sentence_count := sentence_count result;
            Stats.token_count := token_count result;
            Stats.positive := positive (vader_scores result);
            Stats.negative := negative (vader_scores result);
            Stats.neutral := neutral (vader_scores result);
            Stats.dominant_sentiment := overall_sentiment result;
            Stats.confidence := result_confidence result |} in
       Return (StatsBody stats, 200%Z))
    (py "Error getting stats: ").

(** An uploaded file: its name, and what [file.read().decode('utf-8')]
    gives. *)
Record Upload : Type := {
  upload_filename : pystr;
  decoded : attempt pystr
}.

(** The loop of lines 157-163. *)
Fixpoint file_results (self : Collaborators) (paragraphs : list pystr)
    (results : list FileItem) : attempt (list FileItem) :=
  match paragraphs with
  | [] => Return results
  | p :: rest =>
      a <~ lift (get_detailed_analysis self p) ;;
      file_results self rest
        (results ++ [ {| text_preview := preview p; analysis := a |} ])
  end.

(** [analyze_file], lines 104-176; [file] is [request.files.get('file')]
    and [secure_filename] is werkzeug's. *)
Definition analyze_file (self : Collaborators)
    (secure_filename : pystr -> pystr) (file : option Upload) : Response :=
  try_except
    (match file with
     | None => Return (ErrorBody (py "No file part in request"), 400%Z)
     | Some file =>
         match upload_filename file with
         | [] => Return (ErrorBody (py "No selected file"), 400%Z)
         | _ =>
             allowed <~ allowed_file self (upload_filename file) ;;
             if negb allowed
             then Return
                    (ErrorBody (py "File type not allowed. Allowed types: txt"),
                     400%Z)
             else if endswith (upload_filename file) (py ".txt")
             then
               content <~ decoded file ;;
               if (len content >? 50000)%Z
               then Return
                      (ErrorBody
                         (py ("File content exceeds maximum length of "
                              ++ "50000 characters")),
                       400%Z)
               else
                 let paragraphs := file_paragraphs content in
                 match paragraphs with
                 | [] =>
                     Return
                       (ErrorBody (py "No valid content found in file"), 400%Z)
                 | _ =>
                     results <~ file_results self paragraphs [] ;;
                     data <~ (if (len results >? 1)%Z
                              then Return (inr results)
                              else first <~ index results 0 ;;
                                   Return (inl (analysis first))) ;;
                     Return
                       (FileBody
                          {| FileResult.filename :=
                               secure_filename (upload_filename file);
                             FileResult.is_batch := (len results >? 1)%Z;
                             FileResult.data := data;
                             FileResult.batch_results :=
                               if (len results >? 1)%Z then Some results
                               else None |},
                        200%Z)
                 end
             else Return
                    (ErrorBody (py "Currently only .txt files are supported"),
                     400%Z)
         end
     end)
    (py "Error analyzing file: ").

(** What the first statements of [analyze_text], [analyze_batch] and
    [get_stats] make of [data]: the guard [not data or key not in data]
    followed by [data[key]].  [Return None] stands for the 400 answer of
    the guard. *)
Definition required_field (key : pystr) (data : json) : attempt (option json) :=
  match data with
  | JNull => Return None
  | JBool b => if b then Throw TypeError else Return None
  | JNum x => if Qeq_bool x 0 then Return None else Throw TypeError
  | JStr s =>
      match s with
      | [] => Return None
      | _ => if contains key s then Throw TypeError else Return None
      end
  | JList items =>
      if existsb
           (fun item =>
              match item with JStr s => str_eqb s key | _ => false end)
           items
      then Throw TypeError
      else Return None
  | JObj items => Return (lookup key items)
  end.

(** The pattern matches at no position of [s]. *)
Definition matches_nowhere (pattern : pystr -> option nat) (s : pystr) : Prop :=
  forall before after, s = before ++ after -> pattern after = None.

(** The characters at the head of [s] up to the first whitespace. *)
Definition head_run (s : pystr) : pystr := firstn (nonspace_run s) s.

Definition is_prefix (a b : pystr) : Prop := exists rest, b = a ++ rest.

(** ** The fusion arithmetic in binary64

    Lines 240-321 on the numbers the interpreter computes with: a Python
    [float] is an IEEE 754 binary64 value, here a primitive [float]; a
    decimal literal of the source denotes the nearest binary64 value, and
    every operation rounds to nearest, ties to even.  The keyword counts are
    integers and are those of the definitions above.  An [int] that meets a
    [float] is converted first ([of_int]); the integer [0] that the source
    assigns to a variable holding floats otherwise is the float zero.
    Sentence counts stay far below [2^53], where [of_int] is exact and
    [int / int] is the quotient of the two converted values. *)

Module Binary64.

(** [float(z)] *)
Definition of_int (z : Z) : float :=
  SF2Prim (binary_normalize prec emax z 0 false).

(** [a / b] on two [int]s. *)
Definition truediv_int (a b : Z) : result float :=
  if (b =? 0)%Z then Raise ZeroDivisionError
  else Ok (of_int a / of_int b)%float.

(** [a / b] for a [float] and an [int]. *)
Definition truediv (a : float) (b : Z) : result float :=
  if (b =? 0)%Z then Raise ZeroDivisionError
  else Ok (a / of_int b)%float.

(** [min(a, b)]: the first argument unless the second is smaller. *)
Definition min (a b : float) : float := if (b <? a)%float then b else a.

(** The dict returned by [analyze_sentiment_vader]. *)
Record VaderScores : Type := {
  positive : float;
  negative : float;
  neutral : float;
  compound : float
}.

(** The dict returned by [analyze_sentiment_textblob]. *)
Record TextBlobScores : Type := {
  polarity : float;
  subjectivity : float
}.

(** One entry of [sentence_sentiments]. *)
Record SentenceSentiment : Type := {
  sentence : pystr;
  sentiment : pystr;
  confidence : float
}.

(** Lines 240-245. *)
Definition keyword_adjustment
    (negative_keyword_count positive_keyword_count : Z) : float :=
  if (negative_keyword_count >? positive_keyword_count)%Z
  then (-0.1 * of_int (Z.min negative_keyword_count 3))%float
  else if (positive_keyword_count >? negative_keyword_count)%Z
  then (0.1 * of_int (Z.min positive_keyword_count 3))%float
  else 0%float.

(** The counters of the loop of lines 247-262. *)
Record Tally : Type := {
  positive_count : Z;
  negative_count : Z;
  neutral_count : Z;
  negative_intensity_sum : float;
  positive_intensity_sum : float
}.

Definition tally0 : Tally :=
  {| positive_count := 0; negative_count := 0; neutral_count := 0;
     negative_intensity_sum := 0; positive_intensity_sum := 0 |}.

(** One iteration of the loop. *)
Definition tally_step (t : Tally) (sent : SentenceSentiment) : Tally :=
  if str_eqb (sentiment sent) POSITIVE
  then {| positive_count := positive_count t + 1;
          negative_count := negative_count t;
          neutral_count := neutral_count t;
          negative_intensity_sum := negative_intensity_sum t;
          positive_intensity_sum :=
            (positive_intensity_sum t + confidence sent)%float |}
  else if str_eqb (sentiment sent) NEGATIVE
  then {| positive_count := positive_count t;
          negative_count := negative_count t + 1;
          neutral_count := neutral_count t;
          negative_intensity_sum :=
            (negative_intensity_sum t + confidence sent)%float;
          positive_intensity_sum := positive_intensity_sum t |}
  else {| positive_count := positive_count t;
          negative_count := negative_count t;
          neutral_count := neutral_count t + 1;
          negative_intensity_sum := negative_intensity_sum t;
          positive_intensity_sum := positive_intensity_sum t |}.

Definition tally_sentences (sentence_sentiments : list SentenceSentiment)
  : Tally :=
  fold_left tally_step sentence_sentiments tally0.

(** Lines 266-270. *)
Definition sentence_balance (t : Tally) : result float :=
  if (positive_count t + negative_count t >? 0)%Z
  then truediv_int (positive_count t - negative_count t)
                   (positive_count t + negative_count t)
  else Ok 0%float.

(** Line 273. *)
Definition avg_negative_intensity (t : Tally) : result float :=
  if (negative_count t >? 0)%Z
  then truediv (negative_intensity_sum t) (negative_count t)
  else Ok 0%float.

(** Line 274. *)
Definition avg_positive_intensity (t : Tally) : result float :=
  if (positive_count t >? 0)%Z
  then truediv (positive_intensity_sum t) (positive_count t)
  else Ok 0%float.

(** Lines 276-281. *)
Definition intensity_adjustment (t : Tally) (avg_neg avg_pos : float)
  : float :=
  if (0.5 <? avg_neg)%float && (negative_count t >=? 2)%Z
  then (-0.15 * (avg_neg - 0.5))%float
  else if (0.5 <? avg_pos)%float && (positive_count t >=? 2)%Z
  then (0.15 * (avg_pos - 0.5))%float
  else 0%float.

(** The condition of line 291. *)
Definition signals_disagree (compound polarity : float) : bool :=
  (0 <? compound)%float && (polarity <? 0)%float
  || (compound <? 0)%float && (0 <? polarity)%float.

(** Lines 283-292: Python evaluates the sum from left to right. *)
Definition combined_score
    (compound polarity sentence_balance keyword_adjustment
       intensity_adjustment : float) : float :=
  (compound * 0.30
   + polarity * 0.15
   + sentence_balance * 0.25
   + keyword_adjustment
   + intensity_adjustment
   + (if signals_disagree compound polarity then polarity * 0.10 else 0))%float.

(** Lines 294-311. *)
Definition overall_label
    (combined_score : float) (negative_keyword_count positive_keyword_count : Z)
    (t : Tally) (avg_neg avg_pos : float) : pystr :=
  if (0.12 <=? combined_score)%float then POSITIVE
  else if (combined_score <=? -0.08)%float then NEGATIVE
  else if (negative_keyword_count >? positive_keyword_count)%Z then NEGATIVE
  else if (positive_keyword_count >? negative_keyword_count)%Z then POSITIVE
  else if (negative_count t >? positive_count t)%Z && (0.3 <? avg_neg)%float
  then NEGATIVE
  else if (positive_count t >? negative_count t)%Z && (0.3 <? avg_pos)%float
  then POSITIVE
  else NEUTRAL.

(** The condition of lines 319-320. *)
Definition signals_agree (compound polarity sentence_balance : float) : bool :=
  (0 <? compound)%float && (0 <? polarity)%float
  && (0 <? sentence_balance)%float
  || (compound <? 0)%float && (polarity <? 0)%float
     && (sentence_balance <? 0)%float.

(** Lines 313-321: [confidence] before the final [round]. *)
Definition overall_confidence
    (combined_score : float) (negative_keyword_count positive_keyword_count : Z)
    (compound polarity sentence_balance : float) : float :=
  let confidence := abs combined_score in
  let confidence :=
    if strong_keyword_signal negative_keyword_count positive_keyword_count
    then min (confidence + 0.2)%float 1.0%float
    else confidence in
  let confidence :=
    if signals_agree compound polarity sentence_balance
    then min (confidence * 1.2)%float 1.0%float
    else confidence in
  confidence.

(** The local variables of [classify_overall_sentiment] when it reaches its
    [return]. *)
Module Locals.
Record t : Type := {
  compound : float;
  polarity : float;
  negative_keyword_count : Z;
  positive_keyword_count : Z;
  keyword_adjustment : float;
  tally : Tally;
  sentence_balance : float;
  avg_negative_intensity : float;
  avg_positive_intensity : float;
  intensity_adjustment : float;
  combined_score : float;
  sentiment : pystr;
  confidence : float
}.
End Locals.

(** Lines 177-321, up to the [return]. *)
Definition classify_locals (self : Collaborators)
    (vader_scores : VaderScores) (textblob_scores : TextBlobScores)
    (sentence_sentiments : list SentenceSentiment) (text : pystr)
  : result Locals.t :=
  let compound := compound vader_scores in
  let polarity := polarity textblob_scores in
  let text_lower := lowered self text in
  let '(negative_keyword_count, positive_keyword_count) :=
    keyword_counts text_lower in
  let keyword_adjustment :=
    keyword_adjustment negative_keyword_count positive_keyword_count in
  let t := tally_sentences sentence_sentiments in
  sentence_balance <- sentence_balance t ;;
  avg_negative_intensity <- avg_negative_intensity t ;;
  avg_positive_intensity <- avg_positive_intensity t ;;
  let intensity_adjustment :=
    intensity_adjustment t avg_negative_intensity avg_positive_intensity in
  let combined_score :=
    combined_score compound polarity sentence_balance keyword_adjustment
      intensity_adjustment in
  let sentiment :=
    overall_label combined_score negative_keyword_count
      positive_keyword_count t avg_negative_intensity
      avg_positive_intensity in
  let confidence :=
    overall_confidence combined_score negative_keyword_count
      positive_keyword_count compound polarity sentence_balance in
  Ok {| Locals.compound := compound;
        Locals.polarity := polarity;
        Locals.negative_keyword_count := negative_keyword_count;
        Locals.positive_keyword_count := positive_keyword_count;
        Locals.keyword_adjustment := keyword_adjustment;
        Locals.tally := t;
        Locals.sentence_balance := sentence_balance;
        Locals.avg_negative_intensity := avg_negative_intensity;
        Locals.avg_positive_intensity := avg_positive_intensity;
        Locals.intensity_adjustment := intensity_adjustment;
        Locals.combined_score := combined_score;
        Locals.sentiment := sentiment;
        Locals.confidence := confidence |}.

End Binary64.

(** "the terms accumulated in this order": the first term, then each
    following term added to the sum so far. *)
Definition accumulated (terms : list float) : float :=
  match terms with
  | [] => 0%float
  | first :: others => fold_left PrimFloat.add others first
  end.

(** Scores at which the order of the sum decides the label: a review
    without keywords and without sentence entries. *)
Definition split_scores : Binary64.VaderScores :=
  {| Binary64.positive := 0.3%float; Binary64.negative := 0.1%float;
     Binary64.neutral := 0.6%float; Binary64.compound := 0.555%float |}.

Definition split_polarity : Binary64.TextBlobScores :=
  {| Binary64.polarity := (-0.986)%float;
     Binary64.subjectivity := 0.5%float |}.

(** "compound>0 and polarity<0, or vice versa", on binary64 values. *)
Definition float_sign_disagreement (compound polarity : float) : Prop :=
  ((0 <? compound)%float = true /\ (polarity <? 0)%float = true)
  \/ ((compound <? 0)%float = true /\ (0 <? polarity)%float = true).

(** The six terms of the fused score, in the order of the specification. *)
Definition fusion_terms (l : Binary64.Locals.t) : list float :=
  let compound := Binary64.Locals.compound l in
  let polarity := Binary64.Locals.polarity l in
  [ (compound * 0.30)%float;
    (polarity * 0.15)%float;
    (Binary64.Locals.sentence_balance l * 0.25)%float;
    Binary64.Locals.keyword_adjustment l;
    Binary64.Locals.intensity_adjustment l;
    if Binary64.signals_disagree compound polarity
    then (polarity * 0.10)%float else 0%float ].


(** What [http\S+|www\S+|https\S+] matches at the head of [s]: one of the
    three literals and, after it, at least one character that is not
    whitespace, up to the next whitespace; [n] is the length of the match. *)
Definition url_match (s : pystr) (n : nat) : Prop :=
  exists lit rest,
    In lit [py "http"; py "www"; py "https"]
    /\ s = lit ++ rest
    /\ nonspace_run rest <> O
    /\ n = (List.length lit + nonspace_run rest)%nat.

(** What [\S+@\S+] matches at the head of [s]: the characters up to the
    next whitespace, when one of them, neither the first nor the last, is
    an [@]; [n] is the length of the match. *)
Definition email_match (s : pystr) (n : nat) : Prop :=
  n = nonspace_run s
  /\ exists j,
       (1 <= j)%nat /\ nth_error s j = Some 64%N
       /\ (S j < nonspace_run s)%nat.

(** The characters of the class [a-zA-Z\s!?.]. *)
Definition letter_space_or_mark (c : char) : Prop :=
  (65 <= c <= 90)%N \/ (97 <= c <= 122)%N \/ isspace c = true
  \/ c = 33%N \/ c = 63%N \/ c = 46%N.

(** A text on which every step of the preprocessing acts. *)
Definition mixed_text : pystr :=
  py "Visit HTTP://Example.com or mail Bob@Example.org: 2 GREAT   films!".

(** * Properties *)

(** ** Tests on numbers *)

Lemma Qgtb_lt (a b : Q) : Qgtb a b = true <-> b < a.
Proof.
  unfold Qgtb. rewrite negb_true_iff.
  destruct (Qle_bool a b) eqn:E.
  - apply Qle_bool_iff in E. split; [discriminate | intro; lra].
  - split; [intros _ | reflexivity].
    apply Qnot_le_lt. intro H. apply Qle_bool_iff in H. congruence.
Qed.

Lemma Qltb_lt (a b : Q) : Qltb a b = true <-> a < b.
Proof. apply (Qgtb_lt b a). Qed.

Lemma Qgeb_le (a b : Q) : Qgeb a b = true <-> b <= a.
Proof. apply Qle_bool_iff. Qed.

Lemma Qleb_le (a b : Q) : Qleb a b = true <-> a <= b.
Proof. apply Qle_bool_iff. Qed.

Lemma Qgtb_nlt (a b : Q) : Qgtb a b = false <-> a <= b.
Proof.
  unfold Qgtb. rewrite negb_false_iff. apply Qle_bool_iff.
Qed.

Lemma Qltb_nlt (a b : Q) : Qltb a b = false <-> b <= a.
Proof. apply (Qgtb_nlt b a). Qed.

Lemma Qgeb_nle (a b : Q) : Qgeb a b = false <-> a < b.
Proof.
  unfold Qgeb. destruct (Qle_bool b a) eqn:E.
  - apply Qle_bool_iff in E. split; [discriminate | intro; lra].
  - split; [intros _ | reflexivity].
    apply Qnot_le_lt. intro H. apply Qle_bool_iff in H. congruence.
Qed.

Lemma Qleb_nle (a b : Q) : Qleb a b = false <-> b < a.
Proof. apply (Qgeb_nle b a). Qed.

(** Rewrites every numeric test in the context into an order fact. *)
Ltac order_facts :=
  repeat match goal with
    | H : Qgtb _ _ = true |- _ => apply Qgtb_lt in H
    | H : Qgtb _ _ = false |- _ => apply Qgtb_nlt in H
    | H : Qltb _ _ = true |- _ => apply Qltb_lt in H
    | H : Qltb _ _ = false |- _ => apply Qltb_nlt in H
    | H : Qgeb _ _ = true |- _ => apply Qgeb_le in H
    | H : Qgeb _ _ = false |- _ => apply Qgeb_nle in H
    | H : Qleb _ _ = true |- _ => apply Qleb_le in H
    | H : Qleb _ _ = false |- _ => apply Qleb_nle in H
    | H : (_ >? _)%Z = true |- _ => apply Z.gtb_lt in H
    | H : (_ >? _)%Z = false |- _ => rewrite Z.gtb_ltb, Z.ltb_ge in H
    | H : (_ >=? _)%Z = true |- _ => rewrite Z.geb_leb, Z.leb_le in H
    | H : (_ >=? _)%Z = false |- _ => rewrite Z.geb_leb, Z.leb_gt in H
    | H : (_ && _)%bool = true |- _ => apply andb_true_iff in H; destruct H
    | H : (_ || _)%bool = false |- _ => apply orb_false_iff in H; destruct H
    end.

(** ** Division never raises behind the guards of the source *)

Lemma truediv_pos (a : Q) (n : Z) :
  (0 < n)%Z -> truediv a (inject_Z n) = Ok (a / inject_Z n).
Proof.
  intro Hn. unfold truediv.
  destruct (Qeq_bool (inject_Z n) 0) eqn:E; [| reflexivity].
  apply Qeq_bool_iff in E. unfold Qeq in E. simpl in E. lia.
Qed.

Lemma sentence_balance_ok (t : Tally) :
  exists b, sentence_balance t = Ok b.
Proof.
  unfold sentence_balance.
  destruct (positive_count t + negative_count t >? 0)%Z eqn:E.
  - order_facts. rewrite truediv_pos by assumption. eauto.
  - eauto.
Qed.

Lemma avg_negative_intensity_ok (t : Tally) :
  exists a, avg_negative_intensity t = Ok a.
Proof.
  unfold avg_negative_intensity.
  destruct (negative_count t >? 0)%Z eqn:E.
  - order_facts. rewrite truediv_pos by assumption. eauto.
  - eauto.
Qed.

Lemma avg_positive_intensity_ok (t : Tally) :
  exists a, avg_positive_intensity t = Ok a.
Proof.
  unfold avg_positive_intensity.
  destruct (positive_count t >? 0)%Z eqn:E.
  - order_facts. rewrite truediv_pos by assumption. eauto.
  - eauto.
Qed.

(** [classify_overall_sentiment] reaches its [return] on every input, and
    what it returns is read off its locals. *)
Lemma classify_locals_ok (self : Collaborators) vs ts sents text :
  exists l,
    classify_locals self vs ts sents text = Ok l
    /\ classify_overall_sentiment self vs ts sents text
       = Ok (Locals.sentiment l, round3 (Locals.confidence l)).
Proof.
  unfold classify_overall_sentiment, classify_locals. cbv zeta.
  destruct (keyword_counts (lowered self text)) as [nk pk].
  destruct (sentence_balance_ok (tally_sentences sents)) as [b ->].
  destruct (avg_negative_intensity_ok (tally_sentences sents)) as [an ->].
  destruct (avg_positive_intensity_ok (tally_sentences sents)) as [ap ->].
  cbn. eexists. split; reflexivity.
Qed.

(** Each local is what the source assigns to it. *)
Lemma classify_locals_fields (self : Collaborators) vs ts sents text l :
  classify_locals self vs ts sents text = Ok l ->
  let t := tally_sentences sents in
  Locals.compound l = compound vs
  /\ Locals.polarity l = polarity ts
  /\ (Locals.negative_keyword_count l, Locals.positive_keyword_count l)
     = keyword_counts (lowered self text)
  /\ Locals.keyword_adjustment l
     = keyword_adjustment (Locals.negative_keyword_count l)
         (Locals.positive_keyword_count l)
  /\ Locals.tally l = t
  /\ sentence_balance t = Ok (Locals.sentence_balance l)
  /\ avg_negative_intensity t = Ok (Locals.avg_negative_intensity l)
  /\ avg_positive_intensity t = Ok (Locals.avg_positive_intensity l)
  /\ Locals.intensity_adjustment l
     = intensity_adjustment t (Locals.avg_negative_intensity l)
         (Locals.avg_positive_intensity l)
  /\ Locals.combined_score l
     = combined_score (Locals.compound l) (Locals.polarity l)
         (Locals.sentence_balance l) (Locals.keyword_adjustment l)
         (Locals.intensity_adjustment l)
  /\ Locals.sentiment l
     = overall_label (Locals.combined_score l)
         (Locals.negative_keyword_count l) (Locals.positive_keyword_count l)
         t (Locals.avg_negative_intensity l) (Locals.avg_positive_intensity l)
  /\ Locals.confidence l
     = overall_confidence (Locals.combined_score l)
         (Locals.negative_keyword_count l) (Locals.positive_keyword_count l)
         (Locals.compound l) (Locals.polarity l) (Locals.sentence_balance l).
Proof.
  unfold classify_locals. cbv zeta.
  destruct (keyword_counts (lowered self text)) as [nk pk].
  destruct (sentence_balance (tally_sentences sents)) as [b|]; [| discriminate].
  destruct (avg_negative_intensity (tally_sentences sents)) as [an|];
    [| discriminate].
  destruct (avg_positive_intensity (tally_sentences sents)) as [ap|];
    [| discriminate].
  cbn. intro H. injection H as <-. cbn. repeat split; reflexivity.
Qed.

Lemma signals_disagree_iff (c p : Q) :
  signals_disagree c p = true <-> sign_disagreement c p.
Proof.
  unfold signals_disagree, sign_disagreement.
  rewrite orb_true_iff, !andb_true_iff, !Qgtb_lt, !Qltb_lt. tauto.
Qed.

Lemma signals_agree_iff (c p b : Q) :
  signals_agree c p b = true <-> sign_agreement c p b.
Proof.
  unfold signals_agree, sign_agreement.
  rewrite orb_true_iff, !andb_true_iff, !Qgtb_lt, !Qltb_lt. tauto.
Qed.

Lemma strong_keyword_signal_iff (nk pk : Z) :
  strong_keyword_signal nk pk = true <-> (nk >= 2 \/ pk >= 2)%Z.
Proof.
  unfold strong_keyword_signal.
  rewrite orb_true_iff, !Z.geb_leb, !Z.leb_le. lia.
Qed.

(** ** Signal fusion *)

(** C2. On every input the label is decided by the thresholds first and by
    the tie-break cascade next: a score of at least 0.12 gives positive, a
    score of at most -0.08 gives negative; in between, the keyword counts
    decide when they differ, then the sentence counts together with the
    average intensity above 0.3, negative first; neutral is what is left. *)
Theorem label_cascade (self : Collaborators) vs ts sents text :
  exists l,
    classify_locals self vs ts sents text = Ok l
    /\ (exists c,
          classify_overall_sentiment self vs ts sents text
          = Ok (Locals.sentiment l, c))
    /\ (Locals.negative_keyword_count l, Locals.positive_keyword_count l)
       = keyword_counts (lowered self text)
    /\ Locals.tally l = tally_sentences sents
    /\ avg_negative_intensity (Locals.tally l)
       = Ok (Locals.avg_negative_intensity l)
    /\ avg_positive_intensity (Locals.tally l)
       = Ok (Locals.avg_positive_intensity l)
    /\ let s := Locals.combined_score l in
       let nk := Locals.negative_keyword_count l in
       let pk := Locals.positive_keyword_count l in
       let n := negative_count (Locals.tally l) in
       let p := positive_count (Locals.tally l) in
       let an := Locals.avg_negative_intensity l in
       let ap := Locals.avg_positive_intensity l in
       (0.12 <= s -> Locals.sentiment l = POSITIVE)
       /\ (s <= -0.08 -> Locals.sentiment l = NEGATIVE)
       /\ (-0.08 < s < 0.12 ->
           ((nk > pk)%Z -> Locals.sentiment l = NEGATIVE)
           /\ ((pk > nk)%Z -> Locals.sentiment l = POSITIVE)
           /\ (nk = pk ->
               ((n > p)%Z /\ 0.3 < an -> Locals.sentiment l = NEGATIVE)
               /\ (~ ((n > p)%Z /\ 0.3 < an) ->
                   ((p > n)%Z /\ 0.3 < ap -> Locals.sentiment l = POSITIVE)
                   /\ (~ ((p > n)%Z /\ 0.3 < ap) ->
                       Locals.sentiment l = NEUTRAL)))).
Proof.
  destruct (classify_locals_ok self vs ts sents text) as (l & Hl & Hr).
  destruct (classify_locals_fields _ _ _ _ _ Hl)
    as (_ & _ & Hk & _ & Ht & _ & Han & Hap & _ & _ & Hlab & _).
  exists l. split; [exact Hl |]. split; [eauto |].
  split; [exact Hk |]. split; [exact Ht |].
  split; [rewrite Ht; exact Han |]. split; [rewrite Ht; exact Hap |].
  cbv zeta. rewrite Hlab, Ht. unfold overall_label.
  set (s := Locals.combined_score l).
  set (t := tally_sentences sents).
  destruct (Qgeb s 0.12) eqn:E1; order_facts.
  { repeat split; intros; try reflexivity; exfalso; lra. }
  split; [intro; exfalso; lra |].
  destruct (Qleb s (-0.08)) eqn:E2; order_facts.
  { split; [reflexivity |]. intro; exfalso; lra. }
  split; [intro; exfalso; lra |]. intros _.
  destruct (Locals.negative_keyword_count l >? Locals.positive_keyword_count l)%Z
    eqn:E3; order_facts.
  { repeat split; intros; try reflexivity; exfalso; lia. }
  split; [intro; exfalso; lia |].
  destruct (Locals.positive_keyword_count l >? Locals.negative_keyword_count l)%Z
    eqn:E4; order_facts.
  { repeat split; intros; try reflexivity; exfalso; lia. }
  split; [intro; exfalso; lia |]. intros _.
  destruct ((negative_count t >? positive_count t)%Z
            && Qgtb (Locals.avg_negative_intensity l) 0.3) eqn:E5.
  { order_facts. split; [reflexivity |].
    intro Hnot. exfalso. apply Hnot. split; [lia | assumption]. }
  split.
  { intros [Hcount Havg]. exfalso.
    apply andb_false_iff in E5. destruct E5; order_facts; [lia | lra]. }
  intros _.
  destruct ((positive_count t >? negative_count t)%Z
            && Qgtb (Locals.avg_positive_intensity l) 0.3) eqn:E6.
  { order_facts. split; [reflexivity |].
    intro Hnot. exfalso. apply Hnot. split; [lia | assumption]. }
  split; [| reflexivity].
  intros [Hcount Havg]. exfalso.
  apply andb_false_iff in E6. destruct E6; order_facts; [lia | lra].
Qed.

(** C6. On every input the confidence starts as the absolute value of the
    combined score; it first becomes [min(confidence + 0.2, 1.0)] when a
    keyword count is at least 2, and the result of that step then becomes
    [min(confidence * 1.2, 1.0)] when compound, polarity and sentence
    balance are all strictly positive or all strictly negative.  The value
    returned is this confidence rounded to three decimals. *)
Theorem confidence_boost_order (self : Collaborators) vs ts sents text :
  exists l after_keywords,
    classify_locals self vs ts sents text = Ok l
    /\ classify_overall_sentiment self vs ts sents text
       = Ok (Locals.sentiment l, round3 (Locals.confidence l))
    /\ (Locals.negative_keyword_count l, Locals.positive_keyword_count l)
       = keyword_counts (lowered self text)
    /\ sentence_balance (tally_sentences sents)
       = Ok (Locals.sentence_balance l)
    /\ let nk := Locals.negative_keyword_count l in
       let pk := Locals.positive_keyword_count l in
       let b := Locals.sentence_balance l in
       ((nk >= 2 \/ pk >= 2)%Z ->
        after_keywords = Qmin (Qabs (Locals.combined_score l) + 0.2) 1.0)
       /\ (~ (nk >= 2 \/ pk >= 2)%Z ->
           after_keywords = Qabs (Locals.combined_score l))
       /\ (sign_agreement (compound vs) (polarity ts) b ->
           Locals.confidence l = Qmin (after_keywords * 1.2) 1.0)
       /\ (~ sign_agreement (compound vs) (polarity ts) b ->
           Locals.confidence l = after_keywords).
Proof.
  destruct (classify_locals_ok self vs ts sents text) as (l & Hl & Hr).
  destruct (classify_locals_fields _ _ _ _ _ Hl)
    as (Hc & Hp & Hkc & _ & _ & Hb & _ & _ & _ & _ & _ & Hconf).
  exists l,
    (if strong_keyword_signal (Locals.negative_keyword_count l)
          (Locals.positive_keyword_count l)
     then Qmin (Qabs (Locals.combined_score l) + 0.2) 1.0
     else Qabs (Locals.combined_score l)).
  split; [exact Hl |]. split; [exact Hr |].
  split; [exact Hkc |]. split; [exact Hb |].
  cbv zeta. rewrite Hconf, <- Hc, <- Hp. unfold overall_confidence.
  pose proof (strong_keyword_signal_iff (Locals.negative_keyword_count l)
                (Locals.positive_keyword_count l)) as Hk.
  pose proof (signals_agree_iff (Locals.compound l) (Locals.polarity l)
                (Locals.sentence_balance l)) as Ha.
  destruct (strong_keyword_signal _ _); destruct (signals_agree _ _ _);
    repeat split; intros; try reflexivity; exfalso;
    intuition congruence.
Qed.

(** C10. When compound, polarity or sentence balance is zero, the sign test
    fails and the confidence is left as it was after the keyword step: the
    multiplication by 1.2 does not take place, also when the other two
    signals agree in sign. *)
Theorem zero_signal_blocks_boost (self : Collaborators) vs ts sents text l :
  classify_locals self vs ts sents text = Ok l ->
  compound vs == 0 \/ polarity ts == 0 \/ Locals.sentence_balance l == 0 ->
  signals_agree (compound vs) (polarity ts) (Locals.sentence_balance l) = false
  /\ Locals.confidence l
     = (if strong_keyword_signal (Locals.negative_keyword_count l)
             (Locals.positive_keyword_count l)
        then Qmin (Qabs (Locals.combined_score l) + 0.2) 1.0
        else Qabs (Locals.combined_score l)).
Proof.
  intros Hl Hz.
  destruct (classify_locals_fields _ _ _ _ _ Hl)
    as (Hc & Hp & _ & _ & _ & _ & _ & _ & _ & _ & _ & Hconf).
  assert (Hf : signals_agree (compound vs) (polarity ts)
                 (Locals.sentence_balance l) = false).
  { destruct (signals_agree _ _ _) eqn:E; [| reflexivity].
    apply signals_agree_iff in E. unfold sign_agreement in E.
    exfalso. destruct Hz as [H | [H | H]]; lra. }
  split; [exact Hf |].
  rewrite Hconf. unfold overall_confidence. rewrite Hc, Hp, Hf. reflexivity.
Qed.

(** ** Keyword phrase matcher *)

Lemma count_phrases_nonneg (phrases : list pystr) (text_lower : pystr) :
  (0 <= count_phrases phrases text_lower)%Z.
Proof.
  unfold count_phrases.
  induction (filter (fun phrase => contains phrase text_lower) phrases)
    as [| ph rest IH]; cbn [List.map fold_right]; lia.
Qed.

Lemma keyword_counts_nonneg (text_lower : pystr) :
  (0 <= fst (keyword_counts text_lower))%Z
  /\ (0 <= snd (keyword_counts text_lower))%Z.
Proof.
  unfold keyword_counts, adjust_keyword_counts.
  pose proof (count_phrases_nonneg strong_negative_phrases text_lower).
  pose proof (count_phrases_nonneg strong_positive_phrases text_lower).
  destruct (has_hope_disappointment text_lower
            && contains (py "disappointment") text_lower); cbn [fst snd]; lia.
Qed.

Lemma inject_Z_between (a m b : Z) :
  (a <= m <= b)%Z -> inject_Z a <= inject_Z m <= inject_Z b.
Proof. intros [H1 H2]. split; rewrite <- Zle_Qle; assumption. Qed.

Lemma keyword_adjustment_bounds (n p : Z) :
  (0 <= n)%Z -> (0 <= p)%Z -> -0.3 <= keyword_adjustment n p <= 0.3.
Proof.
  intros Hn Hp. unfold keyword_adjustment.
  destruct (n >? p)%Z eqn:E1; order_facts.
  - pose proof (@inject_Z_between 1 (Z.min n 3) 3 ltac:(lia)) as H.
    change (inject_Z 1) with 1 in H. change (inject_Z 3) with 3 in H. lra.
  - destruct (p >? n)%Z eqn:E2; order_facts.
    + pose proof (@inject_Z_between 1 (Z.min p 3) 3 ltac:(lia)) as H.
      change (inject_Z 1) with 1 in H. change (inject_Z 3) with 3 in H. lra.
    + lra.
Qed.

Lemma is_ascii_check (s : pystr) :
  forallb (fun c => (c <? 128)%N) s = true -> is_ascii s.
Proof.
  intro H. apply Forall_forall. intros c Hc.
  rewrite forallb_forall in H. apply N.ltb_lt. apply H. exact Hc.
Qed.

Lemma lowered_ascii (self : Collaborators) (text : pystr) :
  lower_contract self -> is_ascii text ->
  lowered self text = ascii_lower text.
Proof.
  intros Hlow Ha. destruct text as [| c text]; [reflexivity |].
  apply Hlow. exact Ha.
Qed.

(** C4. When the lowercased text contains an expectation-framing phrase and
    the phrase "disappointment", the positive keyword count that the fusion
    uses is the raw count minus 2, not below 0, and the negative keyword
    count is the raw count plus 1.  For "I was hoping for an excellent film
    but what a disappointment", which contains "excellent", the positive
    keyword count is 0 and the negative one 3, so that the keyword
    adjustment is negative, in exact arithmetic and in binary64 alike. *)
Theorem expectation_framing (self : Collaborators) vs ts sents :
  lower_contract self ->
  (forall text,
      has_hope_disappointment (lowered self text) = true ->
      contains (py "disappointment") (lowered self text) = true ->
      exists l,
        classify_locals self vs ts sents text = Ok l
        /\ Locals.positive_keyword_count l
           = Z.max 0
               (count_phrases strong_positive_phrases (lowered self text) - 2)
        /\ Locals.negative_keyword_count l
           = (count_phrases strong_negative_phrases (lowered self text) + 1)%Z)
  /\ contains (py "excellent") (lowered self hoping_text) = true
  /\ count_phrases strong_positive_phrases (lowered self hoping_text) = 1%Z
  /\ exists l,
       classify_locals self vs ts sents hoping_text = Ok l
       /\ Locals.positive_keyword_count l = 0%Z
       /\ Locals.negative_keyword_count l = 3%Z
       /\ Locals.keyword_adjustment l < 0
       /\ (Binary64.keyword_adjustment (Locals.negative_keyword_count l)
             (Locals.positive_keyword_count l) <? 0)%float = true.
Proof.
  intro Hlow. split.
  - intros text Hhope Hdis.
    destruct (classify_locals_ok self vs ts sents text) as (l & Hl & _).
    destruct (classify_locals_fields _ _ _ _ _ Hl) as (_ & _ & Hk & _).
    exists l. split; [exact Hl |].
    unfold keyword_counts, adjust_keyword_counts in Hk.
    rewrite Hhope, Hdis in Hk. cbn [andb] in Hk.
    injection Hk as Hn Hp. split; assumption.
  - assert (Hlo : lowered self hoping_text = ascii_lower hoping_text).
    { apply lowered_ascii; [exact Hlow |].
      apply is_ascii_check. vm_compute. reflexivity. }
    rewrite Hlo.
    split; [vm_compute; reflexivity |].
    split; [vm_compute; reflexivity |].
    destruct (classify_locals_ok self vs ts sents hoping_text)
      as (l & Hl & _).
    destruct (classify_locals_fields _ _ _ _ _ Hl)
      as (_ & _ & Hk & Hadj & _).
    rewrite Hlo in Hk.
    assert (E : keyword_counts (ascii_lower hoping_text) = (3, 0)%Z)
      by (vm_compute; reflexivity).
    rewrite E in Hk. injection Hk as Hn Hp.
    exists l. split; [exact Hl |]. split; [exact Hp |]. split; [exact Hn |].
    rewrite Hadj, Hn, Hp. split; reflexivity.
Qed.

(** ** Rounding *)

Lemma round_half_even_lower (y : Q) (k : Z) :
  inject_Z k <= y -> (k <= round_half_even y)%Z.
Proof.
  intro H. apply Qfloor_resp_le in H. rewrite Qfloor_Z in H.
  unfold round_half_even.
  destruct (Qltb _ _); [assumption |].
  destruct (Qgtb _ _); [lia |].
  destruct (Z.even _); lia.
Qed.

Lemma round_half_even_upper (y : Q) (k : Z) :
  y <= inject_Z k -> (round_half_even y <= k)%Z.
Proof.
  intro H. pose proof (Qfloor_resp_le _ _ H) as Hf. rewrite Qfloor_Z in Hf.
  unfold round_half_even.
  destruct (Qltb (y - inject_Z (Qfloor y)) (1 # 2)) eqn:E; [assumption |].
  order_facts.
  assert (Hlt : (Qfloor y < k)%Z) by (rewrite Zlt_Qlt; lra).
  destruct (Qgtb _ _); [lia |].
  destruct (Z.even _); lia.
Qed.

(** Rounding to three decimals does not leave an interval whose ends are
    multiples of 0.001. *)
Lemma round3_between (x : Q) (a b : Z) :
  inject_Z a / 1000 <= x <= inject_Z b / 1000 ->
  inject_Z a / 1000 <= round3 x <= inject_Z b / 1000.
Proof.
  unfold round3, Qdiv. change (/ 1000) with (1 # 1000). intros [Ha Hb].
  assert (H1 : (a <= round_half_even (x * 1000))%Z)
    by (apply round_half_even_lower; lra).
  assert (H2 : (round_half_even (x * 1000) <= b)%Z)
    by (apply round_half_even_upper; lra).
  rewrite Zle_Qle in H1, H2. lra.
Qed.

Lemma round3_unit (x : Q) : 0 <= x <= 1 -> 0 <= round3 x <= 1.
Proof.
  intro H. pose proof (@round3_between x 0 1000) as R.
  unfold Qdiv in R. change (/ 1000) with (1 # 1000) in R.
  change (inject_Z 0) with 0 in R. change (inject_Z 1000) with 1000 in R.
  lra.
Qed.

Lemma round3_signed_unit (x : Q) : -1 <= x <= 1 -> -1 <= round3 x <= 1.
Proof.
  intro H. pose proof (@round3_between x (-1000) 1000) as R.
  unfold Qdiv in R. change (/ 1000) with (1 # 1000) in R.
  change (inject_Z (-1000)) with (-1000) in R.
  change (inject_Z 1000) with 1000 in R.
  lra.
Qed.

Lemma round3_zero (x : Q) : x == 0 -> round3 x == 0.
Proof.
  intro H. pose proof (@round3_between x 0 0) as R.
  unfold Qdiv in R. change (/ 1000) with (1 # 1000) in R.
  change (inject_Z 0) with 0 in R.
  lra.
Qed.

(** ** The sentence loop *)

Lemma tally_step_inv (t : Tally) (sent : SentenceSentiment) :
  tally_inv t -> 0 <= confidence sent <= 1 -> tally_inv (tally_step t sent).
Proof.
  unfold tally_inv, tally_step. intros (Hp & Hn & Hu & Hns & Hps) Hc.
  destruct (str_eqb (sentiment sent) POSITIVE);
    [| destruct (str_eqb (sentiment sent) NEGATIVE)];
    cbn [positive_count negative_count neutral_count negative_intensity_sum
           positive_intensity_sum];
    rewrite ?inject_Z_plus; change (inject_Z 1) with 1;
    repeat split; try lia; lra.
Qed.

Lemma fold_tally_inv (sents : list SentenceSentiment) (t : Tally) :
  Forall (fun sent => 0 <= confidence sent <= 1) sents ->
  tally_inv t -> tally_inv (fold_left tally_step sents t).
Proof.
  intro H. revert t. induction H as [| sent sents Hc _ IH]; intros t Ht.
  - exact Ht.
  - cbn [fold_left]. apply IH. apply tally_step_inv; assumption.
Qed.

Lemma tally_sentences_inv (sents : list SentenceSentiment) :
  Forall (fun sent => 0 <= confidence sent <= 1) sents ->
  tally_inv (tally_sentences sents).
Proof.
  intro H. apply fold_tally_inv; [exact H |].
  unfold tally_inv, tally0.
  cbn [positive_count negative_count neutral_count negative_intensity_sum
         positive_intensity_sum].
  change (inject_Z 0) with 0. repeat split; try lia; lra.
Qed.

Lemma div_unit (a : Q) (n : Z) :
  (0 < n)%Z -> 0 <= a <= inject_Z n -> 0 <= a / inject_Z n <= 1.
Proof.
  intros Hn [H0 H1].
  assert (Hq : 0 < inject_Z n)
    by (change 0 with (inject_Z 0); rewrite <- Zlt_Qlt; exact Hn).
  split.
  - apply Qle_shift_div_l; [exact Hq | lra].
  - apply Qle_shift_div_r; [exact Hq | lra].
Qed.

Lemma avg_negative_intensity_unit (t : Tally) (a : Q) :
  tally_inv t -> avg_negative_intensity t = Ok a -> 0 <= a <= 1.
Proof.
  intros (_ & _ & _ & Hs & _). unfold avg_negative_intensity.
  destruct (negative_count t >? 0)%Z eqn:E; order_facts.
  - rewrite truediv_pos by assumption. intro H. injection H as <-.
    apply div_unit; assumption.
  - intro H. injection H as <-. lra.
Qed.

Lemma avg_positive_intensity_unit (t : Tally) (a : Q) :
  tally_inv t -> avg_positive_intensity t = Ok a -> 0 <= a <= 1.
Proof.
  intros (_ & _ & _ & _ & Hs). unfold avg_positive_intensity.
  destruct (positive_count t >? 0)%Z eqn:E; order_facts.
  - rewrite truediv_pos by assumption. intro H. injection H as <-.
    apply div_unit; assumption.
  - intro H. injection H as <-. lra.
Qed.

Lemma sentence_balance_signed_unit (t : Tally) (b : Q) :
  tally_inv t -> sentence_balance t = Ok b -> -1 <= b <= 1.
Proof.
  intros (Hp & Hn & _). unfold sentence_balance.
  destruct (positive_count t + negative_count t >? 0)%Z eqn:E; order_facts.
  - rewrite truediv_pos by assumption. intro H. injection H as <-.
    assert (Hq : 0 < inject_Z (positive_count t + negative_count t))
      by (change 0 with (inject_Z 0); rewrite <- Zlt_Qlt; assumption).
    assert (H1 : inject_Z 0 <= inject_Z (positive_count t))
      by (rewrite <- Zle_Qle; assumption).
    assert (H2 : inject_Z 0 <= inject_Z (negative_count t))
      by (rewrite <- Zle_Qle; assumption).
    change (inject_Z 0) with 0 in H1, H2.
    unfold Z.sub. rewrite !inject_Z_plus, inject_Z_opp in *.
    split.
    + apply Qle_shift_div_l; [exact Hq | lra].
    + apply Qle_shift_div_r; [exact Hq | lra].
  - intro H. injection H as <-. lra.
Qed.

Lemma intensity_adjustment_bounds (t : Tally) (an ap : Q) :
  0 <= an <= 1 -> 0 <= ap <= 1 ->
  -0.075 <= intensity_adjustment t an ap <= 0.075.
Proof.
  intros Hn Hp. unfold intensity_adjustment.
  destruct (Qgtb an 0.5 && (negative_count t >=? 2)%Z); [lra |].
  destruct (Qgtb ap 0.5 && (positive_count t >=? 2)%Z); lra.
Qed.

(** ** Label and confidence of every analysis *)

Lemma overall_label_cases s nk pk t an ap :
  overall_label s nk pk t an ap = POSITIVE
  \/ overall_label s nk pk t an ap = NEGATIVE
  \/ overall_label s nk pk t an ap = NEUTRAL.
Proof.
  unfold overall_label.
  repeat match goal with
    | |- context [if ?b then _ else _] => destruct b
    end; auto.
Qed.

Lemma keyword_adjustment_small (nk pk : Z) :
  (0 <= nk)%Z -> (0 <= pk)%Z -> strong_keyword_signal nk pk = false ->
  -0.1 <= keyword_adjustment nk pk <= 0.1.
Proof.
  intros Hn Hp Hs. unfold strong_keyword_signal in Hs. order_facts.
  assert (En : nk = 0%Z \/ nk = 1%Z) by lia.
  assert (Ep : pk = 0%Z \/ pk = 1%Z) by lia.
  destruct En as [-> | ->], Ep as [-> | ->];
    vm_compute; split; discriminate.
Qed.

(** Without the additive step the score is small enough by itself: the
    three weighted signals contribute at most 0.30 + 0.25 + 0.25, the
    keywords 0.1 and the intensity 0.075. *)
Lemma combined_score_small (c p b kw ia : Q) :
  -1 <= c <= 1 -> -1 <= p <= 1 -> -1 <= b <= 1 ->
  -0.1 <= kw <= 0.1 -> -0.075 <= ia <= 0.075 ->
  Qabs (combined_score c p b kw ia) <= 0.975.
Proof.
  intros Hc Hp Hb Hk Hi. apply Qabs_Qle_condition. unfold combined_score.
  destruct (signals_disagree c p); lra.
Qed.

Lemma overall_confidence_unit (c p b ia : Q) (nk pk : Z) :
  -1 <= c <= 1 -> -1 <= p <= 1 -> -1 <= b <= 1 ->
  (0 <= nk)%Z -> (0 <= pk)%Z -> -0.075 <= ia <= 0.075 ->
  0 <= overall_confidence
         (combined_score c p b (keyword_adjustment nk pk) ia) nk pk c p b
    <= 1.
Proof.
  intros Hc Hp Hb Hn Hk Hi. unfold overall_confidence.
  set (s := combined_score c p b (keyword_adjustment nk pk) ia).
  pose proof (Qabs_nonneg s) as H0.
  assert (H1 : 0 <= (if strong_keyword_signal nk pk
                     then Qmin (Qabs s + 0.2) 1.0 else Qabs s) <= 1).
  { destruct (strong_keyword_signal nk pk) eqn:E.
    - split; [apply Q.min_glb; lra |].
      pose proof (Q.le_min_r (Qabs s + 0.2) 1.0). lra.
    - split; [exact H0 |].
      pose proof (@combined_score_small c p b (keyword_adjustment nk pk) ia
                    Hc Hp Hb (keyword_adjustment_small Hn Hk E) Hi).
      fold s in H. lra. }
  destruct (signals_agree c p b); [| exact H1].
  split; [apply Q.min_glb; lra |].
  match goal with
  | |- Qmin ?x ?y <= _ => pose proof (Q.le_min_r x y)
  end. lra.
Qed.

Lemma sentence_entry_confidence (self : Collaborators) (sentence : pystr) :
  range_contract self ->
  0 <= confidence (sentence_entry self sentence) <= 1.
Proof.
  intro Hr. unfold sentence_entry, analyze_sentiment_vader.
  cbn [confidence compound].
  split; [apply Qabs_nonneg |].
  apply Qabs_Qle_condition. apply round3_signed_unit.
  apply (Hr sentence).
Qed.

(** C1. Every analysis ends with one of the three labels and a confidence
    between 0 and 1, whichever boosts fire, for scorers that keep compound
    and polarity within [-1, 1]. *)
Theorem analysis_invariant (self : Collaborators) (text : pystr) :
  range_contract self ->
  exists r,
    get_detailed_analysis self text = Ok r
    /\ (overall_sentiment r = POSITIVE
        \/ overall_sentiment r = NEGATIVE
        \/ overall_sentiment r = NEUTRAL)
    /\ 0 <= result_confidence r <= 1.
Proof.
  intro Hr. unfold get_detailed_analysis.
  destruct (preprocess_text self text) as [tokens cleaned].
  set (vs := analyze_sentiment_vader self text).
  set (ts := analyze_sentiment_textblob self text).
  set (sents := List.map (sentence_entry self) (sent_tokenize self text)).
  destruct (classify_locals_ok self vs ts sents text) as (l & Hl & Hret).
  rewrite Hret. cbn [bind]. eexists. split; [reflexivity |].
  cbn [overall_sentiment result_confidence].
  destruct (classify_locals_fields _ _ _ _ _ Hl)
    as (Hc & Hp & Hk & Hadj & Ht & Hb & Han & Hap & Hia & Hs & Hlab & Hconf).
  split; [rewrite Hlab; apply overall_label_cases |].
  assert (Hinv : tally_inv (tally_sentences sents)).
  { apply tally_sentences_inv. apply Forall_forall. intros sent Hin.
    apply in_map_iff in Hin. destruct Hin as (sentence & <- & _).
    apply sentence_entry_confidence. exact Hr. }
  pose proof (keyword_counts_nonneg (lowered self text)) as [Hnk Hpk].
  rewrite <- Hk in Hnk, Hpk. cbn [fst snd] in Hnk, Hpk.
  apply round3_unit. rewrite Hconf, Hs, Hadj, Hia.
  apply overall_confidence_unit; try assumption.
  - rewrite Hc. unfold vs, analyze_sentiment_vader. cbn [compound].
    apply round3_signed_unit. apply (Hr text).
  - rewrite Hp. unfold ts, analyze_sentiment_textblob. cbn [polarity].
    apply round3_signed_unit. apply (Hr text).
  - apply (sentence_balance_signed_unit Hinv Hb).
  - apply intensity_adjustment_bounds.
    + apply (avg_negative_intensity_unit Hinv Han).
    + apply (avg_positive_intensity_unit Hinv Hap).
Qed.

(** The clamps sit inside the two boosts only: for a compound score outside
    [[-1, 1]], which no scorer within [range_contract] produces, the
    confidence that comes back exceeds 1. *)
Example confidence_outside_range :
  classify_overall_sentiment toy
    {| positive := 0; negative := 0; neutral := 0; compound := 5 |}
    {| polarity := 0; subjectivity := 0 |} [] []
  = Ok (POSITIVE, 1500 # 1000).
Proof. vm_compute. reflexivity. Qed.

(** ** Preprocessing *)

Lemma re_sub_special (s : pystr) :
  re_sub special_pattern s = strip_other_characters s.
Proof.
  unfold re_sub, strip_other_characters.
  induction s as [| c s IH]; [reflexivity |].
  cbn [re_sub_aux special_pattern filter].
  destruct (kept_char c); rewrite IH; reflexivity.
Qed.

Lemma drop_filter (self : Collaborators) (tokens : list pystr) :
  filter (fun token =>
            negb (stop_words self (str_lower self token))
            && (2 <? List.length token)%nat) tokens
  = drop_stopwords_and_short self tokens.
Proof.
  unfold drop_stopwords_and_short. apply filter_ext. intro token.
  rewrite Nat.ltb_antisym. reflexivity.
Qed.

(** A character that survives the character filter and is not whitespace. *)
Lemma kept_nonspace_clean (c : char) :
  kept_char c = true -> isspace c = false -> clean_char c.
Proof.
  unfold kept_char, clean_char. intros Hk Hs.
  rewrite Hs, orb_false_r in Hk.
  rewrite !orb_true_iff, !N.eqb_eq in Hk. tauto.
Qed.

Lemma split_aux_clean (s cur : pystr) :
  Forall (fun c => kept_char c = true) s ->
  Forall clean_char cur ->
  Forall (Forall clean_char) (split_aux cur s).
Proof.
  revert cur. induction s as [| c s IH]; intros cur Hs Hcur.
  - cbn [split_aux]. destruct cur; [constructor |].
    constructor; [| constructor].
    apply Forall_rev. exact Hcur.
  - inversion Hs as [| c' s' Hc Hs']; subst.
    cbn [split_aux]. destruct (isspace c) eqn:E.
    + destruct cur.
      * apply IH; [exact Hs' | constructor].
      * constructor; [apply Forall_rev; exact Hcur |].
        apply IH; [exact Hs' | constructor].
    + apply IH; [exact Hs' |].
      constructor; [| exact Hcur].
      apply kept_nonspace_clean; assumption.
Qed.

Lemma join_space_clean (parts : list pystr) :
  Forall (Forall clean_char) parts ->
  Forall clean_char (join (py " ") parts).
Proof.
  induction 1 as [| p rest Hp Hrest IH]; [constructor |].
  cbn [join]. destruct rest as [| q rest]; [exact Hp |].
  apply Forall_app. split; [exact Hp |].
  apply Forall_app. split; [| exact IH].
  constructor; [| constructor]. unfold clean_char. tauto.
Qed.

Lemma collapse_whitespace_clean (s : pystr) :
  Forall (fun c => kept_char c = true) s ->
  Forall clean_char (collapse_whitespace s).
Proof.
  intro H. unfold collapse_whitespace, split.
  apply join_space_clean. apply split_aux_clean; [exact H | constructor].
Qed.

Lemma strip_other_characters_kept (s : pystr) :
  Forall (fun c => kept_char c = true) (strip_other_characters s).
Proof.
  apply Forall_forall. intros c Hc.
  apply filter_In in Hc. apply Hc.
Qed.

Lemma preprocess_text_empty (self : Collaborators) :
  lower_contract self -> word_tokenize self [] = [] ->
  preprocess_text self [] = ([], []).
Proof.
  intros Hlow Hwt. unfold preprocess_text.
  rewrite (Hlow [] (Forall_nil _)). cbn. rewrite Hwt. reflexivity.
Qed.

(** ** The empty string *)

Lemma combined_score_zero (c p : Q) :
  c == 0 -> p == 0 -> combined_score c p 0 (keyword_adjustment 0 0) 0 == 0.
Proof.
  intros Hc Hp. unfold combined_score.
  change (keyword_adjustment 0 0) with 0.
  destruct (signals_disagree c p); lra.
Qed.

Lemma overall_label_zero (s : Q) :
  s == 0 -> overall_label s 0 0 tally0 0 0 = NEUTRAL.
Proof.
  intro Hs. unfold overall_label.
  destruct (Qgeb s 0.12) eqn:E1; order_facts; [exfalso; lra |].
  destruct (Qleb s (-0.08)) eqn:E2; order_facts; [exfalso; lra |].
  reflexivity.
Qed.

Lemma overall_confidence_zero (s c p : Q) :
  s == 0 -> overall_confidence s 0 0 c p 0 == 0.
Proof.
  intro Hs. unfold overall_confidence.
  change (strong_keyword_signal 0 0) with false. cbv iota.
  assert (Ha : signals_agree c p 0 = false).
  { destruct (signals_agree c p 0) eqn:E; [| reflexivity].
    apply signals_agree_iff in E. unfold sign_agreement in E.
    exfalso. lra. }
  rewrite Ha. rewrite Hs. reflexivity.
Qed.

(** C8. Analysing the empty string raises nothing and gives the label
    neutral, confidence 0.0, no sentence and no token. *)
Theorem empty_string_analysis (self : Collaborators) :
  lower_contract self -> empty_contract self ->
  exists r,
    get_detailed_analysis self [] = Ok r
    /\ overall_sentiment r = NEUTRAL
    /\ result_confidence r == 0
    /\ sentence_count r = 0%Z
    /\ token_count r = 0%Z.
Proof.
  intros Hlow (Hv & Hb & Hst & Hwt). unfold get_detailed_analysis.
  rewrite (preprocess_text_empty Hlow Hwt), Hst. cbn [List.map].
  set (vs := analyze_sentiment_vader self []).
  set (ts := analyze_sentiment_textblob self []).
  destruct (classify_locals_ok self vs ts [] []) as (l & Hl & Hret).
  rewrite Hret. cbn [bind]. eexists. split; [reflexivity |].
  cbn [overall_sentiment result_confidence sentence_count token_count
         List.length Z.of_nat].
  destruct (classify_locals_fields _ _ _ _ _ Hl)
    as (Hc & Hp & Hk & Hadj & Ht & Hbal & Han & Hap & Hia & Hs & Hlab & Hconf).
  change (keyword_counts (lowered self [])) with (0%Z, 0%Z) in Hk.
  injection Hk as Hnk Hpk.
  change (tally_sentences []) with tally0 in *.
  change (sentence_balance tally0) with (Ok 0) in Hbal.
  change (avg_negative_intensity tally0) with (Ok 0) in Han.
  change (avg_positive_intensity tally0) with (Ok 0) in Hap.
  injection Hbal as Hbal. injection Han as Han. injection Hap as Hap.
  rewrite <- Han, <- Hap in Hia, Hlab.
  change (intensity_adjustment tally0 0 0) with 0 in Hia.
  rewrite Hnk, Hpk in Hadj, Hlab, Hconf.
  rewrite Hadj, Hia, <- Hbal in Hs.
  assert (Hc0 : Locals.compound l == 0).
  { rewrite Hc. apply round3_zero. exact Hv. }
  assert (Hp0 : Locals.polarity l == 0).
  { rewrite Hp. apply round3_zero. exact Hb. }
  assert (Hs0 : Locals.combined_score l == 0).
  { rewrite Hs. apply combined_score_zero; assumption. }
  split; [rewrite Hlab; apply overall_label_zero; exact Hs0 |].
  split; [| split; reflexivity].
  apply round3_zero. rewrite Hconf, <- Hbal.
  apply overall_confidence_zero. exact Hs0.
Qed.

(** ** The contracts are satisfiable, and the theorems at work *)

Lemma toy_lower_contract : lower_contract toy.
Proof. intros s _. reflexivity. Qed.

Lemma toy_range_contract : range_contract toy.
Proof.
  intro t. cbn [toy polarity_scores textblob_sentiment].
  unfold toy_polarity_scores, toy_textblob.
  destruct (contains (py "love") (ascii_lower t));
    [| destruct (contains (py "worst") (ascii_lower t))];
    cbn [raw_compound fst]; lra.
Qed.

Lemma toy_empty_contract : empty_contract toy.
Proof. repeat split. Qed.

Lemma analysis_invariant_witness :
  exists r,
    get_detailed_analysis toy love_text = Ok r
    /\ (overall_sentiment r = POSITIVE
        \/ overall_sentiment r = NEGATIVE
        \/ overall_sentiment r = NEUTRAL)
    /\ 0 <= result_confidence r <= 1.
Proof. apply (analysis_invariant love_text toy_range_contract). Defined.

Lemma expectation_framing_witness :
  has_hope_disappointment (lowered toy hoping_text) = true
  /\ contains (py "disappointment") (lowered toy hoping_text) = true
  /\ exists l,
       classify_locals toy neutral_compound mild_polarity
         one_positive_sentence hoping_text = Ok l
       /\ Locals.positive_keyword_count l
          = Z.max 0
              (count_phrases strong_positive_phrases
                 (lowered toy hoping_text) - 2)
       /\ Locals.negative_keyword_count l
          = (count_phrases strong_negative_phrases
               (lowered toy hoping_text) + 1)%Z.
Proof.
  split; [vm_compute; reflexivity |].
  split; [vm_compute; reflexivity |].
  apply (expectation_framing neutral_compound mild_polarity
           one_positive_sentence toy_lower_contract);
    vm_compute; reflexivity.
Defined.

Lemma empty_string_analysis_witness :
  exists r,
    get_detailed_analysis toy [] = Ok r
    /\ overall_sentiment r = NEUTRAL
    /\ result_confidence r == 0
    /\ sentence_count r = 0%Z
    /\ token_count r = 0%Z.
Proof.
  apply (empty_string_analysis toy_lower_contract toy_empty_contract).
Defined.

Lemma zero_signal_blocks_boost_witness :
  exists l,
    classify_locals toy neutral_compound mild_polarity
      one_positive_sentence hoping_text = Ok l
    /\ (compound neutral_compound == 0
        \/ polarity mild_polarity == 0
        \/ Locals.sentence_balance l == 0)
    /\ signals_agree (compound neutral_compound) (polarity mild_polarity)
         (Locals.sentence_balance l) = false
    /\ Locals.confidence l
       = (if strong_keyword_signal (Locals.negative_keyword_count l)
               (Locals.positive_keyword_count l)
          then Qmin (Qabs (Locals.combined_score l) + 0.2) 1.0
          else Qabs (Locals.combined_score l)).
Proof.
  eexists. split; [vm_compute; reflexivity |].
  split; [left; reflexivity |].
  apply (@zero_signal_blocks_boost toy neutral_compound mild_polarity
           one_positive_sentence hoping_text);
    [vm_compute; reflexivity | left; reflexivity].
Defined.

(** ** Keyword override *)

(** When the negative keyword count is the greater one, a score below the
    positive threshold 0.12 is all it takes for the label negative: either
    the score is at most -0.08, or the tie-break on keyword counts says
    negative. *)
Lemma strong_negative_label s (nk pk : Z) t an ap :
  (nk > pk)%Z -> s < 0.12 -> overall_label s nk pk t an ap = NEGATIVE.
Proof.
  intros Hk Hs. unfold overall_label.
  destruct (Qgeb s 0.12) eqn:E1; order_facts; [exfalso; lra |].
  destruct (Qleb s (-0.08)); [reflexivity |].
  apply Z.gt_lt, Z.gtb_lt in Hk. rewrite Hk. reflexivity.
Qed.

(** The example text of the keyword override holds five strong-negative
    phrases ("rubbish", "utter rubbish", "waste of", "waste of time",
    "pathetic") and no strong-positive one, so its keyword adjustment
    is -0.3. *)
Example rubbish_text_keywords :
  keyword_counts (ascii_lower rubbish_text) = (5, 0)%Z
  /\ keyword_adjustment 5 0 == -0.3.
Proof. split; [vm_compute; reflexivity | reflexivity]. Qed.

(** ** Runs of the model *)

(** Both boosts fire: the score is 0.51, the keyword step gives 0.71 and the
    agreement step 0.852.  (Multiplying first would give 0.812.) *)
Example both_boosts_run :
  classify_overall_sentiment toy faint_praise faint_polarity
    one_positive_sentence (py "Excellent and brilliant")
  = Ok (POSITIVE, 0.852).
Proof. vm_compute. reflexivity. Qed.

(** The whole pipeline on a clear-cut text. *)
Example love_text_run :
  exists r,
    get_detailed_analysis toy love_text = Ok r
    /\ overall_sentiment r = POSITIVE
    /\ result_confidence r == 0.739
    /\ cleaned_text r = py "i absolutely love this its fantastic!"
    /\ processed_tokens r
       = List.map py ["absolutely"; "love"; "this"; "its"; "fantastic!"]%string
    /\ token_count r = 5%Z
    /\ sentence_count r = 1%Z.
Proof. eexists. split; [vm_compute; reflexivity |]. repeat split. Qed.

(** URLs and e-mail addresses go before the character filter runs. *)
Example preprocess_run :
  snd (preprocess_text toy
         (py "Visit http://x.com or mail a@b.c NOW!! It's 100% great... www.foo"))
  = py "visit or mail now!! its great...".
Proof. vm_compute. reflexivity. Qed.

(** * Further properties of the module *)

(** ** Labels *)

Lemma labels_distinct :
  POSITIVE <> NEGATIVE /\ POSITIVE <> NEUTRAL /\ NEGATIVE <> NEUTRAL.
Proof. repeat split; intro H; vm_compute in H; discriminate. Qed.

Lemma classify_sentiment_cases (x : Q) :
  (0.05 <= x /\ classify_sentiment x = POSITIVE)
  \/ (x <= -0.05 /\ classify_sentiment x = NEGATIVE)
  \/ (-0.05 < x < 0.05 /\ classify_sentiment x = NEUTRAL).
Proof.
  unfold classify_sentiment.
  destruct (Qgeb x 0.05) eqn:E1; order_facts; [left; split; auto |].
  destruct (Qleb x (-0.05)) eqn:E2; order_facts.
  - right; left; split; auto.
  - right; right; split; [split; assumption | reflexivity].
Qed.

(** X3. The sentence label follows the order of the scores, and changing
    the sign of the score swaps positive and negative. *)
Theorem classify_sentiment_order (a b : Q) :
  (a <= b ->
   (classify_sentiment a = POSITIVE -> classify_sentiment b = POSITIVE)
   /\ (classify_sentiment b = NEGATIVE -> classify_sentiment a = NEGATIVE))
  /\ classify_sentiment (- a) = mirror_label (classify_sentiment a).
Proof.
  destruct labels_distinct as (Hpn & Hpu & Hnu).
  split.
  - intro Hab.
    destruct (classify_sentiment_cases a) as [[Ha Ea] | [[Ha Ea] | [Ha Ea]]];
      destruct (classify_sentiment_cases b) as [[Hb Eb] | [[Hb Eb] | [Hb Eb]]];
      rewrite Ea, Eb; split; intro H;
      try reflexivity; try congruence; exfalso; lra.
  - destruct (classify_sentiment_cases a) as [[Ha Ea] | [[Ha Ea] | [Ha Ea]]];
      destruct (classify_sentiment_cases (- a))
        as [[Hb Eb] | [[Hb Eb] | [Hb Eb]]];
      rewrite Ea, Eb; try reflexivity; exfalso; lra.
Qed.

Lemma classify_sentiment_order_witness :
  classify_sentiment 0.3 = POSITIVE
  /\ classify_sentiment (-0.2) = NEGATIVE.
Proof.
  split.
  - apply (classify_sentiment_order 0.06 0.3); [vm_compute; discriminate |].
    reflexivity.
  - apply (classify_sentiment_order (-0.2) (-0.06));
      [vm_compute; discriminate | reflexivity].
Defined.

(** ** The confidence level of a score *)

Lemma get_sentiment_confidence_cases (x : Q) :
  (0.5 <= Qabs x /\ get_sentiment_confidence x = HIGH)
  \/ (0.2 <= Qabs x < 0.5 /\ get_sentiment_confidence x = MEDIUM)
  \/ (Qabs x < 0.2 /\ get_sentiment_confidence x = LOW).
Proof.
  unfold get_sentiment_confidence.
  destruct (Qgeb (Qabs x) 0.5) eqn:E1; order_facts; [left; split; auto |].
  destruct (Qgeb (Qabs x) 0.2) eqn:E2; order_facts.
  - right; left; split; [split; assumption | reflexivity].
  - right; right; split; auto.
Qed.

Lemma levels_distinct : HIGH <> MEDIUM /\ HIGH <> LOW /\ MEDIUM <> LOW.
Proof. repeat split; intro H; vm_compute in H; discriminate. Qed.

(** X4. The confidence level depends on the magnitude of the score only,
    and a score of larger magnitude never gets a lower level: high stays
    high, and low is only reached from low. *)
Theorem get_sentiment_confidence_magnitude (a b : Q) :
  get_sentiment_confidence (- a) = get_sentiment_confidence a
  /\ (Qabs a <= Qabs b ->
      (get_sentiment_confidence a = HIGH -> get_sentiment_confidence b = HIGH)
      /\ (get_sentiment_confidence b = LOW -> get_sentiment_confidence a = LOW)).
Proof.
  destruct levels_distinct as (Hhm & Hhl & Hml).
  split.
  - unfold get_sentiment_confidence.
    assert (E : Qabs (- a) = Qabs a).
    { destruct a as [n d]. unfold Qabs, Qopp. cbn [Qnum Qden].
      rewrite Z.abs_opp. reflexivity. }
    rewrite E. reflexivity.
  - intro Hab.
    destruct (get_sentiment_confidence_cases a)
      as [[Ha Ea] | [[Ha Ea] | [Ha Ea]]];
      destruct (get_sentiment_confidence_cases b)
        as [[Hb Eb] | [[Hb Eb] | [Hb Eb]]];
      rewrite Ea, Eb; split; intro H;
      try reflexivity; try congruence; exfalso; lra.
Qed.

Lemma get_sentiment_confidence_magnitude_witness :
  get_sentiment_confidence (-0.9) = HIGH
  /\ get_sentiment_confidence 0.1 = LOW.
Proof.
  split.
  - apply (get_sentiment_confidence_magnitude 0.6 (-0.9));
      [vm_compute; discriminate | reflexivity].
  - apply (get_sentiment_confidence_magnitude 0.1 (-0.15));
      [vm_compute; discriminate | reflexivity].
Defined.

(** ** The analysis record *)

Lemma get_detailed_analysis_ok (self : Collaborators) (text : pystr) :
  exists l,
    classify_locals self (analyze_sentiment_vader self text)
      (analyze_sentiment_textblob self text)
      (List.map (sentence_entry self) (sent_tokenize self text)) text = Ok l
    /\ get_detailed_analysis self text
       = Ok {| overall_sentiment := Locals.sentiment l;
               result_confidence := round3 (Locals.confidence l);
               vader_scores := analyze_sentiment_vader self text;
               textblob_scores := analyze_sentiment_textblob self text;
               processed_tokens := fst (preprocess_text self text);
               token_count :=
                 Z.of_nat (List.length (fst (preprocess_text self text)));
               sentence_count :=
                 Z.of_nat (List.length (sent_tokenize self text));
               sentence_analysis :=
                 List.map (sentence_entry self) (sent_tokenize self text);
               cleaned_text := snd (preprocess_text self text) |}.
Proof.
  unfold get_detailed_analysis.
  destruct (preprocess_text self text) as [tokens cleaned].
  destruct (classify_locals_ok self (analyze_sentiment_vader self text)
              (analyze_sentiment_textblob self text)
              (List.map (sentence_entry self) (sent_tokenize self text)) text)
    as (l & Hl & Hret).
  exists l. split; [exact Hl |]. rewrite Hret. reflexivity.
Qed.

(** X1. In every analysis record the two counts are the lengths of the two
    lists beside them, and the sentence entries come one per sentence of
    the tokenizer, in its order. *)
Theorem analysis_counts (self : Collaborators) (text : pystr) :
  exists r,
    get_detailed_analysis self text = Ok r
    /\ sentence_count r = Z.of_nat (List.length (sentence_analysis r))
    /\ token_count r = Z.of_nat (List.length (processed_tokens r))
    /\ List.map sentence (sentence_analysis r)
       = List.map strip (sent_tokenize self text).
Proof.
  destruct (get_detailed_analysis_ok self text) as (l & _ & Hr).
  eexists. split; [exact Hr |].
  cbn [sentence_count token_count sentence_analysis processed_tokens].
  rewrite length_map, map_map. repeat split.
Qed.

Lemma lstrip_suffix (s : pystr) : exists pre, s = pre ++ lstrip s.
Proof.
  induction s as [| c s [pre IH]].
  - exists []. reflexivity.
  - cbn [lstrip]. destruct (isspace c).
    + exists (c :: pre). cbn. f_equal. exact IH.
    + exists []. reflexivity.
Qed.

Lemma lstrip_head (s : pystr) :
  match lstrip s with
  | [] => True
  | c :: _ => isspace c = false
  end.
Proof.
  induction s as [| c s IH]; [exact I |].
  cbn [lstrip]. destruct (isspace c) eqn:E; [exact IH | exact E].
Qed.

(** What [str.strip] returns has no whitespace at either end. *)
Lemma strip_stripped (s : pystr) : stripped (strip s).
Proof.
  unfold strip.
  pose proof (lstrip_head (rev (lstrip s))) as Hb.
  destruct (lstrip_suffix (rev (lstrip s))) as [pre Hpre].
  destruct (lstrip (rev (lstrip s))) as [| c b]; [exact I |].
  pose proof (lstrip_head s) as Ha.
  assert (Ea : lstrip s = rev (c :: b) ++ rev pre).
  { rewrite <- rev_app_distr, <- Hpre, rev_involutive. reflexivity. }
  cbn [rev] in *.
  assert (Hlast : forall d, last (rev b ++ [c]) d = c)
    by (intro d; apply last_last).
  destruct (rev b ++ [c]) as [| x rest] eqn:E.
  - destruct (rev b); discriminate.
  - unfold stripped. rewrite Hlast. split; [| exact Hb].
    rewrite Ea in Ha. exact Ha.
Qed.

(** X2. Every sentence entry of an analysis carries one of the three
    labels, a confidence that is not negative, and a sentence without
    whitespace at its ends; the label is neutral exactly when the
    confidence is below 0.05. *)
Theorem sentence_entries (self : Collaborators) (text : pystr) :
  exists r,
    get_detailed_analysis self text = Ok r
    /\ Forall
         (fun e =>
            (sentiment e = POSITIVE \/ sentiment e = NEGATIVE
             \/ sentiment e = NEUTRAL)
            /\ 0 <= confidence e
            /\ (sentiment e = NEUTRAL <-> confidence e < 0.05)
            /\ stripped (sentence e))
         (sentence_analysis r).
Proof.
  destruct (get_detailed_analysis_ok self text) as (l & _ & Hr).
  eexists. split; [exact Hr |]. cbn [sentence_analysis].
  apply Forall_forall. intros e He.
  apply in_map_iff in He. destruct He as (s & <- & _).
  unfold sentence_entry. cbn [sentiment confidence sentence].
  set (c := compound (analyze_sentiment_vader self s)).
  destruct labels_distinct as (Hpn & Hpu & Hnu).
  split; [| split; [apply Qabs_nonneg | split; [| apply strip_stripped]]].
  - destruct (classify_sentiment_cases c) as [[_ E] | [[_ E] | [_ E]]];
      rewrite E; auto.
  - destruct (classify_sentiment_cases c) as [[H E] | [[H E] | [H E]]];
      rewrite E; split; intro G; try congruence; try reflexivity.
    + exfalso. revert G. apply Qabs_case; intros; lra.
    + exfalso. revert G. apply Qabs_case; intros; lra.
    + apply Qabs_case; intros; lra.
Qed.

(** ** Key words *)

(** X5. [extract_key_words] returns the first processed tokens, ten at
    most, and all of them when there are no more than ten. *)
Theorem extract_key_words_prefix (text : pystr) (analyzer : Collaborators) :
  let tokens := fst (preprocess_text analyzer text) in
  (List.length (extract_key_words text analyzer) <= 10)%nat
  /\ (exists rest, tokens = extract_key_words text analyzer ++ rest)
  /\ ((List.length tokens <= 10)%nat ->
      extract_key_words text analyzer = tokens).
Proof.
  cbv zeta. unfold extract_key_words.
  destruct (preprocess_text analyzer text) as [tokens cleaned]. cbn [fst].
  split; [rewrite length_firstn; lia |]. split.
  - exists (skipn 10 tokens). symmetry. apply firstn_skipn.
  - intro H. apply firstn_all2. exact H.
Qed.

Lemma extract_key_words_prefix_witness :
  extract_key_words love_text toy = fst (preprocess_text toy love_text).
Proof.
  apply (extract_key_words_prefix love_text toy). vm_compute. lia.
Defined.

(** ** Batch analysis *)

Lemma get_detailed_analysis_total (self : Collaborators) (text : pystr) :
  exists r, get_detailed_analysis self text = Ok r.
Proof.
  destruct (get_detailed_analysis_ok self text) as (l & _ & Hr). eauto.
Qed.

Lemma analyze_loop (self : Collaborators) (texts : list pystr)
    (done : list AnalysisResult) :
  exists results,
    fold_left
      (fun acc text =>
         results <- acc ;;
         result <- get_detailed_analysis self text ;;
         Ok (results ++ [result]))
      texts (Ok done)
    = Ok (done ++ results)
    /\ Forall2 (fun text r => get_detailed_analysis self text = Ok r)
         texts results.
Proof.
  revert done. induction texts as [| text texts IH]; intro done.
  - exists []. rewrite app_nil_r. split; [reflexivity | constructor].
  - destruct (get_detailed_analysis_total self text) as [r Hr].
    cbn [fold_left bind]. rewrite Hr. cbn [bind].
    destruct (IH (done ++ [r])) as (rs & Hfold & Hall).
    exists (r :: rs). split.
    + rewrite Hfold, <- app_assoc. reflexivity.
    + constructor; assumption.
Qed.

(** X6. [analyze_multiple_texts] raises nothing and returns one record per
    text, in the order of the texts, each the analysis of its text. *)
Theorem analyze_multiple_texts_pointwise (self : Collaborators)
    (texts : list pystr) :
  exists results,
    analyze_multiple_texts self texts = Ok results
    /\ List.length results = List.length texts
    /\ Forall2 (fun text r => get_detailed_analysis self text = Ok r)
         texts results.
Proof.
  destruct (analyze_loop self texts []) as (rs & Hfold & Hall).
  exists rs. split; [exact Hfold |].
  split; [symmetry; apply (Forall2_length Hall) | exact Hall].
Qed.

(** ** The sentence loop, on every sentence list *)

Lemma fold_tally_counts (sents : list SentenceSentiment) (t : Tally) :
  let t' := fold_left tally_step sents t in
  positive_count t'
  = (positive_count t
     + Z.of_nat
         (List.length
            (filter (fun e => str_eqb (sentiment e) POSITIVE) sents)))%Z
  /\ negative_count t'
     = (negative_count t
        + Z.of_nat
            (List.length
               (filter (fun e => negb (str_eqb (sentiment e) POSITIVE)
                                 && str_eqb (sentiment e) NEGATIVE) sents)))%Z
  /\ (positive_count t' + negative_count t' + neutral_count t'
      = positive_count t + negative_count t + neutral_count t
        + Z.of_nat (List.length sents))%Z.
Proof.
  revert t. induction sents as [| e sents IH]; intro t; cbv zeta.
  - cbn. repeat split; lia.
  - cbn [fold_left filter List.length].
    specialize (IH (tally_step t e)). cbv zeta in IH.
    destruct IH as (Hp & Hn & Hsum).
    unfold tally_step in Hp, Hn, Hsum |- *.
    destruct (str_eqb (sentiment e) POSITIVE);
      [| destruct (str_eqb (sentiment e) NEGATIVE)];
      cbn [positive_count negative_count neutral_count negb andb List.length]
        in Hp, Hn, Hsum |- *;
      repeat split; lia.
Qed.

(** X7. The loop over the sentences counts every entry once: the positive
    counter is the number of entries labelled positive, the negative
    counter the number labelled negative, and the three counters add up to
    the length of the list. *)
Theorem tally_counts (self : Collaborators) vs ts sents text :
  exists l,
    classify_locals self vs ts sents text = Ok l
    /\ positive_count (Locals.tally l)
       = Z.of_nat
           (List.length
              (filter (fun e => str_eqb (sentiment e) POSITIVE) sents))
    /\ negative_count (Locals.tally l)
       = Z.of_nat
           (List.length
              (filter (fun e => negb (str_eqb (sentiment e) POSITIVE)
                                && str_eqb (sentiment e) NEGATIVE) sents))
    /\ (positive_count (Locals.tally l) + negative_count (Locals.tally l)
        + neutral_count (Locals.tally l)
        = Z.of_nat (List.length sents))%Z.
Proof.
  destruct (classify_locals_ok self vs ts sents text) as (l & Hl & _).
  destruct (classify_locals_fields _ _ _ _ _ Hl) as (_ & _ & _ & _ & Ht & _).
  exists l. split; [exact Hl |]. rewrite Ht. unfold tally_sentences.
  destruct (fold_tally_counts sents tally0) as (Hp & Hn & Hsum).
  cbn [tally0 positive_count negative_count neutral_count] in Hp, Hn, Hsum.
  repeat split; lia.
Qed.

Lemma tally_counts_nonneg (sents : list SentenceSentiment) :
  (0 <= positive_count (tally_sentences sents))%Z
  /\ (0 <= negative_count (tally_sentences sents))%Z.
Proof.
  unfold tally_sentences.
  destruct (fold_tally_counts sents tally0) as (Hp & Hn & _).
  rewrite Hp, Hn. cbn [tally0 positive_count negative_count]. lia.
Qed.

(** X8. Whatever the sentence list, the sentence balance lies between -1
    and 1, and its sign tells which of the positive and the negative
    sentences are more numerous; it is zero when they are as many. *)
Theorem sentence_balance_sign (self : Collaborators) vs ts sents text :
  exists l,
    classify_locals self vs ts sents text = Ok l
    /\ let b := Locals.sentence_balance l in
       let p := positive_count (Locals.tally l) in
       let n := negative_count (Locals.tally l) in
       -1 <= b <= 1
       /\ (0 < b <-> (n < p)%Z)
       /\ (b < 0 <-> (p < n)%Z)
       /\ (b == 0 <-> p = n).
Proof.
  destruct (classify_locals_ok self vs ts sents text) as (l & Hl & _).
  destruct (classify_locals_fields _ _ _ _ _ Hl)
    as (_ & _ & _ & _ & Ht & Hb & _).
  exists l. split; [exact Hl |]. cbv zeta. rewrite Ht.
  destruct (tally_counts_nonneg sents) as [Hp Hn].
  set (t := tally_sentences sents) in *.
  unfold sentence_balance in Hb.
  destruct (positive_count t + negative_count t >? 0)%Z eqn:E; order_facts.
  - rewrite truediv_pos in Hb by assumption. injection Hb as Hb.
    set (P := inject_Z (positive_count t)).
    set (N := inject_Z (negative_count t)).
    assert (HP : 0 <= P)
      by (change 0 with (inject_Z 0); unfold P; rewrite <- Zle_Qle; lia).
    assert (HN : 0 <= N)
      by (change 0 with (inject_Z 0); unfold N; rewrite <- Zle_Qle; lia).
    assert (HD : 0 < P + N).
    { unfold P, N. rewrite <- inject_Z_plus.
      change 0 with (inject_Z 0). rewrite <- Zlt_Qlt. assumption. }
    assert (Hmul : Locals.sentence_balance l * (P + N) == P - N).
    { rewrite <- Hb. unfold Z.sub.
      rewrite !inject_Z_plus, inject_Z_opp. fold P N. field. lra. }
    assert (Hlt : forall x y : Z, (x < y)%Z <-> inject_Z x < inject_Z y)
      by (intros; rewrite Zlt_Qlt; tauto).
    assert (Heq : positive_count t = negative_count t <-> P == N).
    { unfold P, N. rewrite inject_Z_injective. tauto. }
    rewrite !Hlt, Heq. fold P N.
    repeat split; intros; nra.
  - injection Hb as Hb. rewrite <- Hb.
    assert (positive_count t = 0%Z /\ negative_count t = 0%Z) as [-> ->]
      by lia.
    repeat split; intros; try lra; try lia; reflexivity.
Qed.

(** ** The label and the confidence, on every input *)

(** X9. The label neutral is only reached in the band between the two
    thresholds, with equal keyword counts, and with neither sentence-level
    tie-break applicable. *)
Theorem neutral_only_on_ties (self : Collaborators) vs ts sents text l :
  classify_locals self vs ts sents text = Ok l ->
  Locals.sentiment l = NEUTRAL ->
  -0.08 < Locals.combined_score l < 0.12
  /\ Locals.negative_keyword_count l = Locals.positive_keyword_count l
  /\ ~ ((negative_count (Locals.tally l) > positive_count (Locals.tally l))%Z
        /\ 0.3 < Locals.avg_negative_intensity l)
  /\ ~ ((positive_count (Locals.tally l) > negative_count (Locals.tally l))%Z
        /\ 0.3 < Locals.avg_positive_intensity l).
Proof.
  intros Hl Hneu.
  destruct (classify_locals_fields _ _ _ _ _ Hl)
    as (_ & _ & _ & _ & Ht & _ & _ & _ & _ & _ & Hlab & _).
  destruct labels_distinct as (Hpn & Hpu & Hnu).
  rewrite Hlab in Hneu. rewrite Ht. unfold overall_label in Hneu.
  destruct (Qgeb (Locals.combined_score l) 0.12) eqn:E1;
    [congruence |].
  destruct (Qleb (Locals.combined_score l) (-0.08)) eqn:E2;
    [congruence |].
  destruct (Locals.negative_keyword_count l >? Locals.positive_keyword_count l)%Z
    eqn:E3; [congruence |].
  destruct (Locals.positive_keyword_count l >? Locals.negative_keyword_count l)%Z
    eqn:E4; [congruence |].
  destruct ((negative_count (tally_sentences sents)
             >? positive_count (tally_sentences sents))%Z
            && Qgtb (Locals.avg_negative_intensity l) 0.3) eqn:E5;
    [congruence |].
  destruct ((positive_count (tally_sentences sents)
             >? negative_count (tally_sentences sents))%Z
            && Qgtb (Locals.avg_positive_intensity l) 0.3) eqn:E6;
    [congruence |].
  order_facts.
  split; [split; assumption |]. split; [lia |]. split.
  - intros [Hc Ha]. apply andb_false_iff in E5.
    destruct E5; order_facts; [lia | lra].
  - intros [Hc Ha]. apply andb_false_iff in E6.
    destruct E6; order_facts; [lia | lra].
Qed.

Lemma neutral_only_on_ties_witness :
  exists l,
    classify_locals toy neutral_compound
      {| polarity := 0; subjectivity := 0 |} [] [] = Ok l
    /\ Locals.sentiment l = NEUTRAL
    /\ -0.08 < Locals.combined_score l < 0.12
    /\ Locals.negative_keyword_count l = Locals.positive_keyword_count l.
Proof.
  eexists. split; [vm_compute; reflexivity |].
  split; [reflexivity |].
  pose proof (@neutral_only_on_ties toy neutral_compound
                {| polarity := 0; subjectivity := 0 |} [] [] _
                eq_refl eq_refl) as (H1 & H2 & _).
  split; [exact H1 | exact H2].
Defined.

Lemma round3_lower (x : Q) (a : Z) :
  inject_Z a / 1000 <= x -> inject_Z a / 1000 <= round3 x.
Proof.
  unfold round3, Qdiv. change (/ 1000) with (1 # 1000). intro Ha.
  assert (H1 : (a <= round_half_even (x * 1000))%Z)
    by (apply round_half_even_lower; lra).
  rewrite Zle_Qle in H1. lra.
Qed.

Lemma overall_confidence_floor (s : Q) (nk pk : Z) (c p b : Q) :
  Qmin (Qabs s) 1 <= overall_confidence s nk pk c p b
  /\ (strong_keyword_signal nk pk = true ->
      0.2 <= overall_confidence s nk pk c p b).
Proof.
  unfold overall_confidence.
  pose proof (Qabs_nonneg s) as H0.
  pose proof (Q.le_min_l (Qabs s) 1) as Hl.
  pose proof (Q.le_min_r (Qabs s) 1) as Hr.
  set (m := Qmin (Qabs s) 1) in *.
  set (k := if strong_keyword_signal nk pk
            then Qmin (Qabs s + 0.2) 1.0 else Qabs s).
  assert (Hk : m <= k
               /\ (strong_keyword_signal nk pk = true -> 0.2 <= k)).
  { unfold k. destruct (strong_keyword_signal nk pk).
    - split; [apply Q.min_glb; lra | intros _; apply Q.min_glb; lra].
    - split; [exact Hl | discriminate]. }
  destruct Hk as [Hk1 Hk2].
  destruct (signals_agree c p b).
  - assert (H0k : 0 <= k).
    { apply Qle_trans with m; [| exact Hk1].
      unfold m. apply Q.min_glb; lra. }
    split; [apply Q.min_glb; lra |].
    intro H. specialize (Hk2 H). apply Q.min_glb; lra.
  - split; assumption.
Qed.

(** X10. The boosts never lower the confidence: before rounding it is at
    least the magnitude of the score, or 1 if that is smaller.  What comes
    back is never negative, and it is at least 0.2 as soon as one keyword
    count reaches 2. *)
Theorem confidence_floor (self : Collaborators) vs ts sents text :
  exists l,
    classify_locals self vs ts sents text = Ok l
    /\ classify_overall_sentiment self vs ts sents text
       = Ok (Locals.sentiment l, round3 (Locals.confidence l))
    /\ Qmin (Qabs (Locals.combined_score l)) 1 <= Locals.confidence l
    /\ 0 <= round3 (Locals.confidence l)
    /\ ((Locals.negative_keyword_count l >= 2
         \/ Locals.positive_keyword_count l >= 2)%Z ->
        0.2 <= round3 (Locals.confidence l)).
Proof.
  destruct (classify_locals_ok self vs ts sents text) as (l & Hl & Hr).
  destruct (classify_locals_fields _ _ _ _ _ Hl)
    as (_ & _ & _ & _ & _ & _ & _ & _ & _ & _ & _ & Hconf).
  exists l. split; [exact Hl |]. split; [exact Hr |].
  destruct (overall_confidence_floor (Locals.combined_score l)
              (Locals.negative_keyword_count l)
              (Locals.positive_keyword_count l) (Locals.compound l)
              (Locals.polarity l) (Locals.sentence_balance l)) as [H1 H2].
  rewrite <- Hconf in H1, H2.
  split; [exact H1 |]. split.
  - pose proof (@round3_lower (Locals.confidence l) 0) as R.
    unfold Qdiv in R. change (/ 1000) with (1 # 1000) in R.
    change (inject_Z 0) with 0 in R.
    assert (0 <= Locals.confidence l).
    { apply Qle_trans with (Qmin (Qabs (Locals.combined_score l)) 1);
        [| exact H1].
      apply Q.min_glb; [apply Qabs_nonneg | lra]. }
    lra.
  - intro Hk. apply strong_keyword_signal_iff in Hk. specialize (H2 Hk).
    pose proof (@round3_lower (Locals.confidence l) 200) as R.
    unfold Qdiv in R. change (/ 1000) with (1 # 1000) in R.
    change (inject_Z 200) with 200 in R. lra.
Qed.

Lemma combined_score_bound (c p b kw ia : Q) :
  -1 <= c <= 1 -> -1 <= p <= 1 -> -1 <= b <= 1 ->
  -0.3 <= kw <= 0.3 -> -0.075 <= ia <= 0.075 ->
  Qabs (combined_score c p b kw ia) <= 1.075.
Proof.
  intros Hc Hp Hb Hk Hi. apply Qabs_Qle_condition. unfold combined_score.
  destruct (signals_disagree c p) eqn:E; [| lra].
  apply signals_disagree_iff in E. unfold sign_disagreement in E.
  destruct E as [[E1 E2] | [E1 E2]]; lra.
Qed.

(** X11. For a compound score and a polarity within [-1, 1] and sentence
    confidences within [0, 1], the combined score stays within
    [-1.075, 1.075].  The bound is reached, above 1: the clamps of the two
    boosts are what brings such a confidence back to 1. *)
Theorem combined_score_range (self : Collaborators) vs ts sents text :
  -1 <= compound vs <= 1 ->
  -1 <= polarity ts <= 1 ->
  Forall (fun sent => 0 <= confidence sent <= 1) sents ->
  (exists l,
      classify_locals self vs ts sents text = Ok l
      /\ Qabs (Locals.combined_score l) <= 1.075)
  /\ (exists l,
         classify_locals toy
           {| positive := 1; negative := 0; neutral := 0; compound := 1 |}
           {| polarity := 1; subjectivity := 1 |}
           [ {| sentence := []; sentiment := POSITIVE; confidence := 1 |};
             {| sentence := []; sentiment := POSITIVE; confidence := 1 |} ]
           (py "excellent brilliant amazing") = Ok l
         /\ Locals.combined_score l == 1.075
         /\ round3 (Locals.confidence l) == 1).
Proof.
  intros Hc Hp Hs. split.
  - destruct (classify_locals_ok self vs ts sents text) as (l & Hl & _).
    destruct (classify_locals_fields _ _ _ _ _ Hl)
      as (Ec & Ep & Hk & Hadj & Ht & Hb & Han & Hap & Hia & Hsc & _).
    exists l. split; [exact Hl |].
    pose proof (tally_sentences_inv Hs) as Hinv.
    pose proof (keyword_counts_nonneg (lowered self text)) as [Hnk Hpk].
    rewrite <- Hk in Hnk, Hpk. cbn [fst snd] in Hnk, Hpk.
    rewrite Hsc. apply combined_score_bound.
    + rewrite Ec. exact Hc.
    + rewrite Ep. exact Hp.
    + apply (sentence_balance_signed_unit Hinv Hb).
    + rewrite Hadj. apply keyword_adjustment_bounds; assumption.
    + rewrite Hia. apply intensity_adjustment_bounds.
      * apply (avg_negative_intensity_unit Hinv Han).
      * apply (avg_positive_intensity_unit Hinv Hap).
  - eexists. split; [vm_compute; reflexivity |]. split; reflexivity.
Qed.

Lemma combined_score_range_witness :
  exists l,
    classify_locals toy faint_praise faint_polarity one_positive_sentence
      hoping_text = Ok l
    /\ Qabs (Locals.combined_score l) <= 1.075.
Proof.
  apply (@combined_score_range toy faint_praise faint_polarity
           one_positive_sentence hoping_text).
  - vm_compute. split; discriminate.
  - vm_compute. split; discriminate.
  - repeat constructor; vm_compute; discriminate.
Defined.

(** X12. Swapping the two keyword counts changes the sign of the keyword
    adjustment.  For counts that are not negative, one more negative match
    never raises the adjustment and one more positive match never lowers
    it. *)
Theorem keyword_adjustment_monotone (n p : Z) :
  keyword_adjustment p n == - keyword_adjustment n p
  /\ ((0 <= n)%Z -> (0 <= p)%Z ->
      keyword_adjustment (n + 1) p <= keyword_adjustment n p
      /\ keyword_adjustment n p <= keyword_adjustment n (p + 1)).
Proof.
  assert (Hm : forall m : Z, (0 <= m)%Z ->
             0 <= inject_Z (Z.min m 3) <= 3
             /\ inject_Z (Z.min m 3) <= inject_Z (Z.min (m + 1) 3)
             /\ ((1 <= m)%Z -> 1 <= inject_Z (Z.min m 3))).
  { intros m Hm0.
    pose proof (@inject_Z_between 0 (Z.min m 3) 3 ltac:(lia)) as H1.
    change (inject_Z 0) with 0 in H1. change (inject_Z 3) with 3 in H1.
    split; [exact H1 |]. split.
    - rewrite <- Zle_Qle. lia.
    - intro H. change 1 with (inject_Z 1). rewrite <- Zle_Qle. lia. }
  split.
  - unfold keyword_adjustment.
    destruct (p >? n)%Z eqn:E1; destruct (n >? p)%Z eqn:E2; order_facts;
      try lia; lra.
  - intros Hn Hp.
    pose proof (Hm n Hn) as (Hn1 & Hn2 & Hn3).
    pose proof (Hm p Hp) as (Hp1 & Hp2 & Hp3).
    pose proof (Hm (n + 1)%Z ltac:(lia)) as (Hn4 & _ & Hn5).
    pose proof (Hm (p + 1)%Z ltac:(lia)) as (Hp4 & _ & Hp5).
    unfold keyword_adjustment. split.
    + destruct (n + 1 >? p)%Z eqn:E1; destruct (n >? p)%Z eqn:E2;
        [| | | destruct (p >? n + 1)%Z eqn:E3];
        destruct (p >? n)%Z eqn:E4; order_facts; try lia;
        try specialize (Hn5 ltac:(lia)); try specialize (Hp3 ltac:(lia));
        lra.
    + destruct (n >? p + 1)%Z eqn:E1; destruct (n >? p)%Z eqn:E2;
        destruct (p + 1 >? n)%Z eqn:E3; destruct (p >? n)%Z eqn:E4;
        order_facts; try lia;
        try specialize (Hn3 ltac:(lia)); try specialize (Hp5 ltac:(lia));
        lra.
Qed.

Lemma keyword_adjustment_monotone_witness :
  keyword_adjustment (2 + 1) 1 <= keyword_adjustment 2 1
  /\ keyword_adjustment 2 1 <= keyword_adjustment 2 (1 + 1).
Proof. apply (keyword_adjustment_monotone 2 1); lia. Defined.

(** ** More on the keyword matcher *)

Lemma count_phrases_le_length (phrases : list pystr) (text_lower : pystr) :
  (count_phrases phrases text_lower <= Z.of_nat (List.length phrases))%Z.
Proof.
  unfold count_phrases.
  induction phrases as [| ph phrases IH]; [cbn; lia |].
  cbn [filter]. destruct (contains ph text_lower);
    cbn [List.map fold_right List.length]; lia.
Qed.

(** X13. The hope-disappointment rule moves the negative keyword count up
    by at most one and the positive one down by at most two, both or
    neither; the counts used by the fusion stay within the sizes of the
    phrase tables: at most 81 negative and 22 positive matches. *)
Theorem keyword_counts_bounds (self : Collaborators) vs ts sents text :
  exists l,
    classify_locals self vs ts sents text = Ok l
    /\ let raw_n :=
         count_phrases strong_negative_phrases (lowered self text) in
       let raw_p :=
         count_phrases strong_positive_phrases (lowered self text) in
       let nk := Locals.negative_keyword_count l in
       let pk := Locals.positive_keyword_count l in
       ((nk = raw_n /\ pk = raw_p)
        \/ (nk = raw_n + 1 /\ pk = Z.max 0 (raw_p - 2))%Z)
       /\ (raw_n <= nk <= raw_n + 1)%Z
       /\ (raw_p - 2 <= pk <= raw_p)%Z
       /\ (0 <= nk <= 81)%Z
       /\ (0 <= pk <= 22)%Z.
Proof.
  destruct (classify_locals_ok self vs ts sents text) as (l & Hl & _).
  destruct (classify_locals_fields _ _ _ _ _ Hl) as (_ & _ & Hk & _).
  exists l. split; [exact Hl |]. cbv zeta.
  pose proof (count_phrases_nonneg strong_negative_phrases (lowered self text)).
  pose proof (count_phrases_nonneg strong_positive_phrases (lowered self text)).
  pose proof (count_phrases_le_length strong_negative_phrases
                (lowered self text)) as Hn.
  pose proof (count_phrases_le_length strong_positive_phrases
                (lowered self text)) as Hp.
  change (Z.of_nat (List.length strong_negative_phrases)) with 80%Z in Hn.
  change (Z.of_nat (List.length strong_positive_phrases)) with 22%Z in Hp.
  unfold keyword_counts, adjust_keyword_counts in Hk.
  destruct (has_hope_disappointment (lowered self text)
            && contains (py "disappointment") (lowered self text));
    injection Hk as -> ->; repeat split; lia.
Qed.

(** ** Sentences that carry no signal *)

(** Two tallies that differ at most in the neutral counter. *)
Lemma tally_neutral_insensitive (e : SentenceSentiment)
    (before after : list SentenceSentiment) :
  str_eqb (sentiment e) POSITIVE = false ->
  str_eqb (sentiment e) NEGATIVE = false ->
  let t := tally_sentences (before ++ after) in
  let t' := tally_sentences (before ++ e :: after) in
  positive_count t' = positive_count t
  /\ negative_count t' = negative_count t
  /\ negative_intensity_sum t' = negative_intensity_sum t
  /\ positive_intensity_sum t' = positive_intensity_sum t.
Proof.
  intros Hp Hn. cbv zeta. unfold tally_sentences.
  rewrite !fold_left_app. cbn [fold_left].
  generalize (fold_left tally_step before tally0). intro t0.
  assert (Hstep : forall t,
             positive_count (tally_step t e) = positive_count t
             /\ negative_count (tally_step t e) = negative_count t
             /\ negative_intensity_sum (tally_step t e)
                = negative_intensity_sum t
             /\ positive_intensity_sum (tally_step t e)
                = positive_intensity_sum t).
  { intro t. unfold tally_step. rewrite Hp, Hn. cbn. repeat split. }
  destruct (Hstep t0) as (H1 & H2 & H3 & H4).
  generalize dependent (tally_step t0 e). intros t1 H1 H2 H3 H4.
  revert t0 t1 H1 H2 H3 H4.
  induction after as [| a after IH]; intros t0 t1 H1 H2 H3 H4.
  - cbn [fold_left]. repeat split; assumption.
  - cbn [fold_left]. apply IH; unfold tally_step;
      destruct (str_eqb (sentiment a) POSITIVE);
      [| destruct (str_eqb (sentiment a) NEGATIVE) | |
       destruct (str_eqb (sentiment a) NEGATIVE) | |
       destruct (str_eqb (sentiment a) NEGATIVE) | |
       destruct (str_eqb (sentiment a) NEGATIVE)];
      cbn [positive_count negative_count negative_intensity_sum
             positive_intensity_sum]; congruence.
Qed.

(** X14. A sentence entry whose label is neither positive nor negative has
    no influence on the result: with it or without it, wherever it stands
    in the list and whatever its confidence, [classify_overall_sentiment]
    returns the same label and the same confidence. *)
Theorem neutral_sentence_ignored (self : Collaborators) vs ts text
    (e : SentenceSentiment) (before after : list SentenceSentiment) :
  sentiment e <> POSITIVE -> sentiment e <> NEGATIVE ->
  classify_overall_sentiment self vs ts (before ++ e :: after) text
  = classify_overall_sentiment self vs ts (before ++ after) text.
Proof.
  intros Hp Hn.
  assert (Heqb : forall a b, str_eqb a b = true -> a = b).
  { induction a as [| x a IH]; destruct b as [| y b]; cbn; intro H;
      try discriminate; [reflexivity |].
    apply andb_true_iff in H. destruct H as [H1 H2].
    apply N.eqb_eq in H1. f_equal; [exact H1 | apply IH; exact H2]. }
  assert (Ep : str_eqb (sentiment e) POSITIVE = false).
  { destruct (str_eqb (sentiment e) POSITIVE) eqn:E; [| reflexivity].
    exfalso. apply Hp. apply Heqb. exact E. }
  assert (En : str_eqb (sentiment e) NEGATIVE = false).
  { destruct (str_eqb (sentiment e) NEGATIVE) eqn:E; [| reflexivity].
    exfalso. apply Hn. apply Heqb. exact E. }
  destruct (tally_neutral_insensitive e before after Ep En)
    as (H1 & H2 & H3 & H4).
  set (t' := tally_sentences (before ++ e :: after)) in *.
  set (t := tally_sentences (before ++ after)) in *.
  assert (Eb : sentence_balance t' = sentence_balance t)
    by (unfold sentence_balance; rewrite H1, H2; reflexivity).
  assert (Ean : avg_negative_intensity t' = avg_negative_intensity t)
    by (unfold avg_negative_intensity; rewrite H2, H3; reflexivity).
  assert (Eap : avg_positive_intensity t' = avg_positive_intensity t)
    by (unfold avg_positive_intensity; rewrite H1, H4; reflexivity).
  assert (Eia : forall an ap,
             intensity_adjustment t' an ap = intensity_adjustment t an ap)
    by (intros; unfold intensity_adjustment; rewrite H1, H2; reflexivity).
  assert (Elab : forall s nk pk an ap,
             overall_label s nk pk t' an ap = overall_label s nk pk t an ap)
    by (intros; unfold overall_label; rewrite H1, H2; reflexivity).
  unfold classify_overall_sentiment, classify_locals. cbv zeta.
  destruct (keyword_counts (lowered self text)) as [nk pk].
  fold t t'. rewrite Eb, Ean, Eap.
  destruct (sentence_balance t) as [b |]; [| reflexivity].
  destruct (avg_negative_intensity t) as [an |]; [| reflexivity].
  destruct (avg_positive_intensity t) as [ap |]; [| reflexivity].
  cbn [bind Locals.sentiment Locals.confidence].
  rewrite Eia, Elab. reflexivity.
Qed.

Lemma neutral_sentence_ignored_witness :
  classify_overall_sentiment toy faint_praise faint_polarity
    (one_positive_sentence
     ++ {| sentence := py "It rained."; sentiment := NEUTRAL;
           confidence := 0.9 |} :: one_positive_sentence)
    hoping_text
  = classify_overall_sentiment toy faint_praise faint_polarity
      (one_positive_sentence ++ one_positive_sentence) hoping_text.
Proof.
  apply neutral_sentence_ignored;
    cbn [sentiment]; intro H; vm_compute in H; discriminate.
Defined.

(** X19. Keyword matching does not see the case of ASCII letters: two ASCII
    texts that differ in case only get the same label and confidence from
    the same signals. *)
Theorem keyword_matching_ignores_case (self : Collaborators) vs ts sents
    (text1 text2 : pystr) :
  lower_contract self ->
  is_ascii text1 -> is_ascii text2 ->
  ascii_lower text1 = ascii_lower text2 ->
  classify_overall_sentiment self vs ts sents text1
  = classify_overall_sentiment self vs ts sents text2.
Proof.
  intros Hlow H1 H2 E.
  unfold classify_overall_sentiment, classify_locals. cbv zeta.
  rewrite (lowered_ascii Hlow H1), (lowered_ascii Hlow H2), E. reflexivity.
Qed.

Lemma keyword_matching_ignores_case_witness :
  classify_overall_sentiment toy faint_praise faint_polarity
    one_positive_sentence (py "What a DISAPPOINTMENT")
  = classify_overall_sentiment toy faint_praise faint_polarity
      one_positive_sentence (py "what a Disappointment").
Proof.
  apply keyword_matching_ignores_case.
  - exact toy_lower_contract.
  - apply is_ascii_check. vm_compute. reflexivity.
  - apply is_ascii_check. vm_compute. reflexivity.
  - vm_compute. reflexivity.
Defined.

(** ** Texts that grow *)

Lemma startswith_app (prefix s more : pystr) :
  startswith s prefix = true -> startswith (s ++ more) prefix = true.
Proof.
  revert s. induction prefix as [| p prefix IH]; intros s H.
  - destruct (s ++ more); reflexivity.
  - destruct s as [| c s]; [discriminate |].
    cbn [startswith app] in *.
    apply andb_true_iff in H. destruct H as [H1 H2].
    rewrite H1, (IH _ H2). reflexivity.
Qed.

Lemma contains_app (phrase before text after : pystr) :
  contains phrase text = true ->
  contains phrase (before ++ text ++ after) = true.
Proof.
  intro H.
  assert (Hr : contains phrase (text ++ after) = true).
  { clear before. induction text as [| c text IH].
    - cbn in H. rewrite orb_false_r in H.
      destruct phrase; [| discriminate].
      destruct after; reflexivity.
    - cbn [contains] in H. apply orb_true_iff in H.
      cbn [app contains]. destruct H as [H | H].
      + pose proof (@startswith_app phrase (c :: text) after H) as Hs.
        cbn [app] in Hs. rewrite Hs. reflexivity.
      + rewrite (IH H). apply orb_true_r. }
  induction before as [| c before IH]; [exact Hr |].
  cbn [app contains]. rewrite IH. apply orb_true_r.
Qed.

Lemma count_phrases_monotone (phrases : list pystr) (t t' : pystr) :
  (forall phrase, contains phrase t = true -> contains phrase t' = true) ->
  (count_phrases phrases t <= count_phrases phrases t')%Z.
Proof.
  intro H. unfold count_phrases.
  induction phrases as [| ph phrases IH]; [cbn; lia |].
  cbn [filter]. specialize (H ph).
  destruct (contains ph t).
  - rewrite (H eq_refl). cbn [List.map fold_right]. lia.
  - destruct (contains ph t'); cbn [List.map fold_right];
      [| exact IH].
    pose proof (count_phrases_nonneg phrases t') as H0.
    unfold count_phrases in H0. lia.
Qed.

Lemma is_ascii_app (a b : pystr) : is_ascii a -> is_ascii b -> is_ascii (a ++ b).
Proof. intros Ha Hb. apply Forall_app. split; assumption. Qed.

(** X18. Text put before or after an ASCII text never lowers its negative
    keyword count: every strong-negative phrase that matched still
    matches, and the hope-disappointment rule still applies if it did. *)
Theorem negative_keywords_grow (self : Collaborators) vs ts sents
    (before text after : pystr) :
  lower_contract self ->
  is_ascii before -> is_ascii text -> is_ascii after ->
  exists l l',
    classify_locals self vs ts sents text = Ok l
    /\ classify_locals self vs ts sents (before ++ text ++ after) = Ok l'
    /\ (Locals.negative_keyword_count l
        <= Locals.negative_keyword_count l')%Z.
Proof.
  intros Hlow Hb Ht Ha.
  destruct (classify_locals_ok self vs ts sents text) as (l & Hl & _).
  destruct (classify_locals_ok self vs ts sents (before ++ text ++ after))
    as (l' & Hl' & _).
  exists l, l'. split; [exact Hl |]. split; [exact Hl' |].
  destruct (classify_locals_fields _ _ _ _ _ Hl) as (_ & _ & Hk & _).
  destruct (classify_locals_fields _ _ _ _ _ Hl') as (_ & _ & Hk' & _).
  rewrite (lowered_ascii Hlow Ht) in Hk.
  rewrite (lowered_ascii Hlow (is_ascii_app Hb (is_ascii_app Ht Ha))) in Hk'.
  unfold ascii_lower in Hk'. rewrite !map_app in Hk'.
  fold (ascii_lower before) (ascii_lower text) (ascii_lower after) in Hk'.
  set (t := ascii_lower text) in *.
  set (t' := ascii_lower before ++ t ++ ascii_lower after) in *.
  assert (Hin : forall phrase,
             contains phrase t = true -> contains phrase t' = true)
    by (intros; apply contains_app; assumption).
  pose proof (count_phrases_monotone strong_negative_phrases t t' Hin) as Hc.
  unfold keyword_counts, adjust_keyword_counts in Hk, Hk'.
  destruct (has_hope_disappointment t && contains (py "disappointment") t)
    eqn:E.
  - apply andb_true_iff in E. destruct E as [E1 E2].
    assert (E1' : has_hope_disappointment t' = true).
    { unfold has_hope_disappointment in *.
      apply existsb_exists in E1. destruct E1 as (pat & Hpat & Hc1).
      apply existsb_exists. exists pat. split; [exact Hpat | auto]. }
    rewrite E1', (Hin _ E2) in Hk'. cbn [andb] in Hk'.
    injection Hk as -> _. injection Hk' as -> _. lia.
  - injection Hk as -> _.
    destruct (has_hope_disappointment t' && contains (py "disappointment") t');
      injection Hk' as -> _; lia.
Qed.

Lemma negative_keywords_grow_witness :
  exists l l',
    classify_locals toy faint_praise faint_polarity [] (py "So dull") = Ok l
    /\ classify_locals toy faint_praise faint_polarity []
         (py "Boring. " ++ py "So dull" ++ py " and bland") = Ok l'
    /\ (Locals.negative_keyword_count l
        <= Locals.negative_keyword_count l')%Z.
Proof.
  apply negative_keywords_grow;
    [exact toy_lower_contract | | |];
    apply is_ascii_check; vm_compute; reflexivity.
Defined.

(** ** The shape of the cleaned text *)

Lemma last_app_cons (a b : pystr) (x d : char) :
  last (a ++ x :: b) d = last (x :: b) d.
Proof.
  induction a as [| y a IH]; [reflexivity |].
  cbn [app]. rewrite <- IH. cbn [last].
  destruct (a ++ x :: b) eqn:E; [destruct a; discriminate | reflexivity].
Qed.

Lemma last_cons_default (s : pystr) (x d d' : char) :
  last (x :: s) d = last (x :: s) d'.
Proof.
  revert x. induction s as [| y s IH]; intro x; [reflexivity |].
  change (last (x :: y :: s) d) with (last (y :: s) d).
  change (last (x :: y :: s) d') with (last (y :: s) d').
  apply IH.
Qed.

Lemma last_in (s : pystr) (x d : char) : In (last (x :: s) d) (x :: s).
Proof.
  revert x. induction s as [| y s IH]; intro x; [left; reflexivity |].
  change (last (x :: y :: s) d) with (last (y :: s) d).
  right. apply IH.
Qed.

(** The parts that [split] returns: not empty, and free of whitespace. *)
Lemma split_aux_words (s cur : pystr) :
  Forall (fun c => isspace c = false) cur ->
  Forall (fun w => w <> [] /\ Forall (fun c => isspace c = false) w)
    (split_aux cur s).
Proof.
  assert (Hrev : forall c cur,
             Forall (fun c => isspace c = false) (c :: cur) ->
             rev (c :: cur) <> []
             /\ Forall (fun c => isspace c = false) (rev (c :: cur))).
  { intros c cur0 H. split; [| apply Forall_rev; exact H].
    cbn [rev]. intro E. destruct (rev cur0); discriminate. }
  revert cur. induction s as [| c s IH]; intros cur Hcur.
  - cbn [split_aux]. destruct cur; [constructor |].
    constructor; [apply Hrev; exact Hcur | constructor].
  - cbn [split_aux]. destruct (isspace c) eqn:E.
    + destruct cur.
      * apply IH. constructor.
      * constructor; [apply Hrev; exact Hcur | apply IH; constructor].
    + apply IH. constructor; assumption.
Qed.

Lemma single_spaced_word_then (w rest : pystr) :
  Forall (fun c => isspace c = false) w ->
  single_spaced rest ->
  match rest with [] => True | d :: _ => isspace d = false end ->
  single_spaced (w ++ 32%N :: rest).
Proof.
  intros Hw Hrest Hhead. induction Hw as [| c w Hc Hw IH].
  - cbn [app single_spaced]. split; [| exact Hrest].
    destruct rest as [| d rest]; [exact I |].
    intros [_ ->]. vm_compute in Hhead. discriminate.
  - cbn [app]. cbn [single_spaced]. split; [| exact IH].
    destruct (w ++ 32%N :: rest); [exact I |].
    intros [-> _]. vm_compute in Hc. discriminate.
Qed.

Lemma single_spaced_word (w : pystr) :
  Forall (fun c => isspace c = false) w -> single_spaced w.
Proof.
  induction 1 as [| c w Hc Hw IH]; [exact I |].
  cbn [single_spaced]. split; [| exact IH].
  destruct w; [exact I |]. intros [-> _]. vm_compute in Hc. discriminate.
Qed.

Lemma join_words (parts : list pystr) :
  Forall (fun w => w <> [] /\ Forall (fun c => isspace c = false) w) parts ->
  single_spaced (join (py " ") parts)
  /\ stripped (join (py " ") parts)
  /\ (parts <> [] -> join (py " ") parts <> []).
Proof.
  induction 1 as [| w rest [Hne Hw] Hrest IH];
    [split; [exact I | split; [exact I | intro H; exfalso; apply H; reflexivity]] |].
  destruct IH as (IH1 & IH2 & IH3).
  destruct w as [| c w]; [congruence |].
  inversion Hw as [| c' w' Hc Hw']; subst.
  cbn [join]. destruct rest as [| q rest].
  - split; [apply single_spaced_word; exact Hw |].
    split; [| congruence].
    unfold stripped. split; [exact Hc |].
    pose proof (last_in w c c) as Hin.
    rewrite Forall_forall in Hw. apply Hw. exact Hin.
  - assert (Hj : join (py " ") (q :: rest) <> [])
      by (apply IH3; discriminate).
    destruct (join (py " ") (q :: rest)) as [| d tl]; [congruence |].
    unfold stripped in IH2. destruct IH2 as [Hd Hlast].
    change (py " ") with [32%N]. cbn [app].
    change (c :: w ++ 32%N :: d :: tl) with ((c :: w) ++ 32%N :: d :: tl).
    split; [apply single_spaced_word_then; assumption |].
    split; [| discriminate].
    unfold stripped. cbn [app]. split; [exact Hc |].
    change (c :: w ++ 32%N :: d :: tl) with ((c :: w) ++ 32%N :: d :: tl).
    rewrite last_app_cons.
    change (last (32%N :: d :: tl) c) with (last (d :: tl) c).
    rewrite (last_cons_default tl d c d). exact Hlast.
Qed.

(** X15. The cleaned text never starts or ends with whitespace and never
    holds two spaces in a row, whatever the input. *)
Theorem cleaned_text_spacing (self : Collaborators) (text : pystr) :
  stripped (snd (preprocess_text self text))
  /\ single_spaced (snd (preprocess_text self text)).
Proof.
  unfold preprocess_text. cbn [snd]. unfold split.
  destruct (join_words
              (@split_aux_words
                 (re_sub special_pattern
                    (re_sub email_pattern
                       (re_sub url_pattern (str_lower self text))))
                 [] (Forall_nil _))) as (H1 & H2 & _).
  split; assumption.
Qed.

(** ** Rounded scores *)

Lemma round_half_even_near (y : Q) :
  - (1 # 2) <= inject_Z (round_half_even y) - y <= 1 # 2.
Proof.
  pose proof (Qfloor_le y) as H1. pose proof (Qlt_floor y) as H2.
  rewrite inject_Z_plus in H2. change (inject_Z 1) with 1 in H2.
  unfold round_half_even.
  destruct (Qltb (y - inject_Z (Qfloor y)) (1 # 2)) eqn:E1; order_facts;
    [lra |].
  destruct (Qgtb (y - inject_Z (Qfloor y)) (1 # 2)) eqn:E2; order_facts.
  - rewrite inject_Z_plus. change (inject_Z 1) with 1. lra.
  - destruct (Z.even (Qfloor y)); [lra |].
    rewrite inject_Z_plus. change (inject_Z 1) with 1. lra.
Qed.

Lemma round3_near (x : Q) : Qabs (round3 x - x) <= 0.0005.
Proof.
  apply Qabs_Qle_condition.
  pose proof (round_half_even_near (x * 1000)) as H.
  unfold round3, Qdiv. change (/ 1000) with (1 # 1000). lra.
Qed.

Lemma round3_idempotent (x : Q) : round3 (round3 x) == round3 x.
Proof.
  unfold round3.
  set (k := round_half_even (x * 1000)).
  assert (E : inject_Z k / 1000 * 1000 == inject_Z k) by (field).
  assert (Hk : round_half_even (inject_Z k / 1000 * 1000) = k).
  { apply Z.le_antisymm.
    - apply round_half_even_upper. rewrite E. apply Qle_refl.
    - apply round_half_even_lower. rewrite E. apply Qle_refl. }
  rewrite Hk. reflexivity.
Qed.

(** * The Flask application *)

(** ** Strings *)

Lemma str_eqb_eq (a b : pystr) : str_eqb a b = true <-> a = b.
Proof.
  revert b. induction a as [| x a IH]; destruct b as [| y b]; cbn;
    try (split; [discriminate | congruence]); [tauto |].
  rewrite andb_true_iff, N.eqb_eq, IH. split.
  - intros [-> ->]. reflexivity.
  - intro H. injection H as -> ->. split; reflexivity.
Qed.

Lemma startswith_prefix (prefix s : pystr) :
  startswith s prefix = true <-> exists rest, s = prefix ++ rest.
Proof.
  revert s. induction prefix as [| p prefix IH]; intro s.
  - split; [intros _; exists s; reflexivity |].
    intros _. destruct s; reflexivity.
  - destruct s as [| c s]; cbn [startswith].
    + split; [discriminate | intros [r H]; discriminate].
    + rewrite andb_true_iff, N.eqb_eq, IH. split.
      * intros [-> [r ->]]. exists r. reflexivity.
      * intros [r H]. injection H as -> ->. split; [reflexivity | eauto].
Qed.

Lemma endswith_suffix (suffix s : pystr) :
  endswith s suffix = true <-> exists stem, s = stem ++ suffix.
Proof.
  unfold endswith. rewrite startswith_prefix. split.
  - intros [r H]. exists (rev r).
    rewrite <- (rev_involutive s), H, rev_app_distr, rev_involutive.
    reflexivity.
  - intros [stem ->]. exists (rev stem). apply rev_app_distr.
Qed.

Lemma contains_char (c : char) (s : pystr) :
  contains [c] s = true <-> In c s.
Proof.
  induction s as [| d s IH]; cbn [contains startswith In].
  - split; [discriminate | tauto].
  - rewrite orb_true_iff, IH.
    assert (E : ((c =? d)%N && startswith s []) = true <-> d = c).
    { destruct s; cbn; rewrite andb_true_r, N.eqb_eq; split; congruence. }
    rewrite E. tauto.
Qed.

Lemma lstrip_fixed (s : pystr) :
  match s with [] => True | c :: _ => isspace c = false end -> lstrip s = s.
Proof.
  destruct s as [| c s]; [reflexivity |].
  intro H. cbn [lstrip]. rewrite H. reflexivity.
Qed.

(** Stripping a string that has no whitespace at its ends changes
    nothing. *)
Lemma strip_fixed (s : pystr) : stripped s -> strip s = s.
Proof.
  intro H. unfold strip.
  destruct s as [| c s]; [reflexivity |].
  destruct H as [Hc Hlast].
  rewrite (lstrip_fixed (c :: s) Hc).
  rewrite lstrip_fixed; [apply rev_involutive |].
  destruct (rev (c :: s)) as [| x r] eqn:E.
  - exact I.
  - assert (Es : c :: s = rev r ++ [x]).
    { rewrite <- (rev_involutive (c :: s)), E. reflexivity. }
    rewrite Es, last_last in Hlast. exact Hlast.
Qed.

Lemma strip_idempotent (s : pystr) : strip (strip s) = strip s.
Proof. apply strip_fixed. apply strip_stripped. Qed.

Lemma lstrip_nil (s : pystr) :
  lstrip s = [] <-> Forall (fun c => isspace c = true) s.
Proof.
  induction s as [| c s IH]; cbn [lstrip].
  - split; [constructor | reflexivity].
  - destruct (isspace c) eqn:E.
    + rewrite IH. split.
      * intro H. constructor; assumption.
      * intro H. inversion H; assumption.
    + split; [discriminate |].
      intro H. inversion H; congruence.
Qed.

(** [strip] leaves nothing exactly when every character is whitespace. *)
Lemma strip_nil (s : pystr) :
  strip s = [] <-> Forall (fun c => isspace c = true) s.
Proof.
  unfold strip. split.
  - intro H.
    assert (H1 : lstrip (rev (lstrip s)) = []).
    { destruct (lstrip (rev (lstrip s))) as [| x r]; [reflexivity |].
      cbn [rev] in H. destruct (rev r); discriminate. }
    apply lstrip_nil in H1. apply Forall_rev in H1.
    rewrite rev_involutive in H1.
    destruct (lstrip_suffix s) as [pre Hpre].
    pose proof (lstrip_head s) as Hh.
    destruct (lstrip s) as [| c r] eqn:E.
    + apply lstrip_nil. exact E.
    + inversion H1; congruence.
  - intro H. apply lstrip_nil in H. rewrite H. reflexivity.
Qed.

(** ** Uploaded file names *)

Lemma rsplit1_aux_spec (sep : char) (reversed after : pystr) :
  ~ In sep after ->
  (~ In sep reversed
   /\ rsplit1_aux sep after reversed = [rev reversed ++ after])
  \/ (exists b a,
         rsplit1_aux sep after reversed = [b; a]
         /\ rev reversed ++ after = b ++ sep :: a
         /\ ~ In sep a).
Proof.
  revert after. induction reversed as [| c before IH]; intros after Hafter.
  - left. split; [intros [] | reflexivity].
  - cbn [rsplit1_aux rev]. destruct (c =? sep)%N eqn:E.
    + apply N.eqb_eq in E. subst c. right. exists (rev before), after.
      split; [reflexivity |]. split; [| exact Hafter].
      rewrite <- app_assoc. reflexivity.
    + apply N.eqb_neq in E.
      assert (Hc : ~ In sep (c :: after)) by (intros [H | H]; auto).
      destruct (IH (c :: after) Hc) as [[Hno Hres] | (b & a & Hres & Heq & Ha)].
      * left. split; [intros [H | H]; auto |].
        rewrite Hres, <- app_assoc. reflexivity.
      * right. exists b, a. split; [exact Hres |]. split; [| exact Ha].
        rewrite <- app_assoc. exact Heq.
Qed.

Lemma last_cut_unique (sep : char) (b b' a a' : pystr) :
  b ++ sep :: a = b' ++ sep :: a' ->
  ~ In sep a -> ~ In sep a' -> b = b' /\ a = a'.
Proof.
  revert b'. induction b as [| x b IH]; intros b' H Ha Ha'.
  - destruct b' as [| y b'].
    + injection H as ->. split; reflexivity.
    + exfalso. cbn in H. injection H as _ H. apply Ha. rewrite H.
      apply in_or_app. right. left. reflexivity.
  - destruct b' as [| y b'].
    + exfalso. cbn in H. injection H as _ H. apply Ha'. rewrite <- H.
      apply in_or_app. right. left. reflexivity.
    + cbn in H. injection H as -> H.
      destruct (IH b' H Ha Ha') as [-> ->]. split; reflexivity.
Qed.

Lemma allowed_file_cut (self : Collaborators) (stem ext : pystr) :
  ~ In 46%N ext ->
  allowed_file self (stem ++ 46%N :: ext)
  = Return (existsb (str_eqb (str_lower self ext)) ALLOWED_EXTENSIONS).
Proof.
  intro Hext. unfold allowed_file.
  change (py ".") with (@cons char 46%N (@nil char)).
  assert (Hin : In 46%N (stem ++ 46%N :: ext))
    by (apply in_or_app; right; left; reflexivity).
  pose proof Hin as Hc. apply contains_char in Hc.
  rewrite Hc.
  destruct (@rsplit1_aux_spec 46%N (rev (stem ++ 46%N :: ext)) []
              (fun H => H))
    as [[Hno _] | (b & a & Hres & Heq & Ha)].
  - exfalso. apply Hno. apply in_rev in Hin. exact Hin.
  - unfold rsplit1. rewrite Hres. cbn [index nth_error attempt_bind].
    rewrite rev_involutive, app_nil_r in Heq.
    destruct (@last_cut_unique 46%N stem b ext a Heq Hext Ha) as [_ <-].
    reflexivity.
Qed.

Lemma cut_at_last (c : char) (s : pystr) :
  In c s -> exists stem ext, s = stem ++ c :: ext /\ ~ In c ext.
Proof.
  intro Hin.
  destruct (@rsplit1_aux_spec c (rev s) [] (fun H => H))
    as [[Hno _] | (b & a & _ & Heq & Ha)].
  - exfalso. apply Hno. apply in_rev in Hin. exact Hin.
  - rewrite rev_involutive, app_nil_r in Heq. eauto.
Qed.

(** X21. [allowed_file] raises nothing.  It accepts a file name exactly
    when the name has a dot and what follows its last dot is, once
    lowercased, one of txt, pdf, docx. *)
Theorem allowed_file_extension (self : Collaborators) (filename : pystr) :
  exists allowed,
    allowed_file self filename = Return allowed
    /\ (allowed = true <->
        exists stem ext,
          filename = stem ++ 46%N :: ext
          /\ ~ In 46%N ext
          /\ In (str_lower self ext) ALLOWED_EXTENSIONS).
Proof.
  destruct (contains (@cons char 46%N (@nil char)) filename) eqn:E.
  - apply contains_char in E.
    destruct (@cut_at_last 46%N filename E) as (stem & ext & -> & Hext).
    exists (existsb (str_eqb (str_lower self ext)) ALLOWED_EXTENSIONS).
    split; [exact (@allowed_file_cut self stem ext Hext) |]. split.
    + intro H. apply existsb_exists in H. destruct H as (x & Hx & Hxe).
      apply str_eqb_eq in Hxe. subst x.
      exists stem, ext. repeat split; assumption.
    + intros (stem' & ext' & Hf & Hext' & Hin).
      destruct (@last_cut_unique 46%N stem stem' ext ext' Hf Hext Hext')
        as [_ ->].
      apply existsb_exists. exists (str_lower self ext').
      split; [exact Hin | apply str_eqb_eq; reflexivity].
  - exists false. unfold allowed_file.
    change (py ".") with (@cons char 46%N (@nil char)).
    rewrite E. split; [reflexivity |].
    split; [discriminate |].
    intros (stem & ext & Hf & _). exfalso.
    assert (Hin : In 46%N filename).
    { rewrite Hf. apply in_or_app. right. left. reflexivity. }
    apply contains_char in Hin.
    pose proof (eq_trans (eq_sym Hin) E) as Habs. discriminate.
Qed.

Lemma endswith_txt_allowed (self : Collaborators) (filename : pystr) :
  lower_contract self ->
  endswith filename (py ".txt") = true ->
  allowed_file self filename = Return true.
Proof.
  intros Hlow H. apply endswith_suffix in H. destruct H as [stem ->].
  change (py ".txt") with (46%N :: py "txt").
  rewrite allowed_file_cut by (vm_compute; intuition discriminate).
  rewrite Hlow by (apply is_ascii_check; vm_compute; reflexivity).
  reflexivity.
Qed.

(** X22. Under [lower_contract] a name that ends with ".txt" is always
    allowed, whereas an allowed name need not end with ".txt": a name in
    capitals such as "NOTES.TXT" is allowed and fails the test on the
    ending that [analyze_file] makes next. *)
Theorem txt_names_allowed (self : Collaborators) (filename : pystr) :
  lower_contract self ->
  (endswith filename (py ".txt") = true ->
   allowed_file self filename = Return true)
  /\ allowed_file self (py "NOTES.TXT") = Return true
  /\ endswith (py "NOTES.TXT") (py ".txt") = false.
Proof.
  intro Hlow.
  split; [| split; [| vm_compute; reflexivity]].
  - intro H. apply endswith_suffix in H. destruct H as [stem ->].
    change (py ".txt") with (46%N :: py "txt").
    rewrite allowed_file_cut by (vm_compute; intuition discriminate).
    rewrite Hlow by (apply is_ascii_check; vm_compute; reflexivity).
    reflexivity.
  - change (py "NOTES.TXT") with (py "NOTES" ++ 46%N :: py "TXT").
    rewrite allowed_file_cut by (vm_compute; intuition discriminate).
    rewrite Hlow by (apply is_ascii_check; vm_compute; reflexivity).
    reflexivity.
Qed.

Lemma txt_names_allowed_witness :
  allowed_file toy (py "report.txt") = Return true.
Proof.
  destruct (txt_names_allowed (py "report.txt") toy_lower_contract)
    as [H _].
  apply H. vm_compute. reflexivity.
Defined.

(** ** Previews and paragraphs *)

(** X24. A preview is never longer than 103 characters; it starts with the
    first 100 characters of the text, and it is the text itself when the
    text has at most 100 characters. *)
Theorem preview_length (text : pystr) :
  (len (preview text) <= 103)%Z
  /\ firstn 100 (preview text) = firstn 100 text
  /\ ((len text <= 100)%Z -> preview text = text)
  /\ ((len text > 100)%Z -> len (preview text) = 103%Z).
Proof.
  unfold preview, len.
  pose proof (length_firstn 100 text) as Hf.
  destruct (Z.of_nat (List.length text) >? 100)%Z eqn:E; order_facts.
  - rewrite length_app, Hf. change (List.length (py "...")) with 3%nat.
    split; [lia |]. split; [| split; lia].
    rewrite firstn_app, Hf.
    replace (100 - Nat.min 100 (List.length text))%nat with 0%nat by lia.
    rewrite firstn_O, app_nil_r, firstn_firstn. reflexivity.
  - rewrite app_nil_r. split; [rewrite Hf; lia |].
    split; [rewrite firstn_firstn; reflexivity |].
    split; [intros _; apply firstn_all2; lia | lia].
Qed.

Lemma preview_length_witness : preview love_text = love_text.
Proof. apply (preview_length love_text). vm_compute. discriminate. Defined.

Lemma split_on_aux_nonempty (sep : pystr) (s cur : pystr) (skip : nat) :
  split_on_aux sep skip cur s <> [].
Proof.
  revert skip cur. induction s as [| c s IH]; intros skip cur.
  - discriminate.
  - cbn [split_on_aux]. destruct skip; [| apply IH].
    destruct (startswith (c :: s) sep); [discriminate | apply IH].
Qed.

Lemma split_on_aux_skip (sep u s cur : pystr) :
  split_on_aux sep (List.length u) cur (u ++ s) = split_on_aux sep 0 cur s.
Proof.
  induction u as [| x u IH]; [destruct s; reflexivity |].
  cbn [List.length app split_on_aux]. exact IH.
Qed.

Lemma join_cons (sep p : pystr) (rest : list pystr) :
  rest <> [] -> join sep (p :: rest) = p ++ sep ++ join sep rest.
Proof. destruct rest; [congruence | reflexivity]. Qed.

(** [sep.join(s.split(sep)) == s] *)
Lemma join_split_on (sep : pystr) (s : pystr) :
  sep <> [] -> join sep (split_on sep s) = s.
Proof.
  intro Hsep. unfold split_on.
  assert (H : forall n s cur,
             (List.length s <= n)%nat ->
             join sep (split_on_aux sep 0 cur s) = rev cur ++ s).
  { induction n as [| n IH]; intros t cur Hlen.
    - destruct t; [| cbn in Hlen; lia]. cbn. rewrite app_nil_r. reflexivity.
    - destruct t as [| c t]; [cbn; rewrite app_nil_r; reflexivity |].
      cbn [split_on_aux]. cbn [List.length] in Hlen.
      destruct (startswith (c :: t) sep) eqn:E.
      + apply startswith_prefix in E. destruct E as [rest E].
        destruct sep as [| x sep']; [congruence |].
        cbn [app] in E. injection E as -> ->.
        replace (List.length (x :: sep') - 1)%nat with (List.length sep')
          by (cbn [List.length]; lia).
        rewrite split_on_aux_skip.
        rewrite join_cons by apply split_on_aux_nonempty.
        rewrite IH by (rewrite length_app in Hlen; lia).
        reflexivity.
      + rewrite IH by lia. cbn [rev]. rewrite <- app_assoc. reflexivity. }
  apply (H (List.length s) s []). lia.
Qed.

Lemma in_join (sep : pystr) (parts : list pystr) (c : char) :
  In c (join sep parts) -> In c sep \/ exists p, In p parts /\ In c p.
Proof.
  induction parts as [| p rest IH]; [intros [] |].
  destruct rest as [| q rest].
  - cbn [join]. intro H. right. exists p. split; [left; reflexivity | exact H].
  - rewrite join_cons by discriminate. intro H.
    apply in_app_or in H. destruct H as [H | H].
    + right. exists p. split; [left; reflexivity | exact H].
    + apply in_app_or in H. destruct H as [H | H]; [left; exact H |].
      destruct (IH H) as [Hs | (x & Hx & Hc)]; [left; exact Hs |].
      right. exists x. split; [right; exact Hx | exact Hc].
Qed.

Lemma in_part_join (sep : pystr) (parts : list pystr) (p : pystr) (c : char) :
  In p parts -> In c p -> In c (join sep parts).
Proof.
  induction parts as [| q rest IH]; [intros [] |].
  intros Hp Hc. destruct rest as [| r rest].
  - destruct Hp as [-> | []]. exact Hc.
  - rewrite join_cons by discriminate. apply in_or_app.
    destruct Hp as [-> | Hp]; [left; exact Hc |].
    right. apply in_or_app. right. apply IH; assumption.
Qed.

Lemma stripped_nonblank_parts (parts : list pystr) :
  Forall (fun p => p <> [] /\ stripped p) (stripped_nonblank parts).
Proof.
  unfold stripped_nonblank. apply Forall_forall. intros x Hx.
  apply in_map_iff in Hx. destruct Hx as (p & <- & Hp).
  apply filter_In in Hp. destruct Hp as [_ Hp].
  split; [| apply strip_stripped].
  destruct (strip p); [discriminate | discriminate].
Qed.

Lemma stripped_nonblank_nil (parts : list pystr) :
  stripped_nonblank parts = []
  <-> Forall (fun p => Forall (fun c => isspace c = true) p) parts.
Proof.
  unfold stripped_nonblank.
  induction parts as [| p parts IH]; [split; [constructor | reflexivity] |].
  cbn [filter]. destruct (strip p) eqn:E.
  - apply strip_nil in E. rewrite IH. split.
    + intro H. constructor; assumption.
    + intro H. inversion H; assumption.
  - split; [discriminate |].
    intro H. inversion H as [| ? ? Hp _]. apply strip_nil in Hp. congruence.
Qed.

Lemma split_on_blank (sep content : pystr) :
  sep <> [] -> Forall (fun c => isspace c = true) sep ->
  (stripped_nonblank (split_on sep content) = []
   <-> Forall (fun c => isspace c = true) content).
Proof.
  intros Hne Hsep. rewrite stripped_nonblank_nil.
  pose proof (join_split_on content Hne) as Hjoin.
  rewrite !Forall_forall. split.
  - intros H c Hc. rewrite <- Hjoin in Hc. apply in_join in Hc.
    destruct Hc as [Hc | (p & Hp & Hc)].
    + rewrite Forall_forall in Hsep. auto.
    + specialize (H p Hp). rewrite Forall_forall in H. auto.
  - intros H p Hp. apply Forall_forall. intros c Hc. apply H.
    rewrite <- Hjoin. apply (@in_part_join sep _ p c Hp Hc).
Qed.

Lemma file_paragraphs_parts (content : pystr) :
  Forall (fun p => p <> [] /\ stripped p) (file_paragraphs content)
  /\ (file_paragraphs content = []
      <-> Forall (fun c => isspace c = true) content).
Proof.
  assert (H2 : stripped_nonblank (split_on [10; 10]%N content) = []
               <-> Forall (fun c => isspace c = true) content).
  { apply split_on_blank; [discriminate |].
    repeat constructor. }
  assert (H1 : stripped_nonblank (split_on [10]%N content) = []
               <-> Forall (fun c => isspace c = true) content).
  { apply split_on_blank; [discriminate |].
    repeat constructor. }
  unfold file_paragraphs, len.
  set (double := stripped_nonblank (split_on [10; 10]%N content)) in *.
  set (single := stripped_nonblank (split_on [10]%N content)) in *.
  destruct (Z.of_nat (List.length double) <=? 1)%Z eqn:E1;
    [| split; [apply stripped_nonblank_parts | exact H2]].
  destruct (Z.of_nat (List.length single) >? 1)%Z eqn:E2;
    [| split; [apply stripped_nonblank_parts | exact H2]].
  split; [apply stripped_nonblank_parts | exact H1].
Qed.

(** X23. The paragraphs taken from a file are never empty and have no
    whitespace at their ends; there is none exactly when the file holds
    nothing but whitespace. *)
Theorem file_paragraphs_nonblank (content : pystr) :
  Forall (fun p => p <> [] /\ stripped p) (file_paragraphs content)
  /\ (file_paragraphs content = []
      <-> Forall (fun c => isspace c = true) content).
Proof. exact (file_paragraphs_parts content). Qed.

(** ** The JSON handlers *)

Lemma guard_then_getitem (key : pystr) (data : json)
    (missing_answer : attempt Response) (rest : json -> attempt Response) :
  (missing <~ (if negb (truthy data) then Return true
               else present <~ py_in key data ;;
                    Return (negb present)) ;;
   if missing : bool
   then missing_answer
   else field <~ getitem data key ;; rest field)
  = (field <~ required_field key data ;;
     match field with
     | None => missing_answer
     | Some v => rest v
     end).
Proof.
  destruct data as [| b | x | s | items | items];
    cbn [truthy negb py_in getitem required_field attempt_bind].
  - reflexivity.
  - destruct b; reflexivity.
  - destruct (Qeq_bool x 0); reflexivity.
  - destruct s as [| c s]; [reflexivity |].
    cbn [negb attempt_bind]. destruct (contains key (c :: s)); reflexivity.
  - destruct items as [| i items]; [reflexivity |].
    cbn [negb attempt_bind].
    destruct (existsb _ (i :: items)); reflexivity.
  - destruct items as [| [k v] items]; [reflexivity |].
    cbn [negb attempt_bind].
    destruct (lookup key ((k, v) :: items)); reflexivity.
Qed.

Lemma required_field_some (key : pystr) (data v : json) :
  required_field key data = Return (Some v)
  <-> exists items, data = JObj items /\ lookup key items = Some v.
Proof.
  split.
  - destruct data as [| b | x | s | items | items]; cbn [required_field];
      try discriminate.
    + destruct b; discriminate.
    + destruct (Qeq_bool x 0); discriminate.
    + destruct s; [discriminate |].
      destruct (contains key (c :: s)); discriminate.
    + destruct (existsb _ items); discriminate.
    + intro H. injection H as H. eauto.
  - intros (items & -> & H). cbn [required_field]. rewrite H. reflexivity.
Qed.

(** [analyze_text] in terms of the field it reads. *)
Lemma analyze_text_cases (self : Collaborators) (data : json) :
  analyze_text self data
  = match required_field (py "text") data with
    | Throw e => (ExceptionBody (py "Error analyzing text: ") e, 500%Z)
    | Return None => (ErrorBody (py "Missing text field in request"), 400%Z)
    | Return (Some (JStr s)) =>
        match strip s with
        | [] => (ErrorBody (py "Text field cannot be empty"), 400%Z)
        | _ =>
            if (len (strip s) >? 50000)%Z
            then (ErrorBody
                    (py "Text exceeds maximum length of 50000 characters"),
                  400%Z)
            else match get_detailed_analysis self (strip s) with
                 | Ok a => (AnalysisBody a, 200%Z)
                 | Raise e =>
                     (ExceptionBody (py "Error analyzing text: ") (Raised e),
                      500%Z)
                 end
        end
    | Return (Some _) =>
        (ExceptionBody (py "Error analyzing text: ") AttributeError, 500%Z)
    end.
Proof.
  unfold analyze_text. rewrite guard_then_getitem.
  destruct (required_field (py "text") data) as [[v |] | e];
    cbn [attempt_bind try_except]; try reflexivity.
  destruct v as [| b | x | s | items | items];
    cbn [strip_method attempt_bind try_except]; try reflexivity.
  destruct (strip s) as [| c t]; [reflexivity |].
  destruct (len (c :: t) >? 50000)%Z; [reflexivity |].
  destruct (get_detailed_analysis self (c :: t)); reflexivity.
Qed.

(** X25. [analyze_text] answers 200, 400 or 500.  It answers 200 exactly
    when the body is an object whose "text" is a string that, stripped, is
    not empty and has at most 50000 characters; the data it returns are
    then the analysis of the stripped text. *)
Theorem analyze_text_success (self : Collaborators) (data : json) :
  let r := analyze_text self data in
  (snd r = 200 \/ snd r = 400 \/ snd r = 500)%Z
  /\ (snd r = 200%Z
      <-> exists items s,
            data = JObj items
            /\ lookup (py "text") items = Some (JStr s)
            /\ strip s <> []
            /\ (len (strip s) <= 50000)%Z)
  /\ (snd r = 200%Z ->
      exists items s a,
        data = JObj items
        /\ lookup (py "text") items = Some (JStr s)
        /\ get_detailed_analysis self (strip s) = Ok a
        /\ r = (AnalysisBody a, 200%Z)).
Proof.
  cbv zeta. rewrite analyze_text_cases.
  destruct (required_field (py "text") data) as [[v |] | e] eqn:E.
  - apply required_field_some in E. destruct E as (items & -> & Hl).
    destruct v as [| b | x | s | l | o]; cbn [snd];
      try (split; [auto |]; split;
           [split; [discriminate |];
            intros (i & s0 & H & H' & _); injection H as <-; congruence
           | discriminate]).
    destruct (strip s) as [| c t] eqn:Es.
    + cbn [snd]. split; [auto |]. split; [| discriminate].
      split; [discriminate |].
      intros (i & s0 & H & H' & Hne & _). injection H as <-.
      rewrite Hl in H'. injection H' as <-. congruence.
    + destruct (len (c :: t) >? 50000)%Z eqn:El; order_facts.
      * cbn [snd]. split; [auto |]. split; [| discriminate].
        split; [discriminate |].
        intros (i & s0 & H & H' & _ & Hlen). injection H as <-.
        rewrite Hl in H'. injection H' as <-. rewrite Es in Hlen. lia.
      * destruct (get_detailed_analysis_total self (c :: t)) as [a Ha].
        rewrite Ha. cbn [snd]. split; [auto |]. split.
        -- split; [| reflexivity]. intros _. exists items, s.
           rewrite Es. split; [reflexivity |]. split; [exact Hl |].
           split; [discriminate | lia].
        -- intros _. exists items, s, a. rewrite Es.
           split; [reflexivity |]. split; [exact Hl |].
           split; [exact Ha | reflexivity].
  - cbn [snd]. split; [auto |]. split; [| discriminate].
    split; [discriminate |].
    intros (i & s0 & -> & H' & _). cbn [required_field] in E. congruence.
  - cbn [snd]. split; [auto |]. split; [| discriminate].
    split; [discriminate |].
    intros (i & s0 & -> & H' & _). cbn [required_field] in E. discriminate.
Qed.

(** X26. Only the stripped text counts: whitespace around the text, and
    the other fields of the body, do not change the answer of
    [analyze_text]. *)
Theorem analyze_text_strips (self : Collaborators)
    (items : list (pystr * json)) (s : pystr) :
  lookup (py "text") items = Some (JStr s) ->
  analyze_text self (JObj items)
  = analyze_text self (JObj [(py "text", JStr (strip s))]).
Proof.
  intro H. rewrite !analyze_text_cases. cbn [required_field].
  rewrite H. change (lookup (py "text") [(py "text", JStr (strip s))])
    with (Some (JStr (strip s))).
  cbv iota. rewrite strip_idempotent. reflexivity.
Qed.

Lemma analyze_text_strips_witness :
  analyze_text toy
    (JObj [(py "lang", JStr (py "en")); (py "text", JStr (py "  so dull  "))])
  = analyze_text toy (JObj [(py "text", JStr (strip (py "  so dull  ")))]).
Proof. apply analyze_text_strips. reflexivity. Defined.

Lemma analyze_text_success_witness :
  snd (analyze_text toy (JObj [(py "text", JStr (py " so dull "))])) = 200%Z.
Proof.
  apply (analyze_text_success toy
           (JObj [(py "text", JStr (py " so dull "))])).
  exists [(py "text", JStr (py " so dull "))], (py " so dull ").
  split; [reflexivity |]. split; [reflexivity |].
  split; [vm_compute; discriminate | vm_compute; discriminate].
Defined.

(** ** Batches *)

Lemma strip_texts_strings (strs : list pystr) :
  strip_texts (List.map JStr strs) = Return (stripped_nonblank strs).
Proof.
  unfold stripped_nonblank.
  induction strs as [| s strs IH]; [reflexivity |].
  cbn [List.map strip_texts strip_method attempt_bind filter].
  destruct (strip s) as [| c t] eqn:E.
  - exact IH.
  - rewrite IH. cbn [attempt_bind List.map]. rewrite E. reflexivity.
Qed.

Lemma strip_texts_return (texts : list json) (l : list pystr) :
  strip_texts texts = Return l -> exists strs, texts = List.map JStr strs.
Proof.
  revert l. induction texts as [| t texts IH]; intros l H.
  - exists []. reflexivity.
  - destruct t as [| b | x | s | items | items];
      cbn [strip_texts strip_method attempt_bind] in H; try discriminate.
    assert (Hrest : exists l', strip_texts texts = Return l').
    { destruct (strip s); [eauto |].
      destruct (strip_texts texts); [eauto | discriminate]. }
    destruct Hrest as [l' Hl']. destruct (IH l' Hl') as [strs ->].
    exists (s :: strs). reflexivity.
Qed.

Lemma batch_results_spec (self : Collaborators) (texts : list pystr)
    (done : list BatchItem) :
  exists items,
    batch_results self texts done = Return (done ++ items)
    /\ List.map item_text items = List.map preview texts
    /\ Forall2
         (fun text item =>
            get_detailed_analysis self text = Ok (item_analysis item))
         texts items.
Proof.
  revert done. induction texts as [| text texts IH]; intro done.
  - exists []. rewrite app_nil_r. repeat split. constructor.
  - destruct (get_detailed_analysis_total self text) as [a Ha].
    cbn [batch_results]. rewrite Ha. cbn [lift attempt_bind].
    destruct (IH (done ++ [ {| item_text := preview text;
                               item_analysis := a |} ]))
      as (items & Hres & Hprev & Hall).
    exists ({| item_text := preview text; item_analysis := a |} :: items).
    split; [rewrite Hres, <- app_assoc; reflexivity |].
    split; [cbn [List.map item_text]; rewrite Hprev; reflexivity |].
    constructor; [exact Ha | exact Hall].
Qed.

Lemma stripped_nonblank_length (parts : list pystr) :
  (List.length (stripped_nonblank parts) <= List.length parts)%nat.
Proof.
  unfold stripped_nonblank. rewrite length_map. apply filter_length_le.
Qed.

(** [analyze_batch] in terms of the field it reads. *)
Lemma analyze_batch_cases (self : Collaborators) (data : json) :
  analyze_batch self data
  = match required_field (py "texts") data with
    | Throw e => (ExceptionBody (py "Error analyzing batch: ") e, 500%Z)
    | Return None => (ErrorBody (py "Missing texts field in request"), 400%Z)
    | Return (Some (JList texts)) =>
        if (len texts >? 10)%Z
        then (ErrorBody (py "Maximum 10 texts allowed per batch"), 400%Z)
        else
          match strip_texts texts with
          | Throw e => (ExceptionBody (py "Error analyzing batch: ") e, 500%Z)
          | Return [] => (ErrorBody (py "No valid texts provided"), 400%Z)
          | Return (t :: ts) =>
              match batch_results self (t :: ts) [] with
              | Return results => (BatchBody (len results) results, 200%Z)
              | Throw e =>
                  (ExceptionBody (py "Error analyzing batch: ") e, 500%Z)
              end
          end
    | Return (Some _) => (ErrorBody (py "texts field must be a list"), 400%Z)
    end.
Proof.
  unfold analyze_batch. rewrite guard_then_getitem.
  destruct (required_field (py "texts") data) as [[v |] | e];
    cbn [attempt_bind try_except]; try reflexivity.
  destruct v as [| b | x | s | items | items];
    cbn [attempt_bind try_except]; try reflexivity.
  destruct (len items >? 10)%Z; [reflexivity |].
  destruct (strip_texts items) as [[| t ts] | e];
    cbn [attempt_bind try_except]; try reflexivity.
  destruct (batch_results self (t :: ts) []); reflexivity.
Qed.

(** X27. [analyze_batch] answers 200 exactly when the body is an object
    whose "texts" is a list of at most ten strings, one of them at least
    not blank.  The answer then holds one entry per text that is not
    blank, in the order of the texts, with the preview and the analysis of
    the stripped text; their number is between 1 and 10. *)
Theorem analyze_batch_success (self : Collaborators) (data : json) :
  let r := analyze_batch self data in
  (snd r = 200 \/ snd r = 400 \/ snd r = 500)%Z
  /\ (snd r = 200%Z
      <-> exists items strs,
            data = JObj items
            /\ lookup (py "texts") items = Some (JList (List.map JStr strs))
            /\ (len strs <= 10)%Z
            /\ stripped_nonblank strs <> [])
  /\ (forall items strs,
         data = JObj items ->
         lookup (py "texts") items = Some (JList (List.map JStr strs)) ->
         snd r = 200%Z ->
         exists results,
           r = (BatchBody (len results) results, 200%Z)
           /\ (1 <= len results <= 10)%Z
           /\ List.map item_text results
              = List.map preview (stripped_nonblank strs)
           /\ Forall2
                (fun text item =>
                   get_detailed_analysis self text = Ok (item_analysis item))
                (stripped_nonblank strs) results).
Proof.
  cbv zeta. rewrite analyze_batch_cases.
  destruct (required_field (py "texts") data) as [[v |] | e] eqn:E.
  - apply required_field_some in E. destruct E as (items & -> & Hl).
    assert (Hinj : forall i strs,
               JObj items = JObj i ->
               lookup (py "texts") i = Some (JList (List.map JStr strs)) ->
               v = JList (List.map JStr strs)).
    { intros i strs H H'. injection H as <-. congruence. }
    destruct v as [| b | x | s | texts | o]; cbn [snd];
      try (split; [auto |]; split;
           [split; [discriminate |];
            intros (i & strs & H & H' & _);
            specialize (Hinj i strs H H'); discriminate
           | intros i strs H H' Hs; discriminate]).
    destruct (len texts >? 10)%Z eqn:El; order_facts.
    + cbn [snd]. split; [auto |]. split.
      * split; [discriminate |].
        intros (i & strs & H & H' & Hlen & _).
        specialize (Hinj i strs H H'). injection Hinj as ->.
        unfold len in *. rewrite length_map in El. lia.
      * intros i strs H H' Hs. discriminate.
    + destruct (strip_texts texts) as [l | e] eqn:Es.
      * destruct (strip_texts_return _ Es) as [strs0 ->].
        rewrite strip_texts_strings in Es. injection Es as <-.
        assert (Hlen : (len (stripped_nonblank strs0) <= 10)%Z).
        { pose proof (stripped_nonblank_length strs0).
          unfold len in *. rewrite length_map in El. lia. }
        destruct (stripped_nonblank strs0) as [| t ts] eqn:En.
        -- cbn [snd]. split; [auto |]. split.
           ++ split; [discriminate |].
              intros (i & strs & H & H' & _ & Hne).
              specialize (Hinj i strs H H'). injection Hinj as Hm.
              assert (strs0 = strs).
              { clear - Hm. revert strs Hm.
                induction strs0 as [| a l IH]; intros [| b m] Hm;
                  try discriminate; [reflexivity |].
                cbn in Hm. injection Hm as -> Hm. f_equal. auto. }
              subst strs. congruence.
           ++ intros i strs H H' Hs. discriminate.
        -- destruct (batch_results_spec self (t :: ts) [])
             as (results & Hres & Hprev & Hall).
           rewrite Hres. cbn [app snd].
           assert (Hn : len results = len (t :: ts)).
           { unfold len. rewrite <- (Forall2_length Hall). reflexivity. }
           split; [auto |]. split.
           ++ split; [| reflexivity]. intros _.
              exists items, strs0. rewrite En.
              split; [reflexivity |]. split; [exact Hl |].
              split; [| discriminate].
              unfold len in *. rewrite length_map in El. lia.
           ++ intros i strs H H' _.
              specialize (Hinj i strs H H'). injection Hinj as Hm.
              assert (strs0 = strs).
              { clear - Hm. revert strs Hm.
                induction strs0 as [| a l IH]; intros [| b m] Hm;
                  try discriminate; [reflexivity |].
                cbn in Hm. injection Hm as -> Hm. f_equal. auto. }
              subst strs. rewrite En.
              exists results. split; [reflexivity |].
              split; [| split; assumption].
              rewrite Hn. unfold len in *. cbn [List.length] in *. lia.
      * cbn [snd]. split; [auto |]. split.
        -- split; [discriminate |].
           intros (i & strs & H & H' & _).
           specialize (Hinj i strs H H'). injection Hinj as ->.
           rewrite strip_texts_strings in Es. discriminate.
        -- intros i strs H H' Hs. discriminate.
  - cbn [snd]. split; [auto |]. split.
    + split; [discriminate |].
      intros (i & strs & -> & H' & _). cbn [required_field] in E. congruence.
    + intros i strs H H' Hs. discriminate.
  - cbn [snd]. split; [auto |]. split.
    + split; [discriminate |].
      intros (i & strs & -> & H' & _). cbn [required_field] in E.
      discriminate.
    + intros i strs H H' Hs. discriminate.
Qed.

Lemma analyze_batch_success_witness :
  snd (analyze_batch toy
         (JObj [(py "texts",
                 JList (List.map JStr [py "so dull"; py "   "; py "love it"]))]))
  = 200%Z.
Proof.
  apply (analyze_batch_success toy
           (JObj [(py "texts",
                   JList (List.map JStr
                            [py "so dull"; py "   "; py "love it"]))])).
  exists [(py "texts",
           JList (List.map JStr [py "so dull"; py "   "; py "love it"]))],
    [py "so dull"; py "   "; py "love it"].
  split; [reflexivity |]. split; [reflexivity |].
  split; [vm_compute; discriminate | vm_compute; discriminate].
Defined.

(** ** Statistics *)

Lemma split_aux_length (s cur : pystr) :
  (List.length (split_aux cur s)
   <= List.length s + match cur with [] => 0 | _ => 1 end)%nat.
Proof.
  revert cur. induction s as [| c s IH]; intro cur.
  - cbn [split_aux]. destruct cur; cbn; lia.
  - cbn [split_aux List.length]. destruct (isspace c).
    + destruct cur.
      * specialize (IH []). cbv iota in IH. lia.
      * specialize (IH []). cbn [List.length]. cbv iota in IH. lia.
    + specialize (IH (c :: cur)). cbv iota in IH.
      destruct cur; lia.
Qed.

Lemma split_aux_pending (s cur : pystr) :
  cur <> [] -> split_aux cur s <> [].
Proof.
  revert cur. induction s as [| c s IH]; intros cur Hcur.
  - cbn [split_aux]. destruct cur; [congruence | discriminate].
  - cbn [split_aux]. destruct (isspace c).
    + destruct cur; [congruence | discriminate].
    + apply IH. discriminate.
Qed.

(** [get_stats] in terms of the field it reads. *)
Lemma get_stats_cases (self : Collaborators) (data : json) :
  get_stats self data
  = match required_field (py "text") data with
    | Throw e => (ExceptionBody (py "Error getting stats: ") e, 500%Z)
    | Return None => (ErrorBody (py "Missing text field"), 400%Z)
    | Return (Some (JStr s)) =>
        match get_detailed_analysis self (strip s) with
        | Ok a =>
            (StatsBody
               {| Stats.character_count := len (strip s);
                  Stats.word_count := len (split (strip s));
                  Stats.sentence_count := sentence_count a;
                  Stats.token_count := token_count a;
                  Stats.positive := positive (vader_scores a);
                  Stats.negative := negative (vader_scores a);
                  Stats.neutral := neutral (vader_scores a);
                  Stats.dominant_sentiment := overall_sentiment a;
                  Stats.confidence := result_confidence a |},
             200%Z)
        | Raise e =>
            (ExceptionBody (py "Error getting stats: ") (Raised e), 500%Z)
        end
    | Return (Some _) =>
        (ExceptionBody (py "Error getting stats: ") AttributeError, 500%Z)
    end.
Proof.
  unfold get_stats. rewrite guard_then_getitem.
  destruct (required_field (py "text") data) as [[v |] | e];
    cbn [attempt_bind try_except]; try reflexivity.
  destruct v as [| b | x | s | items | items];
    cbn [strip_method attempt_bind try_except]; try reflexivity.
  destruct (get_detailed_analysis self (strip s)); reflexivity.
Qed.

(** X28. [get_stats] has no check on the text: every object whose "text"
    is a string gets the answer 200, a blank one too, which [analyze_text]
    refuses with 400.  The character count is the length of the stripped
    text, the word count lies between 0 and the character count and is 0
    only for a blank text, and the other figures are those of the analysis
    of the stripped text. *)
Theorem get_stats_accepts_blank (self : Collaborators)
    (items : list (pystr * json)) (s : pystr) :
  lookup (py "text") items = Some (JStr s) ->
  exists stats a,
    get_stats self (JObj items) = (StatsBody stats, 200%Z)
    /\ get_detailed_analysis self (strip s) = Ok a
    /\ Stats.character_count stats = len (strip s)
    /\ (0 <= Stats.word_count stats <= Stats.character_count stats)%Z
    /\ (Stats.word_count stats = 0%Z <-> strip s = [])
    /\ Stats.sentence_count stats = sentence_count a
    /\ Stats.token_count stats = token_count a
    /\ Stats.dominant_sentiment stats = overall_sentiment a
    /\ Stats.confidence stats = result_confidence a
    /\ (strip s = [] ->
        snd (analyze_text self (JObj items)) = 400%Z).
Proof.
  intro Hl. rewrite get_stats_cases, analyze_text_cases.
  cbn [required_field]. rewrite Hl. cbv iota.
  destruct (get_detailed_analysis_total self (strip s)) as [a Ha].
  rewrite Ha. eexists. exists a. split; [reflexivity |].
  cbn [Stats.character_count Stats.word_count Stats.sentence_count
         Stats.token_count Stats.dominant_sentiment Stats.confidence].
  split; [reflexivity |]. split; [reflexivity |].
  assert (Hlen : (List.length (split (strip s))
                  <= List.length (strip s))%nat).
  { pose proof (split_aux_length (strip s) []) as H.
    cbv iota in H. unfold split. lia. }
  split; [unfold len; lia |]. split.
  - unfold len. split.
    + intro H. destruct (strip s) as [| c t] eqn:E; [reflexivity |].
      exfalso. pose proof (strip_stripped s) as Hs. rewrite E in Hs.
      destruct Hs as [Hc _].
      assert (Hne : split (c :: t) <> []).
      { unfold split. cbn [split_aux]. rewrite Hc.
        apply split_aux_pending. discriminate. }
      destruct (split (c :: t)); [congruence | discriminate].
    + intros ->. reflexivity.
  - repeat split. intros ->. reflexivity.
Qed.

Lemma get_stats_accepts_blank_witness :
  exists stats,
    get_stats toy (JObj [(py "text", JStr (py "   "))]) = (StatsBody stats, 200%Z)
    /\ Stats.character_count stats = 0%Z.
Proof.
  destruct (@get_stats_accepts_blank toy [(py "text", JStr (py "   "))]
              (py "   ") eq_refl)
    as (stats & a & H & _ & Hc & _).
  exists stats. split; [exact H | exact Hc].
Defined.

(** ** Uploaded files *)

Lemma file_results_spec (self : Collaborators) (paragraphs : list pystr)
    (done : list FileItem) :
  exists items,
    file_results self paragraphs done = Return (done ++ items)
    /\ List.map text_preview items = List.map preview paragraphs
    /\ Forall2
         (fun p item => get_detailed_analysis self p = Ok (analysis item))
         paragraphs items.
Proof.
  revert done. induction paragraphs as [| p paragraphs IH]; intro done.
  - exists []. rewrite app_nil_r. repeat split. constructor.
  - destruct (get_detailed_analysis_total self p) as [a Ha].
    cbn [file_results]. rewrite Ha. cbn [lift attempt_bind].
    destruct (IH (done ++ [ {| text_preview := preview p; analysis := a |} ]))
      as (items & Hres & Hprev & Hall).
    exists ({| text_preview := preview p; analysis := a |} :: items).
    split; [rewrite Hres, <- app_assoc; reflexivity |].
    split; [cbn [List.map text_preview]; rewrite Hprev; reflexivity |].
    constructor; [exact Ha | exact Hall].
Qed.

Lemma analyze_file_other (self : Collaborators)
    (secure_filename : pystr -> pystr) (file : Upload) :
  endswith (upload_filename file) (py ".txt") = false ->
  exists message,
    analyze_file self secure_filename (Some file)
    = (ErrorBody message, 400%Z).
Proof.
  intro He. unfold analyze_file.
  destruct (upload_filename file) as [| c name] eqn:En;
    [eexists; reflexivity |].
  assert (Ha : exists allowed,
             allowed_file self (c :: name) = Return allowed).
  { unfold allowed_file.
    destruct (contains (py ".") (c :: name)) eqn:Ec; [| eauto].
    change (py ".") with (@cons char 46%N (@nil char)) in Ec.
    apply contains_char in Ec.
    destruct (@cut_at_last 46%N (c :: name) Ec) as (stem & ext & Hf & Hext).
    pose proof (@allowed_file_cut self stem ext Hext) as Hcut.
    unfold allowed_file in Hcut.
    change (py ".") with (@cons char 46%N (@nil char)) in Hcut.
    assert (Hc : contains (@cons char 46%N (@nil char)) (stem ++ 46%N :: ext)
                 = true).
    { apply contains_char. apply in_or_app. right. left. reflexivity. }
    rewrite Hc in Hcut. rewrite Hf. eexists. exact Hcut. }
  destruct Ha as [allowed Ha].
  rewrite Ha. cbn [attempt_bind]. rewrite He.
  destruct allowed; cbn [negb try_except]; eexists; reflexivity.
Qed.

Lemma analyze_file_txt (self : Collaborators)
    (secure_filename : pystr -> pystr) (file : Upload) :
  lower_contract self ->
  endswith (upload_filename file) (py ".txt") = true ->
  analyze_file self secure_filename (Some file)
  = match decoded file with
    | Throw e => (ExceptionBody (py "Error analyzing file: ") e, 500%Z)
    | Return content =>
        if (len content >? 50000)%Z
        then (ErrorBody
                (py ("File content exceeds maximum length of "
                     ++ "50000 characters")),
              400%Z)
        else
          match file_paragraphs content with
          | [] => (ErrorBody (py "No valid content found in file"), 400%Z)
          | p :: ps =>
              try_except
                (results <~ file_results self (p :: ps) [] ;;
                 data <~ (if (len results >? 1)%Z
                          then Return (inr results)
                          else first <~ index results 0 ;;
                               Return (inl (analysis first))) ;;
                 Return
                   (FileBody
                      {| FileResult.filename :=
                           secure_filename (upload_filename file);
                         FileResult.is_batch := (len results >? 1)%Z;
                         FileResult.data := data;
                         FileResult.batch_results :=
                           if (len results >? 1)%Z then Some results
                           else None |},
                    200%Z))
                (py "Error analyzing file: ")
          end
    end.
Proof.
  intros Hlow He. unfold analyze_file.
  rewrite (endswith_txt_allowed _ Hlow He).
  destruct (upload_filename file) as [| c name] eqn:En;
    [vm_compute in He; discriminate |].
  cbn [attempt_bind negb]. rewrite He.
  destruct (decoded file) as [content | e]; [| reflexivity].
  cbn [attempt_bind]. destruct (len content >? 50000)%Z; [reflexivity |].
  destruct (file_paragraphs content); reflexivity.
Qed.

(** X29. Under [lower_contract], [analyze_file] answers 200 exactly when
    there is a file whose name ends with ".txt", whose bytes decode, and
    whose text has at most 50000 characters, one of them at least not
    whitespace.  It answers 500 only when decoding fails: taking the first
    result never raises.  The answer holds one entry per paragraph, in
    order; it is marked as a batch, with the list as data, exactly when
    there are two paragraphs or more, and otherwise its data are the
    analysis of the only paragraph. *)
Theorem analyze_file_success (self : Collaborators)
    (secure_filename : pystr -> pystr) (file : option Upload) :
  lower_contract self ->
  let r := analyze_file self secure_filename file in
  (snd r = 200 \/ snd r = 400 \/ snd r = 500)%Z
  /\ (snd r = 200%Z
      <-> exists u content,
            file = Some u
            /\ endswith (upload_filename u) (py ".txt") = true
            /\ decoded u = Return content
            /\ (len content <= 50000)%Z
            /\ ~ Forall (fun c => isspace c = true) content)
  /\ (snd r = 500%Z
      <-> exists u e,
            file = Some u
            /\ endswith (upload_filename u) (py ".txt") = true
            /\ decoded u = Throw e)
  /\ (forall u content,
         file = Some u -> decoded u = Return content -> snd r = 200%Z ->
         exists fr items,
           r = (FileBody fr, 200%Z)
           /\ FileResult.filename fr = secure_filename (upload_filename u)
           /\ List.map text_preview items
              = List.map preview (file_paragraphs content)
           /\ Forall2
                (fun p item =>
                   get_detailed_analysis self p = Ok (analysis item))
                (file_paragraphs content) items
           /\ FileResult.is_batch fr = (len items >? 1)%Z
           /\ ((len items > 1)%Z ->
               FileResult.data fr = inr items
               /\ FileResult.batch_results fr = Some items)
           /\ ((len items <= 1)%Z ->
               exists item,
                 items = [item]
                 /\ FileResult.data fr = inl (analysis item)
                 /\ FileResult.batch_results fr = None)).
Proof.
  intro Hlow. cbv zeta.
  destruct file as [u |].
  2:{ cbn [analyze_file try_except snd]. split; [auto |].
      split; [split; [discriminate | intros (u & c & H & _); discriminate] |].
      split; [split; [discriminate | intros (u & e & H & _); discriminate] |].
      intros u c H. discriminate. }
  destruct (endswith (upload_filename u) (py ".txt")) eqn:He.
  2:{ destruct (analyze_file_other self secure_filename u He) as [msg ->].
      cbn [snd]. split; [auto |].
      split; [split; [discriminate |];
              intros (u' & c & H & H' & _); injection H as <-; congruence |].
      split; [split; [discriminate |];
              intros (u' & e & H & H' & _); injection H as <-; congruence |].
      intros u' c H H' Hs. discriminate. }
  rewrite (analyze_file_txt secure_filename u Hlow He).
  destruct (decoded u) as [content | e] eqn:Hd.
  2:{ cbn [snd]. split; [auto |].
      split; [split; [discriminate |];
              intros (u' & c & H & _ & H' & _); injection H as <-;
              congruence |].
      split; [split; [intros _; exists u, e; auto | reflexivity] |].
      intros u' c H H' Hs. discriminate. }
  destruct (len content >? 50000)%Z eqn:El; order_facts.
  { cbn [snd]. split; [auto |].
    split; [split; [discriminate |];
            intros (u' & c & H & _ & H' & Hlen & _); injection H as <-;
            rewrite Hd in H'; injection H' as <-; lia |].
    split; [split; [discriminate |];
            intros (u' & e & H & _ & H'); injection H as <-; congruence |].
    intros u' c H H' Hs. discriminate. }
  destruct (file_paragraphs_parts content) as [_ Hblank].
  destruct (file_paragraphs content) as [| p ps] eqn:Ep.
  { cbn [snd]. split; [auto |].
    split; [split; [discriminate |];
            intros (u' & c & H & _ & H' & _ & Hns); injection H as <-;
            rewrite Hd in H'; injection H' as <-;
            exfalso; apply Hns; apply Hblank; reflexivity |].
    split; [split; [discriminate |];
            intros (u' & e & H & _ & H'); injection H as <-; congruence |].
    intros u' c H H' Hs. discriminate. }
  destruct (file_results_spec self (p :: ps) [])
    as (items & Hres & Hprev & Hall).
  rewrite Hres. cbn [app attempt_bind].
  assert (Hn : List.length items = S (List.length ps)).
  { rewrite <- (Forall2_length Hall). reflexivity. }
  assert (Hshape :
            exists fr,
              try_except
                (data <~ (if (len items >? 1)%Z
                          then Return (inr items)
                          else first <~ index items 0 ;;
                               Return (inl (analysis first))) ;;
                 Return
                   (FileBody
                      {| FileResult.filename :=
                           secure_filename (upload_filename u);
                         FileResult.is_batch := (len items >? 1)%Z;
                         FileResult.data := data;
                         FileResult.batch_results :=
                           if (len items >? 1)%Z then Some items else None |},
                    200%Z))
                (py "Error analyzing file: ")
              = (FileBody fr, 200%Z)
              /\ FileResult.filename fr = secure_filename (upload_filename u)
              /\ FileResult.is_batch fr = (len items >? 1)%Z
              /\ ((len items > 1)%Z ->
                  FileResult.data fr = inr items
                  /\ FileResult.batch_results fr = Some items)
              /\ ((len items <= 1)%Z ->
                  exists item,
                    items = [item]
                    /\ FileResult.data fr = inl (analysis item)
                    /\ FileResult.batch_results fr = None)).
  { destruct (len items >? 1)%Z eqn:Eb; order_facts.
    - eexists. split; [reflexivity |]. cbn.
      split; [reflexivity |]. split; [reflexivity |].
      split; [auto | intro; lia].
    - destruct items as [| item items]; [discriminate |].
      destruct items as [| item' items];
        [| unfold len in Eb; cbn [List.length] in Eb; lia].
      eexists. split; [reflexivity |]. cbn.
      split; [reflexivity |]. split; [reflexivity |].
      split; [intro; unfold len in *; cbn [List.length] in *; lia |].
      intros _. exists item. repeat split. }
  destruct Hshape as (fr & Hfr & Hname & Hbatch & Hmany & Hone).
  rewrite Hfr. cbn [snd]. split; [auto |].
  split.
  { split; [| reflexivity]. intros _. exists u, content.
    split; [reflexivity |]. split; [exact He |].
    split; [exact Hd |]. split; [lia |].
    intro Hns. apply Hblank in Hns. discriminate. }
  split.
  { split; [discriminate |].
    intros (u' & e & H & _ & H'). injection H as <-. congruence. }
  intros u' c H H' _. injection H as <-.
  rewrite Hd in H'. injection H' as <-. rewrite Ep.
  exists fr, items.
  split; [reflexivity |]. split; [exact Hname |]. split; [exact Hprev |].
  split; [exact Hall |]. split; [exact Hbatch |].
  split; [exact Hmany | exact Hone].
Qed.

Lemma analyze_file_success_witness :
  snd (analyze_file toy (fun name => name)
         (Some {| upload_filename := py "review.txt";
                  decoded := Return (py "Loved it.") |}))
  = 200%Z.
Proof.
  apply (@analyze_file_success toy (fun name => name)
           (Some {| upload_filename := py "review.txt";
                    decoded := Return (py "Loved it.") |})
           toy_lower_contract).
  eexists. exists (py "Loved it.").
  split; [reflexivity |]. split; [vm_compute; reflexivity |].
  split; [reflexivity |]. split; [vm_compute; discriminate |].
  intro H. inversion H as [| c l Hc _]. vm_compute in Hc. discriminate.
Defined.

(** * What the URL and e-mail steps leave behind *)

Lemma head_run_cons (c : char) (s : pystr) :
  head_run (c :: s) = if isspace c then [] else c :: head_run s.
Proof.
  unfold head_run. cbn [nonspace_run]. destruct (isspace c); reflexivity.
Qed.

Lemma head_run_nonspace (s : pystr) :
  Forall (fun c => isspace c = false) (head_run s).
Proof.
  induction s as [| c s IH]; [constructor |].
  rewrite head_run_cons. destruct (isspace c) eqn:E; constructor; assumption.
Qed.

Lemma head_run_length (s : pystr) :
  List.length (head_run s) = nonspace_run s.
Proof.
  induction s as [| c s IH]; [reflexivity |].
  rewrite head_run_cons. cbn [nonspace_run].
  destruct (isspace c); cbn [List.length]; congruence.
Qed.

Lemma head_run_split (s : pystr) :
  exists tail,
    s = head_run s ++ tail
    /\ match tail with [] => True | c :: _ => isspace c = true end.
Proof.
  induction s as [| c s (tail & Hs & Ht)]; [exists []; split; auto |].
  rewrite head_run_cons. destruct (isspace c) eqn:E.
  - exists (c :: s). split; [reflexivity | exact E].
  - exists tail. split; [cbn [app]; rewrite <- Hs; reflexivity | exact Ht].
Qed.

Lemma nonspace_run_app (a rest : pystr) :
  Forall (fun c => isspace c = false) a ->
  nonspace_run (a ++ rest) = (List.length a + nonspace_run rest)%nat.
Proof.
  induction 1 as [| c a Hc Ha IH]; [reflexivity |].
  cbn [app nonspace_run List.length]. rewrite Hc, IH. reflexivity.
Qed.

Lemma is_prefix_cons (c : char) (a b : pystr) :
  is_prefix a b -> is_prefix (c :: a) (c :: b).
Proof. intros [r ->]. exists r. reflexivity. Qed.

Section RunPatterns.

(** A pattern whose matches are whole runs of non-whitespace characters and
    which keeps matching when the run gets longer. *)
Variable pattern : pystr -> option nat.

Hypothesis whole_run :
  forall s n, pattern s = Some n -> n = nonspace_run s /\ n <> O.

Hypothesis longer_run :
  forall x y,
    is_prefix (head_run x) (head_run y) ->
    pattern y = None -> pattern x = None.

Lemma pattern_at_space (s : pystr) : head_run s = [] -> pattern s = None.
Proof.
  intro H. apply (@longer_run s []).
  - rewrite H. exists []. reflexivity.
  - destruct (pattern []) as [n |] eqn:E; [| reflexivity].
    apply whole_run in E. destruct E as [-> E]. exfalso. apply E. reflexivity.
Qed.

Lemma matches_nowhere_cons (c : char) (out : pystr) :
  pattern (c :: out) = None -> matches_nowhere pattern out ->
  matches_nowhere pattern (c :: out).
Proof.
  intros Hc Hout before after H.
  destruct before as [| b before].
  - cbn in H. subst after. exact Hc.
  - cbn in H. injection H as _ H. apply (Hout before after H).
Qed.

Lemma re_sub_aux_runs (s : pystr) :
  (matches_nowhere pattern (re_sub_aux pattern 0 s)
   /\ is_prefix (head_run (re_sub_aux pattern 0 s)) (head_run s))
  /\ (matches_nowhere pattern (re_sub_aux pattern (nonspace_run s) s)
      /\ head_run (re_sub_aux pattern (nonspace_run s) s) = []).
Proof.
  induction s as [| c s [[IHa1 IHa2] [IHb1 IHb2]]].
  - assert (Hnil : matches_nowhere pattern []).
    { intros before after H. symmetry in H.
      apply app_eq_nil in H. destruct H as [_ ->].
      apply pattern_at_space. reflexivity. }
    cbn. repeat split; try exact Hnil; try reflexivity.
    exists []. reflexivity.
  - assert (Hkeep :
              pattern (c :: s) = None ->
              matches_nowhere pattern (c :: re_sub_aux pattern 0 s)
              /\ is_prefix (head_run (c :: re_sub_aux pattern 0 s))
                   (head_run (c :: s))).
    { intro Hnone.
      assert (Hpre : is_prefix (head_run (c :: re_sub_aux pattern 0 s))
                       (head_run (c :: s))).
      { rewrite !head_run_cons. destruct (isspace c).
        - exists []. reflexivity.
        - apply is_prefix_cons. exact IHa2. }
      split; [| exact Hpre].
      apply matches_nowhere_cons; [| exact IHa1].
      apply (@longer_run _ (c :: s)); assumption. }
    assert (Hzero :
              matches_nowhere pattern (re_sub_aux pattern 0 (c :: s))
              /\ is_prefix (head_run (re_sub_aux pattern 0 (c :: s)))
                   (head_run (c :: s))).
    { cbn [re_sub_aux].
      destruct (pattern (c :: s)) as [[| k] |] eqn:E.
      - apply whole_run in E. destruct E as [_ E]. congruence.
      - apply whole_run in E. destruct E as [E _].
        cbn [nonspace_run] in E. destruct (isspace c); [discriminate |].
        injection E as ->. split; [exact IHb1 |].
        rewrite IHb2. exists (head_run (c :: s)). reflexivity.
      - apply Hkeep. reflexivity. }
    split; [exact Hzero |].
    cbn [nonspace_run]. destruct (isspace c) eqn:Ec.
    + split; [apply Hzero |].
      cbn [re_sub_aux].
      assert (Hnone : pattern (c :: s) = None).
      { apply pattern_at_space. rewrite head_run_cons, Ec. reflexivity. }
      rewrite Hnone. rewrite head_run_cons, Ec. reflexivity.
    + cbn [re_sub_aux]. split; assumption.
Qed.

(** After [re.sub(pattern, '', s)] the pattern matches nowhere. *)
Lemma re_sub_complete (s : pystr) : matches_nowhere pattern (re_sub pattern s).
Proof. apply re_sub_aux_runs. Qed.

End RunPatterns.

Lemma head_run_app (a rest : pystr) :
  Forall (fun c => isspace c = false) a ->
  head_run (a ++ rest) = a ++ head_run rest.
Proof.
  induction 1 as [| c a Hc Ha IH]; [reflexivity |].
  cbn [app]. rewrite head_run_cons, Hc, IH. reflexivity.
Qed.

Lemma head_run_nil (s : pystr) : head_run s = [] <-> nonspace_run s = O.
Proof.
  rewrite <- head_run_length. destruct (head_run s); cbn; split; congruence.
Qed.

Lemma lit_nonspace_some (lit s : pystr) (n : nat) :
  Forall (fun c => isspace c = false) lit ->
  (lit_nonspace lit s = Some n
   <-> exists rest,
         s = lit ++ rest
         /\ nonspace_run rest <> O
         /\ n = (List.length lit + nonspace_run rest)%nat).
Proof.
  intro Hlit. unfold lit_nonspace. split.
  - destruct (startswith s lit) eqn:E; [| discriminate].
    apply startswith_prefix in E. destruct E as [rest ->].
    rewrite skipn_app, skipn_all, Nat.sub_diag. cbn [skipn app].
    destruct (nonspace_run rest) as [| k] eqn:Er; [discriminate |].
    intro H. injection H as <-. exists rest. rewrite Er.
    repeat split. discriminate.
  - intros (rest & -> & Hr & ->).
    assert (E : startswith (lit ++ rest) lit = true)
      by (apply startswith_prefix; eauto).
    rewrite E, skipn_app, skipn_all, Nat.sub_diag. cbn [skipn app].
    destruct (nonspace_run rest); [congruence | reflexivity].
Qed.

Lemma lit_nonspace_whole_run (lit : pystr) :
  Forall (fun c => isspace c = false) lit ->
  forall s n,
    lit_nonspace lit s = Some n -> n = nonspace_run s /\ n <> O.
Proof.
  intros Hlit s n H. apply (lit_nonspace_some s n Hlit) in H.
  destruct H as (rest & -> & Hr & ->).
  rewrite (nonspace_run_app rest Hlit). split; lia.
Qed.

Lemma lit_nonspace_longer_run (lit : pystr) :
  Forall (fun c => isspace c = false) lit ->
  forall x y,
    is_prefix (head_run x) (head_run y) ->
    lit_nonspace lit y = None -> lit_nonspace lit x = None.
Proof.
  intros Hlit x y [more Hpre] Hy.
  destruct (lit_nonspace lit x) as [n |] eqn:Hx; [| reflexivity].
  exfalso. apply (lit_nonspace_some x n Hlit) in Hx.
  destruct Hx as (rest & -> & Hr & _).
  rewrite (head_run_app rest Hlit) in Hpre.
  destruct (head_run rest) as [| d run] eqn:Er.
  { apply head_run_nil in Er. congruence. }
  assert (Hd : isspace d = false).
  { pose proof (head_run_nonspace rest) as Hn. rewrite Er in Hn.
    inversion Hn; assumption. }
  destruct (head_run_split y) as (tail & Hsplit & _).
  rewrite Hpre, <- !app_assoc in Hsplit.
  assert (Hsome : lit_nonspace lit y
                  = Some (List.length lit
                          + nonspace_run ((d :: run) ++ more ++ tail))%nat).
  { apply (lit_nonspace_some y _ Hlit).
    exists ((d :: run) ++ more ++ tail).
    split; [exact Hsplit |]. split; [| reflexivity].
    cbn [app nonspace_run]. rewrite Hd. discriminate. }
  congruence.
Qed.

Lemma url_literals_nonspace :
  Forall (fun c => isspace c = false) (py "http")
  /\ Forall (fun c => isspace c = false) (py "www")
  /\ Forall (fun c => isspace c = false) (py "https").
Proof. repeat split; repeat constructor. Qed.

Lemma url_pattern_whole_run (s : pystr) (n : nat) :
  url_pattern s = Some n -> n = nonspace_run s /\ n <> O.
Proof.
  destruct url_literals_nonspace as (H1 & H2 & H3).
  unfold url_pattern, alt.
  destruct (lit_nonspace (py "http") s) as [a |] eqn:E1.
  - intro H. injection H as <-. apply (lit_nonspace_whole_run H1 _ E1).
  - destruct (lit_nonspace (py "www") s) as [b |] eqn:E2.
    + intro H. injection H as <-. apply (lit_nonspace_whole_run H2 _ E2).
    + apply (lit_nonspace_whole_run H3).
Qed.

Lemma url_pattern_longer_run (x y : pystr) :
  is_prefix (head_run x) (head_run y) ->
  url_pattern y = None -> url_pattern x = None.
Proof.
  destruct url_literals_nonspace as (H1 & H2 & H3).
  intros Hpre. unfold url_pattern, alt.
  destruct (lit_nonspace (py "http") y) eqn:E1; [discriminate |].
  destruct (lit_nonspace (py "www") y) eqn:E2; [discriminate |].
  intro E3.
  rewrite (@lit_nonspace_longer_run _ H1 x y Hpre E1).
  rewrite (@lit_nonspace_longer_run _ H2 x y Hpre E2).
  apply (@lit_nonspace_longer_run _ H3 x y Hpre E3).
Qed.

(** X16. Removing URLs is complete in one pass: after
    [re.sub(r'http\S+|www\S+|https\S+', '', text)] the pattern matches at no
    position of what is left, whatever the text. *)
Theorem url_step_complete (s : pystr) :
  matches_nowhere url_pattern (re_sub url_pattern s).
Proof.
  apply re_sub_complete;
    solve [apply url_pattern_whole_run | apply url_pattern_longer_run].
Qed.

Lemma nonspace_run_skipn (s : pystr) :
  forall k,
    (k <= nonspace_run s)%nat ->
    nonspace_run (skipn k s) = (nonspace_run s - k)%nat.
Proof.
  induction s as [| c s IH]; intros [| k] Hk; try reflexivity.
  { cbn [skipn]. lia. }
  cbn [nonspace_run] in Hk |- *. cbn [skipn].
  destruct (isspace c); [lia |].
  rewrite IH by lia. lia.
Qed.

Lemma nth_error_head_run (s : pystr) (j : nat) :
  (j < nonspace_run s)%nat -> nth_error (head_run s) j = nth_error s j.
Proof.
  intro Hj. unfold head_run. rewrite nth_error_firstn.
  apply Nat.ltb_lt in Hj. rewrite Hj. reflexivity.
Qed.

(** One backtracking step of [\S+@\S+], read on the positions of [s]. *)
Lemma email_backtrack_step (s : pystr) (k : nat) :
  (S k <= nonspace_run s)%nat ->
  email_backtrack s (S k)
  = match nth_error s (S k) with
    | Some c =>
        if ((c =? 64)%N && (S (S k) <? nonspace_run s)%nat)%bool
        then Some (nonspace_run s)
        else email_backtrack s k
    | None => email_backtrack s k
    end.
Proof.
  intro Hk. cbn [email_backtrack].
  rewrite <- (hd_error_skipn (S k) s).
  pose proof (nonspace_run_skipn s Hk) as Hrun.
  destruct (skipn (S k) s) as [| c rest]; [reflexivity |].
  cbn [hd_error]. destruct (c =? 64)%N eqn:Ec; [| reflexivity].
  apply N.eqb_eq in Ec. subst c.
  cbn [nonspace_run] in Hrun.
  change (isspace 64%N) with false in Hrun. cbv iota in Hrun.
  cbn [andb].
  destruct (nonspace_run rest) as [| n].
  - assert (E : (S (S k) <? nonspace_run s)%nat = false)
      by (apply Nat.ltb_ge; lia).
    rewrite E. reflexivity.
  - assert (E : (S (S k) <? nonspace_run s)%nat = true)
      by (apply Nat.ltb_lt; lia).
    rewrite E. f_equal. lia.
Qed.

Lemma email_backtrack_some (s : pystr) (n : nat) :
  forall k,
    (k <= nonspace_run s)%nat ->
    email_backtrack s k = Some n -> n = nonspace_run s /\ n <> O.
Proof.
  induction k as [| k IH]; intros Hk; [discriminate |].
  rewrite (email_backtrack_step s Hk).
  destruct (nth_error s (S k)) as [c |]; [| apply IH; lia].
  destruct ((c =? 64)%N && (S (S k) <? nonspace_run s)%nat)%bool;
    [| apply IH; lia].
  intro H. injection H as <-. split; [reflexivity | lia].
Qed.

Lemma email_backtrack_none (s : pystr) :
  forall k,
    (k <= nonspace_run s)%nat ->
    (email_backtrack s k = None
     <-> forall j,
           (1 <= j <= k)%nat ->
           nth_error s j = Some 64%N ->
           (S j < nonspace_run s)%nat -> False).
Proof.
  induction k as [| k IH]; intros Hk.
  - split; [intros _ j Hj; lia | reflexivity].
  - rewrite (email_backtrack_step s Hk).
    assert (Hk' : (k <= nonspace_run s)%nat) by lia.
    specialize (IH Hk').
    destruct (nth_error s (S k)) as [c |] eqn:Ec.
    + destruct (c =? 64)%N eqn:E64; cbn [andb].
      * apply N.eqb_eq in E64. subst c.
        destruct (S (S k) <? nonspace_run s)%nat eqn:El.
        -- apply Nat.ltb_lt in El. split; [discriminate |].
           intro H. exfalso. apply (H (S k)); [lia | exact Ec | exact El].
        -- apply Nat.ltb_ge in El. rewrite IH. split.
           ++ intros H j Hj Hat Hlt.
              destruct (Nat.eq_dec j (S k)) as [-> | Hne]; [lia |].
              apply (H j); [lia | exact Hat | exact Hlt].
           ++ intros H j Hj. apply H. lia.
      * apply N.eqb_neq in E64. rewrite IH. split.
        -- intros H j Hj Hat Hlt.
           destruct (Nat.eq_dec j (S k)) as [-> | Hne]; [congruence |].
           apply (H j); [lia | exact Hat | exact Hlt].
        -- intros H j Hj. apply H. lia.
    + rewrite IH. split.
      * intros H j Hj Hat Hlt.
        destruct (Nat.eq_dec j (S k)) as [-> | Hne]; [congruence |].
        apply (H j); [lia | exact Hat | exact Hlt].
      * intros H j Hj. apply H. lia.
Qed.

Lemma email_pattern_whole_run (s : pystr) (n : nat) :
  email_pattern s = Some n -> n = nonspace_run s /\ n <> O.
Proof. apply email_backtrack_some. lia. Qed.

Lemma email_pattern_longer_run (x y : pystr) :
  is_prefix (head_run x) (head_run y) ->
  email_pattern y = None -> email_pattern x = None.
Proof.
  intros [more Hpre] Hy. unfold email_pattern in *.
  pose proof (proj1 (email_backtrack_none y (Nat.le_refl _)) Hy) as Hnone.
  apply (proj2 (email_backtrack_none x (Nat.le_refl _))).
  assert (Hlen : (nonspace_run x <= nonspace_run y)%nat).
  { rewrite <- (head_run_length x), <- (head_run_length y), Hpre.
    rewrite length_app. lia. }
  intros j Hj Hat Hlt. apply (Hnone j); [lia | | lia].
  rewrite <- nth_error_head_run by lia.
  rewrite Hpre, nth_error_app1 by (rewrite head_run_length; lia).
  rewrite nth_error_head_run by lia. exact Hat.
Qed.

(** X17. Removing e-mail addresses is complete in one pass: after
    [re.sub(r'\S+@\S+', '', text)] the pattern matches at no position of
    what is left, whatever the text. *)
Theorem email_step_complete (s : pystr) :
  matches_nowhere email_pattern (re_sub email_pattern s).
Proof.
  apply re_sub_complete;
    solve [apply email_pattern_whole_run | apply email_pattern_longer_run].
Qed.

(** * The fusion arithmetic in binary64 *)

Lemma binary64_classify_locals_ok (self : Collaborators)
    (vs : Binary64.VaderScores) (ts : Binary64.TextBlobScores)
    (sents : list Binary64.SentenceSentiment) (text : pystr) :
  exists l b an ap,
    Binary64.classify_locals self vs ts sents text = Ok l
    /\ Binary64.sentence_balance (Binary64.tally_sentences sents) = Ok b
    /\ Binary64.avg_negative_intensity (Binary64.tally_sentences sents)
       = Ok an
    /\ Binary64.avg_positive_intensity (Binary64.tally_sentences sents)
       = Ok ap
    /\ l = {| Binary64.Locals.compound := Binary64.compound vs;
              Binary64.Locals.polarity := Binary64.polarity ts;
              Binary64.Locals.negative_keyword_count :=
                fst (keyword_counts (lowered self text));
              Binary64.Locals.positive_keyword_count :=
                snd (keyword_counts (lowered self text));
              Binary64.Locals.keyword_adjustment :=
                Binary64.keyword_adjustment
                  (fst (keyword_counts (lowered self text)))
                  (snd (keyword_counts (lowered self text)));
              Binary64.Locals.tally := Binary64.tally_sentences sents;
              Binary64.Locals.sentence_balance := b;
              Binary64.Locals.avg_negative_intensity := an;
              Binary64.Locals.avg_positive_intensity := ap;
              Binary64.Locals.intensity_adjustment :=
                Binary64.intensity_adjustment
                  (Binary64.tally_sentences sents) an ap;
              Binary64.Locals.combined_score :=
                Binary64.combined_score (Binary64.compound vs)
                  (Binary64.polarity ts) b
                  (Binary64.keyword_adjustment
                     (fst (keyword_counts (lowered self text)))
                     (snd (keyword_counts (lowered self text))))
                  (Binary64.intensity_adjustment
                     (Binary64.tally_sentences sents) an ap);
              Binary64.Locals.sentiment :=
                Binary64.overall_label
                  (Binary64.combined_score (Binary64.compound vs)
                     (Binary64.polarity ts) b
                     (Binary64.keyword_adjustment
                        (fst (keyword_counts (lowered self text)))
                        (snd (keyword_counts (lowered self text))))
                     (Binary64.intensity_adjustment
                        (Binary64.tally_sentences sents) an ap))
                  (fst (keyword_counts (lowered self text)))
                  (snd (keyword_counts (lowered self text)))
                  (Binary64.tally_sentences sents) an ap;
              Binary64.Locals.confidence :=
                Binary64.overall_confidence
                  (Binary64.combined_score (Binary64.compound vs)
                     (Binary64.polarity ts) b
                     (Binary64.keyword_adjustment
                        (fst (keyword_counts (lowered self text)))
                        (snd (keyword_counts (lowered self text))))
                     (Binary64.intensity_adjustment
                        (Binary64.tally_sentences sents) an ap))
                  (fst (keyword_counts (lowered self text)))
                  (snd (keyword_counts (lowered self text)))
                  (Binary64.compound vs) (Binary64.polarity ts) b |}.
Proof.
  unfold Binary64.classify_locals.
  destruct (keyword_counts (lowered self text)) as [n p]. cbn [fst snd].
  set (t := Binary64.tally_sentences sents).
  assert (Hb : exists b, Binary64.sentence_balance t = Ok b).
  { unfold Binary64.sentence_balance, Binary64.truediv_int.
    destruct (Binary64.positive_count t + Binary64.negative_count t >? 0)%Z
      eqn:E; [| eexists; reflexivity].
    apply Z.gtb_lt in E.
    destruct (Z.eqb_spec
                (Binary64.positive_count t + Binary64.negative_count t) 0);
      [lia | eexists; reflexivity]. }
  assert (Han : exists an, Binary64.avg_negative_intensity t = Ok an).
  { unfold Binary64.avg_negative_intensity, Binary64.truediv.
    destruct (Binary64.negative_count t >? 0)%Z eqn:E;
      [| eexists; reflexivity].
    apply Z.gtb_lt in E.
    destruct (Z.eqb_spec (Binary64.negative_count t) 0);
      [lia | eexists; reflexivity]. }
  assert (Hap : exists ap, Binary64.avg_positive_intensity t = Ok ap).
  { unfold Binary64.avg_positive_intensity, Binary64.truediv.
    destruct (Binary64.positive_count t >? 0)%Z eqn:E;
      [| eexists; reflexivity].
    apply Z.gtb_lt in E.
    destruct (Z.eqb_spec (Binary64.positive_count t) 0);
      [lia | eexists; reflexivity]. }
  destruct Hb as [b Hb], Han as [an Han], Hap as [ap Hap].
  rewrite Hb, Han, Hap. cbn [bind].
  eexists; exists b, an, ap. repeat split; reflexivity.
Qed.






(** C3. On every input, the fused score of [classify_overall_sentiment] is
    the sum of [compound*0.30], [polarity*0.15], [sentence_balance*0.25],
    the keyword adjustment, the intensity adjustment and the bonus,
    accumulated in this order in binary64, and the label is decided on this
    sum.  The bonus is [polarity*0.10] when compound and polarity strictly
    disagree in sign and 0 otherwise.  The order is part of the statement:
    for a compound of 0.555 and a polarity of -0.986 the sum is -0.08 and the
    label negative, whereas the same terms accumulated in the reverse order
    give -0.07999999999999999, for which the label would be neutral. *)
Theorem combined_score_formula (self : Collaborators)
    (vs : Binary64.VaderScores) (ts : Binary64.TextBlobScores)
    (sents : list Binary64.SentenceSentiment) (text : pystr) :
  (exists l,
      Binary64.classify_locals self vs ts sents text = Ok l
      /\ Binary64.Locals.compound l = Binary64.compound vs
      /\ Binary64.Locals.polarity l = Binary64.polarity ts
      /\ Binary64.sentence_balance (Binary64.tally_sentences sents)
         = Ok (Binary64.Locals.sentence_balance l)
      /\ Binary64.Locals.keyword_adjustment l
         = Binary64.keyword_adjustment
             (fst (keyword_counts (lowered self text)))
             (snd (keyword_counts (lowered self text)))
      /\ Binary64.Locals.intensity_adjustment l
         = Binary64.intensity_adjustment (Binary64.tally_sentences sents)
             (Binary64.Locals.avg_negative_intensity l)
             (Binary64.Locals.avg_positive_intensity l)
      /\ Binary64.Locals.combined_score l = accumulated (fusion_terms l)
      /\ Binary64.Locals.sentiment l
         = Binary64.overall_label (accumulated (fusion_terms l))
             (Binary64.Locals.negative_keyword_count l)
             (Binary64.Locals.positive_keyword_count l)
             (Binary64.Locals.tally l)
             (Binary64.Locals.avg_negative_intensity l)
             (Binary64.Locals.avg_positive_intensity l)
      /\ (float_sign_disagreement (Binary64.compound vs) (Binary64.polarity ts)
          -> nth 5 (fusion_terms l) 0%float
             = (Binary64.polarity ts * 0.10)%float)
      /\ (~ float_sign_disagreement (Binary64.compound vs)
              (Binary64.polarity ts)
          -> nth 5 (fusion_terms l) 0%float = 0%float))
  /\ (exists l,
         Binary64.classify_locals self split_scores split_polarity [] []
         = Ok l
         /\ accumulated (fusion_terms l) = (-0.08)%float
         /\ Binary64.Locals.sentiment l = NEGATIVE
         /\ accumulated (rev (fusion_terms l))
            = (-0.07999999999999999)%float
         /\ Binary64.overall_label (accumulated (rev (fusion_terms l)))
              (Binary64.Locals.negative_keyword_count l)
              (Binary64.Locals.positive_keyword_count l)
              (Binary64.Locals.tally l)
              (Binary64.Locals.avg_negative_intensity l)
              (Binary64.Locals.avg_positive_intensity l)
            = NEUTRAL).
Proof.
  split.
  - destruct (binary64_classify_locals_ok self vs ts sents text)
      as (l & b & an & ap & Hl & Hb & _ & _ & E).
    exists l. split; [exact Hl |]. rewrite E.
    unfold fusion_terms.
    cbn [Binary64.Locals.compound Binary64.Locals.polarity
           Binary64.Locals.sentence_balance
           Binary64.Locals.keyword_adjustment
           Binary64.Locals.intensity_adjustment
           Binary64.Locals.combined_score Binary64.Locals.sentiment
           Binary64.Locals.negative_keyword_count
           Binary64.Locals.positive_keyword_count Binary64.Locals.tally
           Binary64.Locals.avg_negative_intensity
           Binary64.Locals.avg_positive_intensity nth].
    split; [reflexivity |]. split; [reflexivity |]. split; [exact Hb |].
    split; [reflexivity |]. split; [reflexivity |]. split; [reflexivity |].
    split; [reflexivity |].
    unfold float_sign_disagreement, Binary64.signals_disagree.
    destruct (0 <? Binary64.compound vs)%float,
      (Binary64.polarity ts <? 0)%float,
      (Binary64.compound vs <? 0)%float,
      (0 <? Binary64.polarity ts)%float;
      cbn [andb orb];
      (split; [intro H | intro H]); try reflexivity;
      try (exfalso; apply H; tauto);
      try (exfalso; destruct H as [[? ?] | [? ?]]; discriminate).
  - exists {| Binary64.Locals.compound := 0.555%float;
              Binary64.Locals.polarity := (-0.986)%float;
              Binary64.Locals.negative_keyword_count := 0;
              Binary64.Locals.positive_keyword_count := 0;
              Binary64.Locals.keyword_adjustment := 0%float;
              Binary64.Locals.tally := Binary64.tally0;
              Binary64.Locals.sentence_balance := 0%float;
              Binary64.Locals.avg_negative_intensity := 0%float;
              Binary64.Locals.avg_positive_intensity := 0%float;
              Binary64.Locals.intensity_adjustment := 0%float;
              Binary64.Locals.combined_score := (-0.08)%float;
              Binary64.Locals.sentiment := NEGATIVE;
              Binary64.Locals.confidence := 0.08%float |}.
    repeat split; vm_compute; reflexivity.
Qed.

Lemma combined_score_formula_witness :
  float_sign_disagreement (Binary64.compound split_scores)
    (Binary64.polarity split_polarity)
  /\ exists l,
       Binary64.classify_locals toy split_scores split_polarity [] [] = Ok l
       /\ nth 5 (fusion_terms l) 0%float
          = (Binary64.polarity split_polarity * 0.10)%float.
Proof.
  assert (H : float_sign_disagreement (Binary64.compound split_scores)
                (Binary64.polarity split_polarity))
    by (left; split; reflexivity).
  split; [exact H |].
  destruct (combined_score_formula toy split_scores split_polarity [] [])
    as [(l & Hl & _ & _ & _ & _ & _ & _ & _ & Hyes & _) _].
  exists l. split; [exact Hl | exact (Hyes H)].
Defined.

(** * The preprocessing steps *)

(** Where the pattern matches nowhere, [re.sub] changes nothing. *)
Lemma re_sub_no_match (pattern : pystr -> option nat) (s : pystr) :
  matches_nowhere pattern s -> re_sub pattern s = s.
Proof.
  unfold re_sub. induction s as [| c s IH]; intro H; [reflexivity |].
  cbn [re_sub_aux]. rewrite (H [] (c :: s) eq_refl).
  f_equal. apply IH. intros before after E.
  apply (H (c :: before) after). rewrite E. reflexivity.
Qed.

Lemma url_pattern_spec (s : pystr) (n : nat) :
  url_pattern s = Some n <-> url_match s n.
Proof.
  destruct url_literals_nonspace as (H1 & H2 & H3).
  split.
  - unfold url_pattern, alt.
    destruct (lit_nonspace (py "http") s) as [a |] eqn:E1.
    { intro H. injection H as <-.
      apply (lit_nonspace_some s a H1) in E1.
      destruct E1 as (rest & Hs & Hr & Hn).
      exists (py "http"), rest. cbn [In]. tauto. }
    destruct (lit_nonspace (py "www") s) as [b |] eqn:E2.
    { intro H. injection H as <-.
      apply (lit_nonspace_some s b H2) in E2.
      destruct E2 as (rest & Hs & Hr & Hn).
      exists (py "www"), rest. cbn [In]. tauto. }
    intro E3. apply (lit_nonspace_some s n H3) in E3.
    destruct E3 as (rest & Hs & Hr & Hn).
    exists (py "https"), rest. cbn [In]. tauto.
  - intros (lit & rest & Hin & Hs & Hr & Hn).
    assert (Hlit : Forall (fun c => isspace c = false) lit).
    { cbn [In] in Hin. destruct Hin as [<- | [<- | [<- | []]]]; assumption. }
    assert (Hrun : n = nonspace_run s).
    { rewrite Hn, Hs. symmetry. apply nonspace_run_app. exact Hlit. }
    assert (Hm : lit_nonspace lit s = Some n).
    { apply (lit_nonspace_some s n Hlit). exists rest. tauto. }
    destruct (url_pattern s) as [m |] eqn:E.
    + destruct (url_pattern_whole_run _ E) as [-> _]. congruence.
    + exfalso. unfold url_pattern, alt in E.
      destruct (lit_nonspace (py "http") s) eqn:E1; [discriminate |].
      destruct (lit_nonspace (py "www") s) eqn:E2; [discriminate |].
      cbn [In] in Hin. destruct Hin as [<- | [<- | [<- | []]]]; congruence.
Qed.

Lemma email_backtrack_found (s : pystr) (n : nat) :
  forall k,
    (k <= nonspace_run s)%nat ->
    email_backtrack s k = Some n ->
    exists j,
      (1 <= j)%nat /\ nth_error s j = Some 64%N
      /\ (S j < nonspace_run s)%nat.
Proof.
  induction k as [| k IH]; intros Hk; [discriminate |].
  rewrite (email_backtrack_step s Hk).
  destruct (nth_error s (S k)) as [c |] eqn:Ec; [| apply IH; lia].
  destruct (c =? 64)%N eqn:E64; cbn [andb]; [| apply IH; lia].
  destruct (S (S k) <? nonspace_run s)%nat eqn:El; [| apply IH; lia].
  intros _. apply N.eqb_eq in E64. subst c. apply Nat.ltb_lt in El.
  exists (S k). split; [lia |]. split; assumption.
Qed.

Lemma email_pattern_spec (s : pystr) (n : nat) :
  email_pattern s = Some n <-> email_match s n.
Proof.
  unfold email_match. split.
  - intro H. split.
    + apply (email_pattern_whole_run _ H).
    + apply (@email_backtrack_found s n (nonspace_run s) (Nat.le_refl _) H).
  - intros [-> (j & Hj & Hat & Hlt)].
    destruct (email_pattern s) as [m |] eqn:E.
    + destruct (email_pattern_whole_run _ E) as [-> _]. reflexivity.
    + exfalso.
      apply (proj1 (email_backtrack_none s (Nat.le_refl _)) E j);
        [lia | exact Hat | exact Hlt].
Qed.

Lemma kept_char_spec (c : char) :
  kept_char c = true <-> letter_space_or_mark c.
Proof.
  unfold kept_char, is_ascii_letter, letter_space_or_mark.
  rewrite !orb_true_iff, !andb_true_iff, !N.leb_le, !N.eqb_eq.
  tauto.
Qed.

Lemma mixed_text_cleaned (self : Collaborators) :
  lower_contract self ->
  snd (preprocess_text self mixed_text) = py "visit or mail great films!".
Proof.
  intro Hlow. unfold preprocess_text. cbn [snd].
  rewrite (Hlow mixed_text) by (apply is_ascii_check; vm_compute; reflexivity).
  vm_compute. reflexivity.
Qed.

(** C9. Preprocessing lowercases, strips URLs, strips e-mail addresses,
    strips every character outside letters, whitespace and [!?.], collapses
    whitespace, tokenizes, drops stopwords and tokens of at most two
    characters, and lemmatizes, in this order.  A URL is one of http, www,
    https followed by characters up to the next whitespace, an e-mail
    address a run of such characters with an [@] inside; after its step
    neither pattern matches anywhere, and a text without a match is left as
    it is.  The characters kept are the ASCII letters, whitespace and [!],
    [?], [.].  The cleaned text holds only letters, spaces and these three
    marks, whatever the input; on the empty string preprocessing returns no
    token and the empty string.  On "Visit HTTP://Example.com or mail
    Bob@Example.org: 2 GREAT   films!" the cleaned text is "visit or mail
    great films!": the URL in capitals goes because lowercasing comes first,
    and the address goes with its colon because it is stripped before the
    other characters are. *)
Theorem preprocess_text_pipeline (self : Collaborators) (text : pystr) :
  let text_lower := str_lower self text in
  let without_urls := re_sub url_pattern text_lower in
  let without_emails := re_sub email_pattern without_urls in
  let cleaned :=
    collapse_whitespace (strip_other_characters without_emails) in
  preprocess_text self text
  = (List.map (lemmatize self)
       (drop_stopwords_and_short self (word_tokenize self cleaned)),
     cleaned)
  /\ (forall s n, url_pattern s = Some n <-> url_match s n)
  /\ matches_nowhere url_pattern without_urls
  /\ (matches_nowhere url_pattern text_lower -> without_urls = text_lower)
  /\ (forall s n, email_pattern s = Some n <-> email_match s n)
  /\ matches_nowhere email_pattern without_emails
  /\ (matches_nowhere email_pattern without_urls ->
      without_emails = without_urls)
  /\ (forall c,
         In c (strip_other_characters without_emails)
         <-> In c without_emails /\ letter_space_or_mark c)
  /\ Forall clean_char (snd (preprocess_text self text))
  /\ (lower_contract self -> word_tokenize self [] = [] ->
      preprocess_text self [] = ([], []))
  /\ (lower_contract self ->
      snd (preprocess_text self mixed_text)
      = py "visit or mail great films!").
Proof.
  cbv zeta.
  assert (E : preprocess_text self text
              = (List.map (lemmatize self)
                   (drop_stopwords_and_short self
                      (word_tokenize self
                         (collapse_whitespace
                            (strip_other_characters
                               (re_sub email_pattern
                                  (re_sub url_pattern
                                     (str_lower self text))))))),
                 collapse_whitespace
                   (strip_other_characters
                      (re_sub email_pattern
                         (re_sub url_pattern (str_lower self text)))))).
  { unfold preprocess_text. rewrite re_sub_special, drop_filter.
    reflexivity. }
  split; [exact E |].
  split; [apply url_pattern_spec |].
  split.
  { apply re_sub_complete;
      solve [apply url_pattern_whole_run | apply url_pattern_longer_run]. }
  split; [apply re_sub_no_match |].
  split; [apply email_pattern_spec |].
  split.
  { apply re_sub_complete;
      solve [apply email_pattern_whole_run
            | apply email_pattern_longer_run]. }
  split; [apply re_sub_no_match |].
  split.
  { intro c. unfold strip_other_characters.
    rewrite filter_In, kept_char_spec. reflexivity. }
  split.
  { rewrite E. cbn [snd]. apply collapse_whitespace_clean.
    apply strip_other_characters_kept. }
  split; [apply preprocess_text_empty | apply mixed_text_cleaned].
Qed.

Lemma preprocess_text_pipeline_witness :
  Forall clean_char (snd (preprocess_text toy love_text))
  /\ preprocess_text toy [] = ([], [])
  /\ snd (preprocess_text toy mixed_text) = py "visit or mail great films!".
Proof.
  split; [apply (preprocess_text_pipeline toy love_text) |].
  split.
  - apply (preprocess_text_pipeline toy love_text);
      [exact toy_lower_contract | reflexivity].
  - apply (preprocess_text_pipeline toy love_text).
    exact toy_lower_contract.
Defined.
